(** * air_temp_for_trip.py: a shallow embedding and its verified properties

    The script correlates a trip log (timestamp, latitude, longitude) with a
    gridded temperature dataset.  This file embeds

    - the part of Python's [datetime] module the script relies on
      (module [Calendar]: proleptic Gregorian ordinals, [timedelta]
      normalisation, [datetime] addition and subtraction, [strptime]'s range
      checks, [tm_yday], [str]);
    - [approximate_position], [six_hour_aligned_dates], [calc_hourly] and
      [main], statement by statement;
    - the pattern [TRIP_FILE_LINE], with the backtracking matcher of the
      fragment of [re] it is written in, and the path handling of the
      command line (POSIX paths).

    Modelling decisions.

    - A Python [float] is a rational ([Q]); a dictionary key made of floats
      is compared with [Qeq_bool].  NaN and infinities are outside the
      model.  [approximate_position] is embedded twice: with exact
      differences, as [main] calls it, and in module [Binary64] with the
      rounding of its two float operations, [360 + lon] and
      [p - current_position]; what the function returns for every query
      value is stated on the second.
    - Dataset values (numpy numbers) are an abstract type [num] with the
      arithmetic the script applies to them (class [Numeric]); the cubic
      spline that [scipy.interpolate.interp1d] fits is a member of the class,
      its shape checks are modelled.
    - A trip file is the list of its lines as [TRIP_FILE_LINE.match] and
      [float] classify them ([trip_line]); [match_line] makes that
      classification from the text of a line.  A [string] is a sequence of
      characters below 256; the classes [\d] and [\s] and [str.isdigit]
      are modelled on the ASCII characters, and the statements about the
      text of a line or of a file name assume it is ASCII ([ascii_text]).
    - [dict]s are insertion-ordered association lists; [trip_by_date] maps a
      timestamp to the key of the group it shares with [trip_by_location].
    - Exceptions are values of [exn]; [main] runs in a small monad that logs
      the dataset and output-file operations it performs. *)

From Stdlib Require Import ZArith List Lia Bool String Ascii QArith Qabs.
From Stdlib Require Import DecimalString Sorted Qround Lqa.
Import ListNotations.
Open Scope Z_scope.

(* ================================================================== *)
(** * Part I: definitions *)
(* ================================================================== *)

(** ** Exceptions and results *)

Inductive exn : Type :=
| SystemExit (code : Z)
| ValueError (msg : string)
| TypeError
| IndexError
| OverflowError
| AssertionError
| KeyError
| OSError.

Inductive result (A : Type) : Type :=
| Ok (a : A)
| Raise (e : exn).

Arguments Ok {A} a.
Arguments Raise {A} e.

Definition bind {A B : Type} (r : result A) (f : A -> result B) : result B :=
  match r with
  | Ok a => f a
  | Raise e => Raise e
  end.

Declare Scope result_scope.
Delimit Scope result_scope with result.
Notation "x <- e ;; k" := (bind e (fun x => k))
  (at level 61, e at next level, right associativity) : result_scope.
Notation "' p <- e ;; k" := (bind e (fun x => match x with p => k end))
  (at level 61, p pattern, e at next level, right associativity) : result_scope.

Definition is_ok {A : Type} (r : result A) : bool :=
  match r with Ok _ => true | Raise _ => false end.

(** [range(n)] *)
Definition range (n : Z) : list Z := map Z.of_nat (seq 0 (Z.to_nat n)).

(** ** Python's datetime module *)

Module Calendar.

Definition MAXORDINAL : Z := 3652059.

Definition is_leap (year : Z) : bool :=
  (year mod 4 =? 0) && (negb (year mod 100 =? 0) || (year mod 400 =? 0)).

Definition days_before_year (year : Z) : Z :=
  let y := year - 1 in
  y * 365 + y / 4 - y / 100 + y / 400.

Definition DAYS_IN_MONTH (month : Z) : Z :=
  match month with
  | 1 => 31 | 2 => 28 | 3 => 31 | 4 => 30 | 5 => 31 | 6 => 30
  | 7 => 31 | 8 => 31 | 9 => 30 | 10 => 31 | 11 => 30 | 12 => 31
  | _ => -1
  end.

Definition DAYS_BEFORE_MONTH (month : Z) : Z :=
  match month with
  | 1 => 0 | 2 => 31 | 3 => 59 | 4 => 90 | 5 => 120 | 6 => 151
  | 7 => 181 | 8 => 212 | 9 => 243 | 10 => 273 | 11 => 304 | 12 => 334
  | _ => -1
  end.

Definition days_in_month (year month : Z) : Z :=
  if (month =? 2) && is_leap year then 29 else DAYS_IN_MONTH month.

Definition days_before_month (year month : Z) : Z :=
  DAYS_BEFORE_MONTH month + (if (2 <? month) && is_leap year then 1 else 0).

Definition ymd2ord (year month day : Z) : Z :=
  days_before_year year + days_before_month year month + day.

Definition DI400Y : Z := 146097.
Definition DI100Y : Z := 36524.
Definition DI4Y : Z := 1461.

(** The tail of [_ord2ymd]: month and day of the [n]-th day (from 0) of a
    year, by the estimate [(n + 50) >> 5] corrected downwards when it
    overshoots. *)
Definition month_day (leapyear : bool) (n : Z) : Z * Z :=
  let month := Z.shiftr (n + 50) 5 in
  let preceding :=
    DAYS_BEFORE_MONTH month + (if (2 <? month) && leapyear then 1 else 0) in
  let '(month, preceding) :=
    if n <? preceding
    then (month - 1,
          preceding - (DAYS_IN_MONTH (month - 1)
                       + (if (month - 1 =? 2) && leapyear then 1 else 0)))
    else (month, preceding) in
  (month, n - preceding + 1).

(** [_ord2ymd]: ordinal to (year, month, day), 0001-01-01 being day 1. *)
Definition ord2ymd (ordinal : Z) : Z * Z * Z :=
  let n := ordinal - 1 in
  let n400 := n / DI400Y in
  let n := n mod DI400Y in
  let year := n400 * 400 + 1 in
  let n100 := n / DI100Y in
  let n := n mod DI100Y in
  let n4 := n / DI4Y in
  let n := n mod DI4Y in
  let n1 := n / 365 in
  let n := n mod 365 in
  let year := year + n100 * 100 + n4 * 4 + n1 in
  if (n1 =? 4) || (n100 =? 4) then (year - 1, 12, 31)
  else
    let leapyear := (n1 =? 3) && (negb (n4 =? 24) || (n100 =? 3)) in
    let '(month, d) := month_day leapyear n in
    (year, month, d).

Record datetime : Type := mk_datetime {
  year : Z; month : Z; day : Z;
  hour : Z; minute : Z; second : Z; microsecond : Z
}.

Record timedelta : Type := mk_timedelta {
  days : Z; seconds : Z; microseconds : Z
}.

Definition date_ok (y m d : Z) : bool :=
  (1 <=? y) && (y <=? 9999) && (1 <=? m) && (m <=? 12)
  && (1 <=? d) && (d <=? days_in_month y m).

Definition time_ok (hh mm ss us : Z) : bool :=
  (0 <=? hh) && (hh <=? 23) && (0 <=? mm) && (mm <=? 59)
  && (0 <=? ss) && (ss <=? 59) && (0 <=? us) && (us <=? 999999).

(** The class invariant of a [datetime] object. *)
Definition datetime_ok (t : datetime) : bool :=
  date_ok (year t) (month t) (day t)
  && time_ok (hour t) (minute t) (second t) (microsecond t).

(** [datetime.datetime(year, month, day, hour, minute, second, microsecond)] *)
Definition datetime_new (y m d hh mm ss us : Z) : result datetime :=
  if date_ok y m d && time_ok hh mm ss us
  then Ok (mk_datetime y m d hh mm ss us)
  else Raise (ValueError "field out of range").

(** Equality of naive datetimes: all fields agree. *)
Definition datetime_eqb (a b : datetime) : bool :=
  (year a =? year b) && (month a =? month b) && (day a =? day b)
  && (hour a =? hour b) && (minute a =? minute b) && (second a =? second b)
  && (microsecond a =? microsecond b).

Definition toordinal (t : datetime) : Z := ymd2ord (year t) (month t) (day t).

(** Seconds since midnight, as [datetime.__sub__] and [__add__] compute it. *)
Definition day_seconds (t : datetime) : Z :=
  second t + minute t * 60 + hour t * 3600.

(** [timedelta(days, seconds, microseconds, hours=...)] on integers:
    carries are propagated upwards and the day count is bounded. *)
Definition timedelta_new (d s us hours : Z) : result timedelta :=
  let s := s + hours * 3600 + us / 1000000 in
  let us := us mod 1000000 in
  let d := d + s / 86400 in
  let s := s mod 86400 in
  if Z.abs d <=? 999999999 then Ok (mk_timedelta d s us)
  else Raise OverflowError.

(** [a - b] for two naive datetimes. *)
Definition datetime_sub (a b : datetime) : result timedelta :=
  timedelta_new (toordinal a - toordinal b) (day_seconds a - day_seconds b)
                (microsecond a - microsecond b) 0.

(** [t + delta] *)
Definition datetime_add (t : datetime) (delta : timedelta) : result datetime :=
  (self <- timedelta_new (toordinal t) (second t + minute t * 60)
                         (microsecond t) (hour t) ;;
   sum <- timedelta_new (days self + days delta) (seconds self + seconds delta)
                        (microseconds self + microseconds delta) 0 ;;
   let hh := seconds sum / 3600 in
   let rem := seconds sum mod 3600 in
   let mm := rem / 60 in
   let ss := rem mod 60 in
   if (0 <? days sum) && (days sum <=? MAXORDINAL)
   then let '(y, m, d) := ord2ymd (days sum) in
        Ok (mk_datetime y m d hh mm ss (microseconds sum))
   else Raise OverflowError)%result.

(** The date text [TRIP_FILE_LINE] captures: six groups of digits. *)
Record date_text : Type := mk_date_text {
  txt_year : Z; txt_month : Z; txt_day : Z;
  txt_hour : Z; txt_minute : Z; txt_second : Z
}.

(** [datetime.strptime(date, "%Y-%m-%d %H:%M:%S")] on such a text: the
    fields are range-checked, anything out of range is a [ValueError]. *)
Definition strptime (t : date_text) : result datetime :=
  if date_ok (txt_year t) (txt_month t) (txt_day t)
     && time_ok (txt_hour t) (txt_minute t) (txt_second t) 0
  then Ok (mk_datetime (txt_year t) (txt_month t) (txt_day t)
                       (txt_hour t) (txt_minute t) (txt_second t) 0)
  else Raise (ValueError "time data does not match format").

(** [t.timetuple().tm_yday] *)
Definition tm_yday (t : datetime) : Z :=
  days_before_month (year t) (month t) + day t.

(** Microseconds since the start of day 0: the position of [t] on the time
    line (used in statements only). *)
Definition timestamp_us (t : datetime) : Z :=
  (toordinal t * 86400 + day_seconds t) * 1000000 + microsecond t.

Definition digit (d : Z) : ascii := ascii_of_nat (48 + Z.to_nat (d mod 10)).

Fixpoint zero_padded (width : nat) (v : Z) : string :=
  match width with
  | O => EmptyString
  | S w => String.append (zero_padded w (v / 10)) (String (digit v) EmptyString)
  end.

(** [str(t)]: ISO format with a space between date and time. *)
Definition datetime_str (t : datetime) : string :=
  String.concat ""
    [ zero_padded 4 (year t); "-"; zero_padded 2 (month t); "-";
      zero_padded 2 (day t); " "; zero_padded 2 (hour t); ":";
      zero_padded 2 (minute t); ":"; zero_padded 2 (second t);
      if (microsecond t =? 0)%Z then ""
      else String.append "." (zero_padded 6 (microsecond t)) ]%string.

(** The table check behind [month_day]: the result is a date of the year
    and lies [n] days after January 1st. *)
Definition month_day_check (leap : bool) (n : Z) : bool :=
  let '(m, d) := month_day leap n in
  (1 <=? m) && (m <=? 12) && (1 <=? d)
  && (d <=? DAYS_IN_MONTH m + (if (m =? 2) && leap then 1 else 0))
  && (DAYS_BEFORE_MONTH m + (if (2 <? m) && leap then 1 else 0) + d =? n + 1).

End Calendar.

Import Calendar.



(** ** Strings *)

Definition newline : string := String (ascii_of_nat 10) EmptyString.

(** [c.isdigit()] on an ASCII character *)
Definition isdigit (c : ascii) : bool :=
  let n := nat_of_ascii c in (48 <=? n)%nat && (n <=? 57)%nat.

Fixpoint string_filter (f : ascii -> bool) (s : string) : string :=
  match s with
  | EmptyString => EmptyString
  | String c r => if f c then String c (string_filter f r) else string_filter f r
  end.

Fixpoint int_of_digits_from (acc : Z) (s : string) : Z :=
  match s with
  | EmptyString => acc
  | String c r => int_of_digits_from (acc * 10 + (Z.of_nat (nat_of_ascii c) - 48)) r
  end.

(** [int(s)] for a string of decimal digits *)
Definition int_of_digits (s : string) : Z := int_of_digits_from 0 s.

(** [s.split(sep)] for a one-character separator *)
Fixpoint split_on (sep : ascii) (s : string) : list string :=
  match s with
  | EmptyString => [EmptyString]
  | String c r =>
      let parts := split_on sep r in
      if Ascii.eqb c sep then EmptyString :: parts
      else match parts with
           | h :: t => String c h :: t
           | [] => [String c EmptyString]
           end
  end.

(** [os.path.basename(path)] *)
Definition basename (path : string) : string :=
  last (split_on "/"%char path) EmptyString.

(** [".".join(name.split(".")[:-1])] *)
Definition drop_extension (name : string) : string :=
  String.concat "." (removelast (split_on "."%char name)).

(** ** The command line *)

(** [os.path.isabs(path)] *)
Definition isabs (path : string) : bool :=
  match path with
  | String c _ => Ascii.eqb c "/"
  | EmptyString => false
  end.

(** [path.endswith("/")] *)
Fixpoint ends_with_slash (path : string) : bool :=
  match path with
  | EmptyString => false
  | String c EmptyString => Ascii.eqb c "/"
  | String _ r => ends_with_slash r
  end.

(** [os.path.join(a, b)] *)
Definition path_join (a b : string) : string :=
  if isabs b then b
  else if String.eqb a EmptyString || ends_with_slash a then String.append a b
  else String.append a (String "/" b).

(** The [type] of the arguments NC_FILE and --trip-file: a relative path
    is taken from the directory of the script, [SELF_PATH]. *)
Definition script_relative (SELF_PATH file : string) : string :=
  if negb (isabs file) then path_join SELF_PATH file else file.

(** ** The record pattern

    The fragment of [re] in which [TRIP_FILE_LINE] is written: greedy
    repetitions of a character class, concatenation and capturing groups
    that are not nested, matched by backtracking as [re.match] does (the
    longest repetition is tried first, then shorter ones).  A line is
    ASCII text. *)

Inductive char_class : Type :=
| Digit
| Space
| NonSpace
| NotNewline
| Literal (c : ascii).

(** [\s] on an ASCII character: blank, [\t \n \v \f \r] and the four
    separators 0x1c to 0x1f. *)
Definition re_isspace (c : ascii) : bool :=
  let n := nat_of_ascii c in
  (n =? 32)%nat || ((9 <=? n)%nat && (n <=? 13)%nat)
  || ((28 <=? n)%nat && (n <=? 31)%nat).

Definition class_mem (cl : char_class) (c : ascii) : bool :=
  match cl with
  | Digit => isdigit c
  | Space => re_isspace c
  | NonSpace => negb (re_isspace c)
  | NotNewline => negb (Ascii.eqb c (ascii_of_nat 10))
  | Literal c' => Ascii.eqb c c'
  end.

(** [Rep cl lo hi] is [cl{lo,hi}], without upper bound when [hi] is [None]. *)
Inductive regex : Type :=
| Eps
| Rep (cl : char_class) (lo : nat) (hi : option nat)
| Cat (r1 r2 : regex)
| Group (r : regex).

(** The number of leading characters of [s] in [cl], at most [limit]. *)
Fixpoint span (cl : char_class) (limit : option nat) (s : string) : nat :=
  match s with
  | EmptyString => O
  | String c r =>
      match limit with
      | Some O => O
      | _ => if class_mem cl c then S (span cl (option_map Nat.pred limit) r) else O
      end
  end.

Fixpoint string_drop (n : nat) (s : string) : string :=
  match n, s with
  | S n', String _ r => string_drop n' r
  | _, _ => s
  end.

Fixpoint string_take (n : nat) (s : string) : string :=
  match n, s with
  | S n', String c r => String c (string_take n' r)
  | _, _ => EmptyString
  end.

(** The continuation is tried after [lo + extra] characters of [s], then
    after one less, down to [lo]. *)
Fixpoint backtrack {A : Type} (k : string -> option A) (s : string) (lo extra : nat)
  : option A :=
  match k (string_drop (lo + extra) s) with
  | Some a => Some a
  | None =>
      match extra with
      | O => None
      | S extra' => backtrack k s lo extra'
      end
  end.

(** [groups] holds the texts of the groups closed so far, in order. *)
Fixpoint re_run (r : regex) (s : string) (groups : list string)
         (k : string -> list string -> option (list string)) : option (list string) :=
  match r with
  | Eps => k s groups
  | Rep cl lo hi =>
      let n := span cl hi s in
      if (n <? lo)%nat then None
      else backtrack (fun rest => k rest groups) s lo (n - lo)
  | Cat r1 r2 => re_run r1 s groups (fun rest groups' => re_run r2 rest groups' k)
  | Group r =>
      re_run r s groups
             (fun rest groups' =>
                k rest (groups'
                          ++ [string_take (String.length s - String.length rest) s]))
  end.

(** [pattern.match(s)], as the [groups()] of the match object. *)
Definition re_match (r : regex) (s : string) : option (list string) :=
  re_run r s [] (fun _ groups => Some groups).

Definition re_seq (rs : list regex) : regex := fold_right Cat Eps rs.
Definition re_digits (n : nat) : regex := Rep Digit n (Some n).
Definition re_char (c : ascii) : regex := Rep (Literal c) 1%nat (Some 1%nat).

(** [TRIP_FILE_LINE] *)
Definition TRIP_FILE_LINE : regex :=
  re_seq
    [ Group (re_seq [re_digits 4; re_char "-"; re_digits 2; re_char "-"; re_digits 2;
                     re_char " ";
                     re_digits 2; re_char ":"; re_digits 2; re_char ":"; re_digits 2]);
      Rep NonSpace 0 None; Rep Space 1 None;
      Group (Rep NonSpace 1 None); Rep Space 1 None;
      Group (Rep NonSpace 1 None); Rep Space 0 (Some 1%nat); Rep NotNewline 0 None ].

(** The six numbers that [strptime] reads, with the format
    [%Y-%m-%d %H:%M:%S], from a text that [TRIP_FILE_LINE] captured. *)
Definition date_text_of_string (s : string) : date_text :=
  mk_date_text (int_of_digits (substring 0 4 s)) (int_of_digits (substring 5 2 s))
               (int_of_digits (substring 8 2 s)) (int_of_digits (substring 11 2 s))
               (int_of_digits (substring 14 2 s)) (int_of_digits (substring 17 2 s)).

(** ** Insertion-ordered dictionaries *)

Section Dict.
Context {K V : Type} (eqb : K -> K -> bool).

Definition dict : Type := list (K * V).

Fixpoint dict_get (k : K) (d : dict) : option V :=
  match d with
  | [] => None
  | (k', v) :: r => if eqb k' k then Some v else dict_get k r
  end.

Definition dict_mem (k : K) (d : dict) : bool :=
  match dict_get k d with Some _ => true | None => false end.

(** [d[k] = v]: an existing key keeps its place, a new one goes last. *)
Fixpoint dict_set (k : K) (v : V) (d : dict) : dict :=
  match d with
  | [] => [(k, v)]
  | (k', v') :: r =>
      if eqb k' k then (k', v) :: r else (k', v') :: dict_set k v r
  end.

Definition dict_keys (d : dict) : list K := map fst d.
Definition dict_values (d : dict) : list V := map snd d.

(** No two entries have equal keys (the invariant of a dictionary). *)
Fixpoint dict_nodup (d : dict) : Prop :=
  match d with
  | [] => True
  | (k, _) :: r => dict_get k r = None /\ dict_nodup r
  end.
End Dict.

Arguments dict : clear implicits.

(** ** The grid *)

(** [NC_LON]: 0.0 -> 357.5 *)
Definition NC_LON : list Q := map (fun n => 0 + (5 # 2) * inject_Z n)%Q (range 144).
(** [NC_LAT]: 90.0 -> -90.0 *)
Definition NC_LAT : list Q := map (fun n => 90 - (5 # 2) * inject_Z n)%Q (range 73).
Definition NC_LEVELS_COUNT : nat := 17.

Definition Qltb (a b : Q) : bool := negb (Qle_bool b a).

(** [min(items, key=key)]: the first item whose key no other item undercuts. *)
Fixpoint min_from (key : Q -> Q) (best : Q) (items : list Q) : Q :=
  match items with
  | [] => best
  | p :: rest => min_from key (if Qltb (key p) (key best) then p else best) rest
  end.

Definition py_min (key : Q -> Q) (items : list Q) : result Q :=
  match items with
  | [] => Raise (ValueError "min() arg is an empty sequence")
  | p :: rest => Ok (min_from key p rest)
  end.

(** [items.index(pos)] *)
Fixpoint tuple_index (items : list Q) (pos : Q) : result nat :=
  match items with
  | [] => Raise (ValueError "tuple.index(x): x not in tuple")
  | p :: rest =>
      if Qeq_bool p pos then Ok O
      else (i <- tuple_index rest pos ;; Ok (S i))%result
  end.

(** [approximate_position(nc_positions, lat=None, lon=None)].  The
    [lru_cache] around it is transparent: the function is pure. *)
Definition approximate_position (nc_positions : list Q) (lat lon : option Q)
  : result nat :=
  (current_position <-
     match lat with
     | Some lat => Ok lat
     | None =>
         match lon with
         | Some lon => Ok (if Qle_bool 0 lon then lon else 360 + lon)%Q
         | None => Raise TypeError
         end
     end ;;
   pos <- py_min (fun p => Qabs (p - current_position)) nc_positions ;;
   tuple_index nc_positions pos)%result.

(** ** Arithmetic of binary64

    A Python float is a binary64 number; its value is a rational.  Sums
    and differences are rounded to the nearest binary64, ties to the one
    with an even significand.  In units of 2^-1074, the smallest positive
    binary64, every binary64 is an integer, and a number that lies between
    2^(52+s) and 2^(53+s) is rounded to a multiple of 2^s.  A result
    beyond the largest binary64 would be an infinity; the script adds a
    finite float and a number of magnitude 360 at most, which never gives
    one. *)

Module Binary64.

(** The integer nearest to [x]; of two equally near, the even one. *)
Definition round_half_even (x : Q) : Z :=
  let f := Qfloor x in
  match Qcompare (x - inject_Z f) (1 # 2) with
  | Lt => f
  | Gt => f + 1
  | Eq => if Z.even f then f else f + 1
  end.

(** A number [scaled >= 0] of units, rounded to 53 significant bits. *)
Definition round_units (scaled : Q) : Z :=
  let shift := Z.max (Z.log2 (Qfloor scaled) - 52) 0 in
  round_half_even (scaled / inject_Z (2 ^ shift)) * 2 ^ shift.

(** The binary64 nearest to a rational [x >= 0]. *)
Definition round_magnitude (x : Q) : Q :=
  (inject_Z (round_units (x * inject_Z (2 ^ 1074))) / inject_Z (2 ^ 1074))%Q.

(** The binary64 nearest to [x], as a reduced fraction. *)
Definition round (x : Q) : Q :=
  Qred (if Qle_bool 0 x then round_magnitude x else - round_magnitude (- x))%Q.

(** [a + b] and [a - b] on floats *)
Definition add (a b : Q) : Q := round (a + b).
Definition sub (a b : Q) : Q := round (a - b).

(** [approximate_position] with the roundings of its two operations:
    [360 + lon] and [p - current_position]; [math.fabs] and the
    comparisons are exact. *)
Definition approximate_position (nc_positions : list Q) (lat lon : option Q)
  : result nat :=
  (current_position <-
     match lat with
     | Some lat => Ok lat
     | None =>
         match lon with
         | Some lon => Ok (if Qle_bool 0 lon then lon else add 360 lon)
         | None => Raise TypeError
         end
     end ;;
   pos <- py_min (fun p => Qabs (sub p current_position)) nc_positions ;;
   tuple_index nc_positions pos)%result.

End Binary64.

(** ** Date Aligner *)

(** [six_hour_aligned_dates(start, end)]: the generator, as the list of the
    items it yields; an item that raises ends the iteration with that
    exception. *)
Definition six_hour_aligned_dates (start end_ : datetime) : list (result datetime) :=
  match datetime_new (year start) (month start) (day start) 0 0 0 0 with
  | Raise e => [Raise e]
  | Ok start_from_zero =>
      match datetime_sub end_ start with
      | Raise e => [Raise e]
      | Ok delta =>
          map (fun n => (step <- timedelta_new 0 0 0 (n * 6) ;;
                         datetime_add start_from_zero step)%result)
              (range ((days delta + 1) * 4))
      end
  end.

(** ** Numbers of the dataset and the interpolation *)

Class Numeric (num : Type) : Type := {
  num_sub : num -> num -> num;
  num_mul : num -> num -> num;
  num_div : num -> num -> num;
  num_of_int : Z -> num;
  (** a float literal *)
  num_of_float : Q -> num;
  (** the value at [x] of the cubic spline through the points
      [(x_old[i], y[i])] *)
  interp_cubic : list Z -> list num -> Z -> num;
  (** [str] of a dataset number and of a float *)
  num_str : num -> string;
  float_str : Q -> string
}.

(** The [air] variable: [nc_times] time slices, each of the fixed shape
    17 x 73 x 144 (level, latitude, longitude). *)
Record dataset (num : Type) : Type := mk_dataset {
  nc_times : Z;
  nc_air : Z -> nat -> nat -> nat -> num
}.

Arguments nc_times {num} d.
Arguments nc_air {num} d.

(** [range(n)[:-5]] *)
Definition range_without_last5 (n : Z) : list Z := range (Z.max (n - 5) 0).

(** The group of a location: the value stored in [trip_by_location]. *)
Record loc_info : Type := mk_loc_info {
  lat : Q; lon : Q;
  nc_lat : Q; nc_lon : Q;
  nc_lat_index : nat; nc_lon_index : nat;
  start_date : datetime; end_date : datetime
}.

Definition location : Type := (Q * Q)%type.

Definition location_eqb (a b : location) : bool :=
  Qeq_bool (fst a) (fst b) && Qeq_bool (snd a) (snd b).

(** A line of the trip file, as [TRIP_FILE_LINE.match] sees it: no match,
    or the three captured texts.  A coordinate text is given by what
    [float] makes of it ([None]: [float] raises [ValueError]). *)
Inductive trip_line : Type :=
| NoMatch
| Matched (date : date_text) (lat_text lon_text : option Q).

Definition py_float (text : option Q) : result Q :=
  match text with
  | Some q => Ok q
  | None => Raise (ValueError "could not convert string to float")
  end.

Record trip : Type := mk_trip {
  trip_by_location : dict location loc_info;
  (** values are the keys of the groups in [trip_by_location] *)
  trip_by_date : dict datetime location;
  trip_end_date : option datetime
}.

Definition empty_trip : trip := mk_trip [] [] None.

Definition set_end_date (date : datetime) (g : loc_info) : loc_info :=
  mk_loc_info (lat g) (lon g) (nc_lat g) (nc_lon g)
              (nc_lat_index g) (nc_lon_index g) (start_date g) date.

Definition nth_or_IndexError {A : Type} (l : list A) (i : nat) : result A :=
  match nth_error l i with
  | Some a => Ok a
  | None => Raise IndexError
  end.

(** The body of the loop over the lines of the trip file. *)
Definition read_line (t : trip) (line : trip_line) : result trip :=
  match line with
  | NoMatch => Ok t
  | Matched date lat_text lon_text =>
      (date <- strptime date ;;
       lat <- py_float lat_text ;;
       lon <- py_float lon_text ;;
       let location := (lat, lon) in
       by_location <-
         match dict_get location_eqb location (trip_by_location t) with
         | None =>
             lat_index <- approximate_position NC_LAT (Some lat) None ;;
             lon_index <- approximate_position NC_LON None (Some lon) ;;
             nc_lat <- nth_or_IndexError NC_LAT lat_index ;;
             nc_lon <- nth_or_IndexError NC_LON lon_index ;;
             Ok (dict_set location_eqb location
                   (mk_loc_info lat lon nc_lat nc_lon lat_index lon_index
                                date date)
                   (trip_by_location t))
         | Some g =>
             Ok (dict_set location_eqb location (set_end_date date g)
                          (trip_by_location t))
         end ;;
       Ok (mk_trip by_location
                   (dict_set datetime_eqb date location (trip_by_date t))
                   (Some date)))%result
  end.

Fixpoint read_lines (t : trip) (lines : list trip_line) : result trip :=
  match lines with
  | [] => Ok t
  | line :: rest => (t' <- read_line t line ;; read_lines t' rest)%result
  end.

Definition read_trip (lines : list trip_line) : result trip :=
  read_lines empty_trip lines.

(** A line of the trip file as [main] classifies it; [float_of_string] is
    Python's [float] on a text ([None] when it raises [ValueError]). *)
Definition match_line (float_of_string : string -> option Q) (line : string)
  : trip_line :=
  match re_match TRIP_FILE_LINE line with
  | Some [date; lat; lon] =>
      Matched (date_text_of_string date) (float_of_string lat) (float_of_string lon)
  | _ => NoMatch
  end.

(** ** The log of file operations *)

Inductive event : Type :=
| EvOpenDataset (path : string)
| EvReadSlice (time_index : Z)
| EvOpenOut (path : string)
| EvWrite (line : string).

Definition IO (A : Type) : Type := (list event * result A)%type.

Definition io_ret {A : Type} (a : A) : IO A := ([], Ok a).
Definition io_raise {A : Type} (e : exn) : IO A := ([], Raise e).
Definition io_lift {A : Type} (r : result A) : IO A := ([], r).
Definition io_emit (e : event) : IO unit := ([e], Ok tt).

Definition io_bind {A B : Type} (m : IO A) (f : A -> IO B) : IO B :=
  match m with
  | (log, Ok a) => let '(log', r) := f a in (log ++ log', r)
  | (log, Raise e) => (log, Raise e)
  end.

Declare Scope io_scope.
Delimit Scope io_scope with io.
Notation "x <- e ;; k" := (io_bind e (fun x => k))
  (at level 61, e at next level, right associativity) : io_scope.
Notation "e ;; k" := (io_bind e (fun _ => k))
  (at level 61, right associativity) : io_scope.

(** The exit status of the process for an outcome of [main]: an uncaught
    exception ends the interpreter with status 1, [SystemExit] with its
    code. *)
Definition exit_status {A : Type} (r : result A) : Z :=
  match r with
  | Ok _ => 0
  | Raise (SystemExit code) => code
  | Raise _ => 1
  end.

Definition is_dataset_event (e : event) : bool :=
  match e with
  | EvOpenDataset _ | EvReadSlice _ => true
  | _ => false
  end.

(** [OUT_FILE_LINE]: 23 positional fields separated by four spaces. *)
Definition OUT_FILE_FIELDS : nat := (5 + 18)%nat.
Definition OUT_FILE_SEP : string := "    ".

Definition OUT_FILE_LINE_format (fields : list string) : result string :=
  if (List.length fields <? OUT_FILE_FIELDS)%nat then Raise IndexError
  else Ok (String.append (String.concat OUT_FILE_SEP (firstn OUT_FILE_FIELDS fields))
                         newline).

Definition header_fields : list string :=
  ["date"; "lat_orig"; "lon_orig"; "lat_nc"; "lon_nc"; "level_1013"; "level_1000"]%string
  ++ map (fun _ => "level_X"%string) (range 16).

(** [int(x)] of a float: truncation towards zero *)
Definition py_int (x : Q) : Z := Z.quot (Qnum x) (Z.pos (Qden x)).

(** The left-hand side of the sanity check, [int(n / 24 * 4)]. *)
Definition expected_samples (n : nat) : Z :=
  py_int (inject_Z (Z.of_nat n) / 24 * 4)%Q.

(** [zip(items, *columns)]: stops at the shortest of its arguments. *)
Definition heads_tails {B : Type} (columns : list (list B))
  : option (list B * list (list B)) :=
  fold_right (fun col acc =>
                match col, acc with
                | b :: rest, Some (hs, ts) => Some (b :: hs, rest :: ts)
                | _, _ => None
                end) (Some ([], [])) columns.

Fixpoint zip_star {A B : Type} (items : list A) (columns : list (list B))
  : list (A * list B) :=
  match items with
  | [] => []
  | a :: items' =>
      match heads_tails columns with
      | None => []
      | Some (hs, ts) => (a, hs) :: zip_star items' ts
      end
  end.

Record args : Type := mk_args {
  nc_file : string;
  trip_file : string;
  out_file : option string
}.

(** [parser.parse_args()] for a command line with the positional NC_FILE
    and the options given; the default of --trip-file goes through its
    [type] as well. *)
Definition parse_args (SELF_PATH NC_FILE : string) (trip_file_opt out_file_opt : option string)
  : args :=
  mk_args (script_relative SELF_PATH NC_FILE)
          (script_relative SELF_PATH
             (match trip_file_opt with Some f => f | None => "sample.txt"%string end))
          out_file_opt.

Section Program.
Context {num : Type} {N : Numeric num}.

(** [nc_air_by_time[time_index]] *)
Definition nc_getitem (ds : dataset num) (i : Z)
  : result (nat -> nat -> nat -> num) :=
  if (0 <=? i) && (i <? nc_times ds) then Ok (nc_air ds i)
  else if (- nc_times ds <=? i) && (i <? 0) then Ok (nc_air ds (nc_times ds + i))
  else Raise IndexError.

(** [data[k].append(v)] *)
Fixpoint append_at (k : nat) (v : num) (data : list (list num))
  : result (list (list num)) :=
  match data, k with
  | [], _ => Raise IndexError
  | row :: rest, O => Ok ((row ++ [v]) :: rest)
  | row :: rest, S k' => (rest' <- append_at k' v rest ;; Ok (row :: rest'))%result
  end.

(** ** Temporal Upsampler *)

(** [scipy.interpolate.interp1d(x, y, kind="cubic")]: every row of [y]
    has as many entries as [x], and at least four. *)
Definition interp1d (x : list Z) (y : list (list num))
  : result (list Z -> result (list (list num))) :=
  if negb (forallb (fun row => (List.length row =? List.length x)%nat) y)
  then Raise (ValueError "x and y arrays must be equal in List.length along interpolation axis.")
  else if (List.length x <? 4)%nat
  then Raise (ValueError "x and y arrays must have at least 4 entries")
  else Ok (fun x_new =>
             if forallb (fun v => (hd 0 x <=? v) && (v <=? last x 0)) x_new
             then Ok (map (fun row => map (interp_cubic x row) x_new) y)
             else Raise (ValueError "A value in x_new is outside the interpolation range.")).

Definition calc_hourly (data : list (list num)) : result (list (list num)) :=
  (data0 <- nth_or_IndexError data 0%nat ;;
   let x_old := map (fun x => 0 + x * 6) (range (Z.of_nat (List.length data0))) in
   interpolation_func <- interp1d x_old data ;;
   let x_new := range_without_last5 (Z.of_nat (List.length data0) * 6) in
   interpolation_func x_new)%result.

(** ** Grid Sampler *)

Fixpoint append_levels (air : nat -> nat -> nat -> num) (lat_i lon_i : nat)
         (levels : list nat) (nc_data : list (list num))
  : result (list (list num)) :=
  match levels with
  | [] => Ok nc_data
  | level_i :: rest =>
      (nc_data' <- append_at (level_i + 1)%nat
                     (num_sub (air level_i lat_i lon_i) (num_of_float (27315 # 100)))
                     nc_data ;;
       append_levels air lat_i lon_i rest nc_data')%result
  end.

(** The synthetic surface level of one slice. *)
Definition lvl_1013 (air : nat -> nat -> nat -> num) (lat_i lon_i : nat) : num :=
  let lvl_1013 := num_sub (air 0%nat lat_i lon_i) (num_of_float (27315 # 100)) in
  num_sub lvl_1013
          (num_mul (num_div (num_of_int 13) (num_of_int 75))
                   (num_sub (air 1%nat lat_i lon_i) (air 0%nat lat_i lon_i))).

(** The body of the inner loop for a date not yet processed. *)
Definition sample_date (ds : dataset num) (lat_i lon_i : nat) (date : datetime)
           (nc_data : list (list num)) : IO (list (list num)) :=
  (let time_index := tm_yday date * 4 - 1 in
   io_emit (EvReadSlice time_index) ;;
   air <- io_lift (nc_getitem ds time_index) ;;
   nc_data <- io_lift (append_at 0%nat (lvl_1013 air lat_i lon_i) nc_data) ;;
   io_lift (append_levels air lat_i lon_i (seq 0%nat NC_LEVELS_COUNT) nc_data))%io.

Definition sampler_state : Type := (list (list num) * list datetime)%type.

Fixpoint sample_dates (ds : dataset num) (lat_i lon_i : nat)
         (dates : list (result datetime)) (st : sampler_state)
  : IO sampler_state :=
  match dates with
  | [] => io_ret st
  | next :: rest =>
      (date <- io_lift next ;;
       let '(nc_data, processed_dates) := st in
       if existsb (datetime_eqb date) processed_dates
       then sample_dates ds lat_i lon_i rest st
       else
         nc_data' <- sample_date ds lat_i lon_i date nc_data ;;
         sample_dates ds lat_i lon_i rest (nc_data', processed_dates ++ [date]))%io
  end.

Fixpoint sample_locations (ds : dataset num) (locs : list loc_info)
         (st : sampler_state) : IO sampler_state :=
  match locs with
  | [] => io_ret st
  | loc :: rest =>
      (st' <- sample_dates ds (nc_lat_index loc) (nc_lon_index loc)
                (six_hour_aligned_dates (start_date loc) (end_date loc)) st ;;
       sample_locations ds rest st')%io
  end.

Definition initial_state : sampler_state :=
  (map (fun _ => []) (seq 0%nat (1 + NC_LEVELS_COUNT)%nat), []).

(** ** Report Writer *)

Definition row_fields (t : trip) (date : datetime) (loc : location)
           (levels : list num) : result (list string) :=
  match dict_get location_eqb loc (trip_by_location t) with
  | None => Raise KeyError
  | Some loc_info =>
      Ok ([datetime_str date; float_str (lat loc_info); float_str (lon loc_info);
           float_str (nc_lat loc_info); float_str (nc_lon loc_info)]
            ++ map num_str levels)
  end.

Fixpoint write_rows (t : trip) (rows : list ((datetime * location) * list num))
  : IO unit :=
  match rows with
  | [] => io_ret tt
  | ((date, loc), levels) :: rest =>
      (fields <- io_lift (row_fields t date loc levels) ;;
       line <- io_lift (OUT_FILE_LINE_format fields) ;;
       io_emit (EvWrite line) ;;
       write_rows t rest)%io
  end.

Definition default_out_file (a : args) : string :=
  String.concat ""
    ["out_for_"; drop_extension (basename (trip_file a)); "_with_";
     drop_extension (basename (nc_file a)); ".txt"]%string.

(** ** main

    [trip_lines] is the content of [args.trip_file]; [nc_open path] is
    what [netCDF4.Dataset(path).variables["air"]] gives. *)
Definition main (a : args) (trip_lines : list trip_line)
           (nc_open : string -> result (dataset num)) : IO unit :=
  let nc_file_year := string_filter isdigit (nc_file a) in
  if String.eqb nc_file_year EmptyString
  then io_raise (ValueError "NC_FILE's filename should contain a year")
  else
    (t <- io_lift (read_trip trip_lines) ;;
     match trip_end_date t with
     | None => io_raise (SystemExit 1)
     | Some trip_end_date =>
         if negb (year trip_end_date =? int_of_digits nc_file_year)
         then io_raise (ValueError "Trip should be in boundaries of NC_FILE")
         else
           io_emit (EvOpenDataset (nc_file a)) ;;
           nc_air_by_time <- io_lift (nc_open (nc_file a)) ;;
           st <- sample_locations nc_air_by_time
                   (dict_values (trip_by_location t)) initial_state ;;
           let '(nc_data, _) := st in
           nc_data0 <- io_lift (nth_or_IndexError nc_data 0%nat) ;;
           if negb (expected_samples (List.length (trip_by_date t))
                    =? Z.of_nat (List.length nc_data0))
           then io_raise AssertionError
           else
             hourly <- io_lift (calc_hourly nc_data) ;;
             let filename :=
               match out_file a with
               | Some f => f
               | None => default_out_file a
               end in
             io_emit (EvOpenOut filename) ;;
             line <- io_lift (OUT_FILE_LINE_format header_fields) ;;
             io_emit (EvWrite line) ;;
             write_rows t (zip_star (trip_by_date t) hourly)
     end)%io.

(** ** main with an output file that can fail

    [main] above takes [open(filename, "w")] and every [fd.write] to
    succeed.  Here [out_ok k] tells whether the [k]-th operation on the
    output file succeeds, the [open] being number 0, the write of the
    header number 1 and the writes of the rows following in order.  An
    operation that fails raises [OSError], which the script does not
    catch; the lines written before it stay in the file. *)
Definition io_output (out_ok : nat -> bool) (k : nat) (e : event) : IO unit :=
  if out_ok k then io_emit e else io_raise OSError.

Fixpoint write_rows_from (out_ok : nat -> bool) (k : nat) (t : trip)
         (rows : list ((datetime * location) * list num)) : IO unit :=
  match rows with
  | [] => io_ret tt
  | ((date, loc), levels) :: rest =>
      (fields <- io_lift (row_fields t date loc levels) ;;
       line <- io_lift (OUT_FILE_LINE_format fields) ;;
       io_output out_ok k (EvWrite line) ;;
       write_rows_from out_ok (S k) t rest)%io
  end.

Definition main_output (out_ok : nat -> bool) (a : args) (trip_lines : list trip_line)
           (nc_open : string -> result (dataset num)) : IO unit :=
  let nc_file_year := string_filter isdigit (nc_file a) in
  if String.eqb nc_file_year EmptyString
  then io_raise (ValueError "NC_FILE's filename should contain a year")
  else
    (t <- io_lift (read_trip trip_lines) ;;
     match trip_end_date t with
     | None => io_raise (SystemExit 1)
     | Some trip_end_date =>
         if negb (year trip_end_date =? int_of_digits nc_file_year)
         then io_raise (ValueError "Trip should be in boundaries of NC_FILE")
         else
           io_emit (EvOpenDataset (nc_file a)) ;;
           nc_air_by_time <- io_lift (nc_open (nc_file a)) ;;
           st <- sample_locations nc_air_by_time
                   (dict_values (trip_by_location t)) initial_state ;;
           let '(nc_data, _) := st in
           nc_data0 <- io_lift (nth_or_IndexError nc_data 0%nat) ;;
           if negb (expected_samples (List.length (trip_by_date t))
                    =? Z.of_nat (List.length nc_data0))
           then io_raise AssertionError
           else
             hourly <- io_lift (calc_hourly nc_data) ;;
             let filename :=
               match out_file a with
               | Some f => f
               | None => default_out_file a
               end in
             io_output out_ok 0 (EvOpenOut filename) ;;
             line <- io_lift (OUT_FILE_LINE_format header_fields) ;;
             io_output out_ok 1 (EvWrite line) ;;
             write_rows_from out_ok 2 t (zip_star (trip_by_date t) hourly)
     end)%io.

End Program.

(** ** Vocabulary of the statements

    What a trip file holds, read off its lines without the script's
    dictionaries. *)

(** The sample of a line: the timestamp and coordinates of a matched line. *)
Definition line_sample (line : trip_line) : result (option (datetime * location)) :=
  match line with
  | NoMatch => Ok None
  | Matched date lat_text lon_text =>
      (date <- strptime date ;;
       lat <- py_float lat_text ;;
       lon <- py_float lon_text ;;
       Ok (Some (date, (lat, lon))))%result
  end.

(** The samples of the matched lines, in file order. *)
Fixpoint trip_samples (lines : list trip_line) : list (datetime * location) :=
  match lines with
  | [] => []
  | line :: rest =>
      match line_sample line with
      | Ok (Some s) => s :: trip_samples rest
      | _ => trip_samples rest
      end
  end.

(** The date text of the last matched line. *)
Fixpoint last_matched (lines : list trip_line) : option date_text :=
  match lines with
  | [] => None
  | line :: rest =>
      match last_matched rest, line with
      | Some d, _ => Some d
      | None, Matched d _ _ => Some d
      | None, NoMatch => None
      end
  end.

(** The coordinates of the last sample taken at [date]. *)
Fixpoint last_location (date : datetime) (samples : list (datetime * location))
  : option location :=
  match samples with
  | [] => None
  | (d, loc) :: rest =>
      match last_location date rest with
      | Some l => Some l
      | None => if datetime_eqb d date then Some loc else None
      end
  end.

(** The timestamps of the samples taken at [loc], in file order. *)
Definition dates_at (loc : location) (samples : list (datetime * location))
  : list datetime :=
  map fst (filter (fun s => location_eqb (snd s) loc) samples).

(** What the group [g] stored for the location [k] records of the samples:
    the first and the last timestamp seen there, and the nearest grid
    point of its coordinates. *)
Definition group_ok (k : location) (g : loc_info)
           (samples : list (datetime * location)) : Prop :=
  location_eqb (lat g, lon g) k = true
  /\ hd_error (dates_at k samples) = Some (start_date g)
  /\ last (dates_at k samples) (start_date g) = end_date g
  /\ approximate_position NC_LAT (Some (lat g)) None = Ok (nc_lat_index g)
  /\ approximate_position NC_LON None (Some (lon g)) = Ok (nc_lon_index g)
  /\ nth_error NC_LAT (nc_lat_index g) = Some (nc_lat g)
  /\ nth_error NC_LON (nc_lon_index g) = Some (nc_lon g).

(** Consecutive timestamps are exactly one hour apart. *)
Fixpoint hourly_spaced (dates : list datetime) : Prop :=
  match dates with
  | d :: (d' :: _) as rest =>
      timestamp_us d' = timestamp_us d + 3600000000 /\ hourly_spaced rest
  | _ => True
  end.

Definition datetime_eq_dec (a b : datetime) : {a = b} + {a <> b}.
Proof. decide equality; apply Z.eq_dec. Defined.

(** The samples are in file order by time (timestamps never decrease). *)
Definition monotonic (dates : list datetime) : Prop :=
  StronglySorted (fun a b => timestamp_us a <= timestamp_us b) dates.

(** [c.isspace()] on an ASCII character *)
Definition isspace (c : ascii) : bool :=
  let n := nat_of_ascii c in
  (n =? 32)%nat || ((9 <=? n)%nat && (n <=? 13)%nat).

Fixpoint split_from (token : string) (s : string) : list string :=
  match s with
  | EmptyString => if String.eqb token EmptyString then [] else [token]
  | String c r =>
      if isspace c
      then (if String.eqb token EmptyString then split_from EmptyString r
            else token :: split_from EmptyString r)
      else split_from (String.append token (String c EmptyString)) r
  end.

(** [s.split()]: the maximal runs of characters that are not whitespace. *)
Definition whitespace_split (s : string) : list string := split_from EmptyString s.

(** A timestamp on one of the four 6-hour boundaries of a day. *)
Definition six_hour_aligned (d : datetime) : Prop :=
  (hour d = 0 \/ hour d = 6 \/ hour d = 12 \/ hour d = 18)
  /\ minute d = 0 /\ second d = 0 /\ microsecond d = 0.

(** Every character of [s] satisfies [f]. *)
Fixpoint string_forall (f : ascii -> bool) (s : string) : bool :=
  match s with
  | EmptyString => true
  | String c r => f c && string_forall f r
  end.

(** Every character of [s] is an ASCII character. *)
Definition ascii_text (s : string) : bool :=
  string_forall (fun c => (nat_of_ascii c <? 128)%nat) s.

(** [s] begins with one character of each class of [cls], in order. *)
Fixpoint begins_with (cls : list char_class) (s : string) : bool :=
  match cls, s with
  | [], _ => true
  | cl :: cls', String c r => class_mem cl c && begins_with cls' r
  | _ :: _, EmptyString => false
  end.

(** The classes of the 19 characters of [dddd-dd-dd dd:dd:dd]. *)
Definition DATE_CLASSES : list char_class :=
  [Digit; Digit; Digit; Digit; Literal "-"; Digit; Digit; Literal "-"; Digit; Digit;
   Literal " "; Digit; Digit; Literal ":"; Digit; Digit; Literal ":"; Digit; Digit].

(** [s] is empty or begins with a character outside [cl]. *)
Definition stops (cl : char_class) (s : string) : Prop :=
  match s with
  | EmptyString => True
  | String c _ => class_mem cl c = false
  end.

(** The character [c] does not occur in [s]. *)
Definition lacks (c : ascii) (s : string) : bool :=
  string_forall (fun x => negb (Ascii.eqb x c)) s.

(** The lines written to the output file, in order. *)
Definition written (log : list event) : list string :=
  flat_map (fun e => match e with EvWrite line => [line] | _ => [] end) log.

Section SamplerVocabulary.
Context {num : Type} {N : Numeric num}.

(** One pass of the sampler's inner loop body: the timestamp, the slice
    read for it and the grid indices of the location being processed. *)
Record sampled_point : Type := mk_point {
  sp_date : datetime;
  sp_air : nat -> nat -> nat -> num;
  sp_lat_i : nat;
  sp_lon_i : nat
}.

(** The value a pass appends to the series of level [k]. *)
Definition level_value (p : sampled_point) (k : nat) : num :=
  match k with
  | O => lvl_1013 (sp_air p) (sp_lat_i p) (sp_lon_i p)
  | S level_i =>
      num_sub (sp_air p level_i (sp_lat_i p) (sp_lon_i p))
              (num_of_float (27315 # 100))
  end.

(** The 18 level series after the passes [plan]. *)
Definition series_of (plan : list sampled_point) : list (list num) :=
  map (fun k => map (fun p => level_value p k) plan)
      (seq 0%nat (1 + NC_LEVELS_COUNT)%nat).

(** The pass [p] read the slice of its date from [ds], for the group
    [loc] while iterating over that group's aligned dates. *)
Definition point_of (ds : dataset num) (loc : loc_info) (p : sampled_point) : Prop :=
  nc_getitem ds (tm_yday (sp_date p) * 4 - 1) = Ok (sp_air p)
  /\ sp_lat_i p = nc_lat_index loc /\ sp_lon_i p = nc_lon_index loc
  /\ In (Ok (sp_date p)) (six_hour_aligned_dates (start_date loc) (end_date loc)).
End SamplerVocabulary.

(** ** A concrete instance, to run the script on examples

    Dataset numbers are rationals with exact arithmetic, printed as
    fractions; the spline is replaced by the piecewise linear interpolant
    (no property below depends on the interpolated values). *)

Definition Z_str (z : Z) : string := NilZero.string_of_int (Z.to_int z).

Definition Q_str (q : Q) : string :=
  let r := Qred q in
  String.concat "" [Z_str (Qnum r); "/"; Z_str (Z.pos (Qden r))]%string.

Definition linear_interp (x_old : list Z) (y : list Q) (x : Z) : Q :=
  let i := Z.to_nat (x / 6) in
  let y0 := nth i y 0%Q in
  let y1 := nth (S i) y y0 in
  Qred (y0 + (y1 - y0) * (inject_Z (x mod 6) / 6))%Q.

#[export] Instance Q_Numeric : Numeric Q := {|
  num_sub := fun a b => Qred (a - b)%Q;
  num_mul := fun a b => Qred (a * b)%Q;
  num_div := fun a b => Qred (a / b)%Q;
  num_of_int := inject_Z;
  num_of_float := fun q => q;
  interp_cubic := linear_interp;
  num_str := Q_str;
  float_str := Q_str
|}.

(** A dataset of one year, four slices a day; the temperature in Kelvin
    depends on the slice, the level and the grid cell. *)
Definition example_dataset : dataset Q :=
  mk_dataset Q 1460
    (fun t level la lo =>
       (280 + inject_Z t / 100 - 5 * inject_Z (Z.of_nat level)
        + inject_Z (Z.of_nat la) / 10 - inject_Z (Z.of_nat lo) / 20)%Q).

Definition example_nc_open (path : string) : result (dataset Q) := Ok example_dataset.

Definition example_args : args := mk_args "air.2018.nc" "trip.txt" None.

(** The lines of one location on one day: one per hour in [hours]. *)
Definition day_lines (y m d : Z) (la lo : Q) (hours : list Z) : list trip_line :=
  map (fun h => Matched (mk_date_text y m d h 0 0) (Some la) (Some lo)) hours.

(** 24 hourly samples on 2018-11-16 at one location. *)
Definition example_trip : list trip_line :=
  day_lines 2018 11 16 (4224 # 100) (- (873 # 100)) (range 24).

(** A span that crosses midnight in less than a day. *)
Definition late_start : datetime := mk_datetime 2018 11 16 23 0 0 0.
Definition early_end : datetime := mk_datetime 2018 11 17 1 0 0 0.

(** The same trip against the dataset of another year. *)
Definition other_year_args : args := mk_args "air.2017.nc" "trip.txt" None.

(** Two days of hourly samples; the last hour of the first day is logged a
    second time at another location. *)
Definition duplicate_trip : list trip_line :=
  day_lines 2018 11 16 (4224 # 100) (- (873 # 100)) (range 24)
  ++ [NoMatch; Matched (mk_date_text 2018 11 16 23 0 0) (Some (45 # 1)) (Some (10 # 1))]
  ++ day_lines 2018 11 17 (45 # 1) (10 # 1) (range 24).

(** Eighteen series of four values each. *)
Definition four_point_series : list (list Q) :=
  repeat [1; 2; 4; 8]%Q 18.

(** The state of the script on [example_trip], stage by stage. *)
Definition example_t : trip :=
  Eval vm_compute in
    match read_trip example_trip with Ok t => t | Raise _ => empty_trip end.

Definition example_slog : list event :=
  Eval vm_compute in
    fst (sample_locations example_dataset (dict_values (trip_by_location example_t))
                          initial_state).

Definition example_nc_data : list (list Q) :=
  Eval vm_compute in
    match snd (sample_locations example_dataset
                 (dict_values (trip_by_location example_t)) initial_state) with
    | Ok st => fst st
    | Raise _ => []
    end.

Definition example_processed_dates : list datetime :=
  Eval vm_compute in
    match snd (sample_locations example_dataset
                 (dict_values (trip_by_location example_t)) initial_state) with
    | Ok st => snd st
    | Raise _ => []
    end.

Definition example_log : list event :=
  Eval vm_compute in fst (main example_args example_trip example_nc_open).

Definition duplicate_t : trip :=
  Eval vm_compute in
    match read_trip duplicate_trip with Ok t => t | Raise _ => empty_trip end.

(** Eighteen series of three values each: too short to interpolate. *)
Definition three_point_series : list (list Q) :=
  repeat [1; 2; 4]%Q 18.

(** A trip that crosses midnight at its second location: 23 hourly samples
    of 2018-11-16 at the first, then 23:00, 00:00 and 01:00 at the second. *)
Definition midnight_trip : list trip_line :=
  day_lines 2018 11 16 (4224 # 100) (- (873 # 100)) (range 23)
  ++ day_lines 2018 11 16 (45 # 1) (10 # 1) [23]
  ++ day_lines 2018 11 17 (45 # 1) (10 # 1) [0; 1].

Definition midnight_t : trip :=
  Eval vm_compute in
    match read_trip midnight_trip with Ok t => t | Raise _ => empty_trip end.

Definition midnight_slog : list event :=
  Eval vm_compute in
    fst (sample_locations example_dataset (dict_values (trip_by_location midnight_t))
                          initial_state).

Definition midnight_nc_data : list (list Q) :=
  Eval vm_compute in
    match snd (sample_locations example_dataset
                 (dict_values (trip_by_location midnight_t)) initial_state) with
    | Ok st => fst st
    | Raise _ => []
    end.

(** A trip file out of time order: the later timestamp comes first. *)
Definition out_of_order_trip : list trip_line :=
  day_lines 2018 11 17 (45 # 1) (10 # 1) [0]
  ++ day_lines 2018 11 16 (45 # 1) (10 # 1) [0].

(** The line that the comment on [TRIP_FILE_LINE] gives as an example. *)
Definition example_line : string := "2018-11-16 00:00:00+00    42.24    -8.73".

(** The script installed in a directory whose name holds a digit. *)
Definition example_SELF_PATH : string := "/opt/trip2".

(** A trip that returns to its first location: a day at the first, a day
    at a second, a day at the first again, sampled hourly. *)
Definition revisit_trip : list trip_line :=
  day_lines 2018 11 16 (4224 # 100) (- (873 # 100)) (range 24)
  ++ day_lines 2018 11 17 (45 # 1) (10 # 1) (range 24)
  ++ day_lines 2018 11 18 (4224 # 100) (- (873 # 100)) (range 24).

Definition revisit_t : trip :=
  Eval vm_compute in
    match read_trip revisit_trip with Ok t => t | Raise _ => empty_trip end.
(* ================================================================== *)
(** * Part II: properties *)
(* ================================================================== *)

(** ** The calendar: ordinals and dates correspond *)

Lemma mod_100_mod_4 (y : Z) : y mod 100 = 0 -> y mod 4 = 0.
Proof.
  intros H. rewrite (Z.div_mod y 100) by lia. rewrite H.
  replace (100 * (y / 100) + 0) with ((25 * (y / 100)) * 4) by lia.
  apply Z.mod_mul. lia.
Qed.

Lemma mod_400_mod_100 (y : Z) : y mod 400 = 0 -> y mod 100 = 0.
Proof.
  intros H. rewrite (Z.div_mod y 400) by lia. rewrite H.
  replace (400 * (y / 400) + 0) with ((4 * (y / 400)) * 100) by lia.
  apply Z.mod_mul. lia.
Qed.

Lemma days_before_year_succ (y : Z) :
  days_before_year (y + 1) = days_before_year y + 365 + (if is_leap y then 1 else 0).
Proof.
  unfold days_before_year, is_leap. cbv zeta.
  replace (y + 1 - 1) with y by lia.
  pose proof (mod_100_mod_4 y). pose proof (mod_400_mod_100 y).
  destruct (Z.eqb_spec (y mod 4) 0), (Z.eqb_spec (y mod 100) 0),
    (Z.eqb_spec (y mod 400) 0); cbn [negb andb orb]; try tauto;
    Z.div_mod_to_equations; lia.
Qed.

Lemma days_before_year_mono (y k : Z) :
  0 <= k -> days_before_year y + 365 * k <= days_before_year (y + k).
Proof.
  intros Hk. revert k Hk.
  apply (natlike_ind (fun k => days_before_year y + 365 * k <= days_before_year (y + k))).
  - replace (y + 0) with y by lia. lia.
  - intros k Hk IH. replace (y + Z.succ k) with ((y + k) + 1) by lia.
    rewrite days_before_year_succ. destruct (is_leap (y + k)); lia.
Qed.

Lemma range_In (n x : Z) : In x (range n) <-> 0 <= x < n.
Proof.
  unfold range. rewrite in_map_iff. split.
  - intros [k [<- Hk]]. apply in_seq in Hk. lia.
  - intros Hx. exists (Z.to_nat x). split; [lia|]. apply in_seq. lia.
Qed.

Lemma month_day_table (leap : bool) (n : Z) :
  0 <= n < 365 -> month_day_check leap n = true.
Proof.
  intros Hn.
  assert (H : forallb (fun n => month_day_check true n && month_day_check false n) (range 365) = true)
    by (vm_compute; reflexivity).
  rewrite forallb_forall in H.
  specialize (H n (proj2 (range_In 365 n) Hn)).
  apply andb_true_iff in H. destruct leap; tauto.
Qed.

Lemma is_leap_true_iff (y : Z) :
  is_leap y = true <-> (y mod 4 = 0 /\ (y mod 100 <> 0 \/ y mod 400 = 0)).
Proof.
  unfold is_leap.
  destruct (Z.eqb_spec (y mod 4) 0), (Z.eqb_spec (y mod 100) 0),
    (Z.eqb_spec (y mod 400) 0); cbn [negb andb orb]; intuition congruence.
Qed.

Lemma ord2ymd_spec (n : Z) :
  1 <= n ->
  let '(y, m, d) := ord2ymd n in
  ymd2ord y m d = n /\ 1 <= y /\ 1 <= m <= 12 /\ 1 <= d <= days_in_month y m.
Proof.
  intros Hn. unfold ord2ymd. cbv zeta. unfold DI400Y, DI100Y, DI4Y.
  pose proof (Z.div_mod (n - 1) 146097 ltac:(lia)) as E400.
  pose proof (Z.mod_pos_bound (n - 1) 146097 ltac:(lia)) as B400.
  set (n400 := (n - 1) / 146097) in *. set (r400 := (n - 1) mod 146097) in *.
  pose proof (Z.div_mod r400 36524 ltac:(lia)) as E100.
  pose proof (Z.mod_pos_bound r400 36524 ltac:(lia)) as B100.
  set (n100 := r400 / 36524) in *. set (r100 := r400 mod 36524) in *.
  pose proof (Z.div_mod r100 1461 ltac:(lia)) as E4.
  pose proof (Z.mod_pos_bound r100 1461 ltac:(lia)) as B4.
  set (n4 := r100 / 1461) in *. set (r4 := r100 mod 1461) in *.
  pose proof (Z.div_mod r4 365 ltac:(lia)) as E1.
  pose proof (Z.mod_pos_bound r4 365 ltac:(lia)) as B1.
  set (n1 := r4 / 365) in *. set (r1 := r4 mod 365) in *.
  assert (H400 : 0 <= n400) by (subst n400; apply Z.div_pos; lia).
  clearbody n400 r400 n100 r100 n4 r4 n1 r1.
  assert (Hb : 0 <= n100 <= 4 /\ 0 <= n4 <= 24 /\ 0 <= n1 <= 4) by lia.
  destruct ((n1 =? 4) || (n100 =? 4)) eqn:Hsp.
  - (* the last day of a leap year *)
    set (Y := n400 * 400 + 1 + n100 * 100 + n4 * 4 + n1 - 1).
    assert (HL : is_leap Y = true).
    { apply is_leap_true_iff. subst Y.
      apply orb_true_iff in Hsp. destruct Hsp as [H|H]; apply Z.eqb_eq in H;
        Z.div_mod_to_equations; lia. }
    unfold ymd2ord, days_in_month, days_before_month. rewrite HL.
    cbn [Z.eqb Pos.eqb Z.ltb Z.compare Pos.compare Pos.compare_cont andb
         DAYS_BEFORE_MONTH DAYS_IN_MONTH].
    unfold days_before_year. cbv zeta. subst Y.
    apply orb_true_iff in Hsp. destruct Hsp as [H|H]; apply Z.eqb_eq in H;
      (repeat split; try lia); Z.div_mod_to_equations; lia.
  - apply orb_false_iff in Hsp. destruct Hsp as [Hn1 Hn100].
    apply Z.eqb_neq in Hn1, Hn100.
    set (leap := (n1 =? 3) && (negb (n4 =? 24) || (n100 =? 3))).
    set (Y := n400 * 400 + 1 + n100 * 100 + n4 * 4 + n1).
    assert (HL : is_leap Y = leap).
    { subst leap Y. apply eq_true_iff_eq. rewrite is_leap_true_iff.
      rewrite andb_true_iff, orb_true_iff, negb_true_iff, Z.eqb_neq, !Z.eqb_eq.
      split; intros; Z.div_mod_to_equations; lia. }
    pose proof (month_day_table leap r1 ltac:(lia)) as T.
    unfold month_day_check in T. destruct (month_day leap r1) as [m d].
    rewrite !andb_true_iff in T.
    destruct T as [[[[T1 T2] T3] T4] T5].
    apply Z.leb_le in T1, T2, T3, T4. apply Z.eqb_eq in T5.
    unfold ymd2ord, days_in_month, days_before_month. rewrite HL.
    assert (HY : days_before_year Y = n - 1 - r1).
    { unfold days_before_year. cbv zeta. subst Y. Z.div_mod_to_equations. lia. }
    rewrite HY. repeat split; try lia.
    destruct (Z.eqb_spec m 2) as [-> | _]; destruct leap; cbn in *; lia.
Qed.

(** A date inside a year: ordinals of year [y] lie strictly between the
    starts of [y] and [y + 1]. *)
Lemma ymd2ord_bounds (y m d : Z) :
  1 <= m <= 12 -> 1 <= d <= days_in_month y m ->
  days_before_year y < ymd2ord y m d <= days_before_year (y + 1).
Proof.
  intros Hm Hd. rewrite days_before_year_succ.
  unfold ymd2ord, days_before_month, days_in_month in *.
  assert (Hc : m = 1 \/ m = 2 \/ m = 3 \/ m = 4 \/ m = 5 \/ m = 6 \/ m = 7
               \/ m = 8 \/ m = 9 \/ m = 10 \/ m = 11 \/ m = 12) by lia.
  destruct (is_leap y);
    repeat (destruct Hc as [-> | Hc]; [cbn in *; lia|]); subst; cbn in *; lia.
Qed.

Lemma ymd2ord_inj (y m d y' m' d' : Z) :
  1 <= m <= 12 -> 1 <= d <= days_in_month y m ->
  1 <= m' <= 12 -> 1 <= d' <= days_in_month y' m' ->
  ymd2ord y m d = ymd2ord y' m' d' -> y = y' /\ m = m' /\ d = d'.
Proof.
  intros Hm Hd Hm' Hd' E.
  pose proof (ymd2ord_bounds y m d Hm Hd) as B.
  pose proof (ymd2ord_bounds y' m' d' Hm' Hd') as B'.
  assert (y = y').
  { destruct (Z.lt_trichotomy y y') as [L | [-> | L]]; [exfalso | reflexivity | exfalso].
    - pose proof (days_before_year_mono (y + 1) (y' - (y + 1)) ltac:(lia)) as M.
      replace (y + 1 + (y' - (y + 1))) with y' in M by lia. lia.
    - pose proof (days_before_year_mono (y' + 1) (y - (y' + 1)) ltac:(lia)) as M.
      replace (y' + 1 + (y - (y' + 1))) with y in M by lia. lia. }
  subst y'. split; [reflexivity|].
  unfold ymd2ord, days_before_month, days_in_month in *.
  assert (Hc : m = 1 \/ m = 2 \/ m = 3 \/ m = 4 \/ m = 5 \/ m = 6 \/ m = 7
               \/ m = 8 \/ m = 9 \/ m = 10 \/ m = 11 \/ m = 12) by lia.
  assert (Hc' : m' = 1 \/ m' = 2 \/ m' = 3 \/ m' = 4 \/ m' = 5 \/ m' = 6 \/ m' = 7
               \/ m' = 8 \/ m' = 9 \/ m' = 10 \/ m' = 11 \/ m' = 12) by lia.
  clear B B' Hm Hm'.
  destruct (is_leap y);
    repeat (destruct Hc as [-> | Hc]); subst;
    repeat (destruct Hc' as [-> | Hc']); subst; cbn in *; lia.
Qed.

Lemma ord2ymd_ymd2ord (y m d : Z) :
  1 <= y -> 1 <= m <= 12 -> 1 <= d <= days_in_month y m ->
  ord2ymd (ymd2ord y m d) = (y, m, d).
Proof.
  intros Hy Hm Hd.
  pose proof (ymd2ord_bounds y m d Hm Hd) as B.
  assert (H1 : 1 <= ymd2ord y m d).
  { pose proof (days_before_year_mono 1 (y - 1) ltac:(lia)) as M.
    replace (1 + (y - 1)) with y in M by lia.
    change (days_before_year 1) with 0 in M. lia. }
  pose proof (ord2ymd_spec _ H1) as S.
  destruct (ord2ymd (ymd2ord y m d)) as [[y' m'] d'].
  destruct S as (E & _ & Hm' & Hd').
  destruct (ymd2ord_inj _ _ _ _ _ _ Hm' Hd' Hm Hd E) as (-> & -> & ->).
  reflexivity.
Qed.

Lemma date_ok_iff (y m d : Z) :
  date_ok y m d = true <->
  1 <= y <= 9999 /\ 1 <= m <= 12 /\ 1 <= d <= days_in_month y m.
Proof.
  unfold date_ok. rewrite !andb_true_iff, !Z.leb_le. tauto.
Qed.

Lemma time_ok_iff (hh mm ss us : Z) :
  time_ok hh mm ss us = true <->
  0 <= hh <= 23 /\ 0 <= mm <= 59 /\ 0 <= ss <= 59 /\ 0 <= us <= 999999.
Proof.
  unfold time_ok. rewrite !andb_true_iff, !Z.leb_le. tauto.
Qed.

Lemma datetime_ok_iff (t : datetime) :
  datetime_ok t = true <->
  (1 <= year t <= 9999 /\ 1 <= month t <= 12
   /\ 1 <= day t <= days_in_month (year t) (month t))
  /\ (0 <= hour t <= 23 /\ 0 <= minute t <= 59 /\ 0 <= second t <= 59
      /\ 0 <= microsecond t <= 999999).
Proof.
  unfold datetime_ok. rewrite andb_true_iff, date_ok_iff, time_ok_iff. tauto.
Qed.

Lemma ymd2ord_range (y m d : Z) :
  date_ok y m d = true -> 1 <= ymd2ord y m d <= MAXORDINAL.
Proof.
  rewrite date_ok_iff. intros (Hy & Hm & Hd).
  pose proof (ymd2ord_bounds y m d Hm Hd) as B.
  pose proof (days_before_year_mono 1 (y - 1) ltac:(lia)) as M1.
  replace (1 + (y - 1)) with y in M1 by lia.
  pose proof (days_before_year_mono (y + 1) (9999 - y) ltac:(lia)) as M2.
  replace (y + 1 + (9999 - y)) with 10000 in M2 by lia.
  change (days_before_year 1) with 0 in M1.
  change (days_before_year 10000) with 3652059 in M2.
  unfold MAXORDINAL. lia.
Qed.

Lemma toordinal_range (t : datetime) :
  datetime_ok t = true -> 1 <= toordinal t <= MAXORDINAL.
Proof.
  unfold datetime_ok, toordinal. rewrite andb_true_iff.
  intros [H _]. now apply ymd2ord_range.
Qed.

Lemma datetime_eqb_eq (a b : datetime) : datetime_eqb a b = true <-> a = b.
Proof.
  unfold datetime_eqb. rewrite !andb_true_iff, !Z.eqb_eq.
  destruct a, b; cbn. split.
  - intros [[[[[[-> ->] ->] ->] ->] ->] ->]. reflexivity.
  - intros E. injection E as -> -> -> -> -> -> ->. tauto.
Qed.

Lemma datetime_eqb_refl (a : datetime) : datetime_eqb a a = true.
Proof. now apply datetime_eqb_eq. Qed.

(** The position on the time line determines a valid datetime. *)
Lemma timestamp_us_inj (a b : datetime) :
  datetime_ok a = true -> datetime_ok b = true ->
  timestamp_us a = timestamp_us b -> a = b.
Proof.
  rewrite !datetime_ok_iff. intros (Da & Ta) (Db & Tb) E.
  unfold timestamp_us, day_seconds, toordinal in E.
  assert (Eo : ymd2ord (year a) (month a) (day a) = ymd2ord (year b) (month b) (day b)) by lia.
  destruct (ymd2ord_inj _ _ _ _ _ _ (proj1 (proj2 Da)) (proj2 (proj2 Da))
              (proj1 (proj2 Db)) (proj2 (proj2 Db)) Eo) as (Ey & Em & Ed).
  destruct a, b; cbn in *. subst.
  assert (hour0 = hour1) by lia. assert (minute0 = minute1) by lia.
  assert (second0 = second1) by lia. assert (microsecond0 = microsecond1) by lia.
  congruence.
Qed.

(** ** Date Aligner *)

(** The date [k] days after ordinal [o], at hour [hh]. *)
Lemma ord2ymd_datetime_ok (o hh : Z) :
  1 <= o <= MAXORDINAL -> 0 <= hh <= 23 ->
  let '(y, m, d) := ord2ymd o in
  datetime_ok (mk_datetime y m d hh 0 0 0) = true
  /\ toordinal (mk_datetime y m d hh 0 0 0) = o.
Proof.
  intros Ho Hh. pose proof (ord2ymd_spec o ltac:(lia)) as S.
  destruct (ord2ymd o) as [[y m] d]. destruct S as (E & Hy & Hm & Hd).
  split; [|exact E].
  apply datetime_ok_iff. cbn. repeat split; try lia.
  (* the year is at most 9999 because the ordinal is at most MAXORDINAL *)
  destruct (Z_le_gt_dec y 9999) as [L|G]; [exact L|exfalso].
  pose proof (ymd2ord_bounds y m d Hm Hd) as B.
  pose proof (days_before_year_mono 10000 (y - 10000) ltac:(lia)) as M.
  replace (10000 + (y - 10000)) with y in M by lia.
  change (days_before_year 10000) with 3652059 in M.
  unfold MAXORDINAL in Ho. lia.
Qed.

(** The [n]-th item of the generator: [start_from_zero] plus [6 n] hours. *)
Lemma aligned_item (z : datetime) (n : Z) :
  datetime_ok z = true ->
  hour z = 0 -> minute z = 0 -> second z = 0 -> microsecond z = 0 ->
  0 <= n -> toordinal z + n / 4 <= MAXORDINAL ->
  exists t,
    (step <- timedelta_new 0 0 0 (n * 6) ;; datetime_add z step)%result = Ok t
    /\ datetime_ok t = true
    /\ toordinal t = toordinal z + n / 4
    /\ hour t = 6 * (n mod 4) /\ minute t = 0 /\ second t = 0 /\ microsecond t = 0.
Proof.
  intros Hz Hh Hm Hs Hu Hn Hmax.
  pose proof (toordinal_range z Hz) as Ho. unfold MAXORDINAL in *.
  unfold timedelta_new at 1. cbv zeta.
  replace (0 / 1000000) with 0 by reflexivity.
  replace (0 mod 1000000) with 0 by reflexivity.
  assert (E1 : (0 + n * 6 * 3600 + 0) / 86400 = n / 4)
    by (Z.div_mod_to_equations; lia).
  assert (E2 : (0 + n * 6 * 3600 + 0) mod 86400 = 21600 * (n mod 4))
    by (Z.div_mod_to_equations; lia).
  rewrite E1, E2.
  replace (Z.abs (0 + n / 4) <=? 999999999) with true
    by (symmetry; apply Z.leb_le; Z.div_mod_to_equations; lia).
  cbn [bind]. unfold datetime_add, MAXORDINAL. rewrite Hh, Hm, Hs, Hu.
  unfold timedelta_new at 1. cbv zeta.
  replace (0 + 0 * 60 + 0 * 3600 + 0 / 1000000) with 0 by reflexivity.
  replace (0 mod 1000000) with 0 by reflexivity.
  replace (0 / 86400) with 0 by reflexivity.
  replace (0 mod 86400) with 0 by reflexivity.
  replace (Z.abs (toordinal z + 0) <=? 999999999) with true
    by (symmetry; apply Z.leb_le; lia).
  cbn [bind days seconds microseconds].
  unfold timedelta_new. cbv zeta.
  replace ((0 + 0) / 1000000) with 0 by reflexivity.
  replace ((0 + 0) mod 1000000) with 0 by reflexivity.
  assert (Hr : 0 <= n mod 4 < 4) by (apply Z.mod_pos_bound; lia).
  assert (E3 : (0 + 21600 * (n mod 4) + 0 * 3600 + 0) / 86400 = 0)
    by (Z.div_mod_to_equations; lia).
  assert (E4 : (0 + 21600 * (n mod 4) + 0 * 3600 + 0) mod 86400 = 21600 * (n mod 4))
    by (Z.div_mod_to_equations; lia).
  rewrite E3, E4.
  assert (Hq : 0 <= n / 4) by (apply Z.div_pos; lia).
  replace (Z.abs (toordinal z + 0 + (0 + n / 4) + 0) <=? 999999999) with true
    by (symmetry; apply Z.leb_le; lia).
  cbn [bind days seconds microseconds].
  replace (toordinal z + 0 + (0 + n / 4) + 0) with (toordinal z + n / 4) by lia.
  replace ((0 <? toordinal z + n / 4) && (toordinal z + n / 4 <=? 3652059)) with true
    by (symmetry; apply andb_true_iff; split; [apply Z.ltb_lt | apply Z.leb_le]; lia).
  assert (E5 : 21600 * (n mod 4) / 3600 = 6 * (n mod 4))
    by (Z.div_mod_to_equations; lia).
  assert (E6 : 21600 * (n mod 4) mod 3600 = 0)
    by (Z.div_mod_to_equations; lia).
  rewrite E5, E6. replace (0 / 60) with 0 by reflexivity.
  replace (0 mod 60) with 0 by reflexivity.
  pose proof (ord2ymd_datetime_ok (toordinal z + n / 4) (6 * (n mod 4))
                ltac:(unfold MAXORDINAL; lia) ltac:(lia)) as K.
  destruct (ord2ymd (toordinal z + n / 4)) as [[y m] d].
  destruct K as [K1 K2].
  eexists. split; [reflexivity|].
  cbn [hour minute second microsecond]. repeat split; assumption.
Qed.

Lemma range_length (n : Z) : List.length (range n) = Z.to_nat n.
Proof. unfold range. now rewrite length_map, length_seq. Qed.

Lemma range_nth_error (n i : Z) :
  0 <= i < n -> nth_error (range n) (Z.to_nat i) = Some i.
Proof.
  intros Hi. unfold range.
  rewrite nth_error_map, nth_error_seq.
  destruct (Nat.ltb_spec (Z.to_nat i) (Z.to_nat n)) as [L|L]; [|lia].
  cbn. f_equal. lia.
Qed.

Lemma last_nth_error {A : Type} (l : list A) (d x : A) :
  nth_error l (List.length l - 1) = Some x -> last l d = x.
Proof.
  induction l as [|a l IH]; cbn; [discriminate|].
  destruct l as [|b l]; cbn in *; [congruence|].
  rewrite Nat.sub_0_r in IH. exact IH.
Qed.

(** [(a - b).days]: the whole days elapsed from [b] to [a], rounded down. *)
Lemma datetime_sub_days (a b : datetime) :
  datetime_ok a = true -> datetime_ok b = true ->
  exists delta,
    datetime_sub a b = Ok delta
    /\ days delta = (timestamp_us a - timestamp_us b) / 86400000000.
Proof.
  intros Ha Hb.
  pose proof (toordinal_range a Ha) as Ra. pose proof (toordinal_range b Hb) as Rb.
  apply datetime_ok_iff in Ha, Hb. destruct Ha as [_ Ta], Hb as [_ Tb].
  unfold MAXORDINAL in *.
  unfold datetime_sub, timedelta_new, timestamp_us, day_seconds in *. cbv zeta.
  set (oa := toordinal a) in *. set (ob := toordinal b) in *.
  clearbody oa ob.
  match goal with |- context [Z.abs ?d <=? _] =>
    replace (Z.abs d <=? 999999999) with true
      by (symmetry; apply Z.leb_le; Z.div_mod_to_equations; lia)
  end.
  eexists. split; [reflexivity|]. cbn [days].
  Z.div_mod_to_equations. lia.
Qed.

(** The items of the generator for valid timestamps [start <= end]: as
    many as four times the whole days elapsed plus one, the [n]-th lying
    [6 n] hours after midnight of [start]'s day. *)
Lemma aligned_dates_items (start end_ : datetime) :
  datetime_ok start = true -> datetime_ok end_ = true ->
  timestamp_us start <= timestamp_us end_ ->
  let start_from_zero := mk_datetime (year start) (month start) (day start) 0 0 0 0 in
  let elapsed_days := (timestamp_us end_ - timestamp_us start) / 86400000000 in
  let yielded := six_hour_aligned_dates start end_ in
  (exists delta, datetime_sub end_ start = Ok delta /\ days delta = elapsed_days)
  /\ 0 <= elapsed_days
  /\ datetime_ok start_from_zero = true
  /\ Z.of_nat (List.length yielded) = (elapsed_days + 1) * 4
  /\ (forall n, 0 <= n < (elapsed_days + 1) * 4 ->
        exists t, nth_error yielded (Z.to_nat n) = Some (Ok t)
                  /\ datetime_ok t = true
                  /\ timestamp_us t = timestamp_us start_from_zero + n * 21600000000).
Proof.
  intros Hs He Hle start_from_zero elapsed_days yielded.
  destruct (datetime_sub_days end_ start He Hs) as (delta & Esub & Edays).
  fold elapsed_days in Edays.
  pose proof (toordinal_range start Hs) as Rs.
  pose proof (toordinal_range end_ He) as Re.
  assert (Hz : datetime_ok start_from_zero = true).
  { apply datetime_ok_iff in Hs. apply datetime_ok_iff. cbn. intuition lia. }
  assert (Hnew : datetime_new (year start) (month start) (day start) 0 0 0 0
                 = Ok start_from_zero).
  { unfold datetime_new.
    change (date_ok (year start) (month start) (day start) && time_ok 0 0 0 0)
      with (datetime_ok start_from_zero).
    now rewrite Hz. }
  assert (Hd0 : 0 <= elapsed_days) by (subst elapsed_days; apply Z.div_pos; lia).
  assert (Hdmax : toordinal start + elapsed_days <= toordinal end_).
  { apply datetime_ok_iff in Hs, He. destruct Hs as [_ Ts], He as [_ Te].
    subst elapsed_days. unfold timestamp_us, day_seconds in *.
    Z.div_mod_to_equations. lia. }
  assert (Hy : yielded
               = map (fun n => (step <- timedelta_new 0 0 0 (n * 6) ;;
                                datetime_add start_from_zero step)%result)
                     (range ((elapsed_days + 1) * 4))).
  { subst yielded. unfold six_hour_aligned_dates. now rewrite Hnew, Esub, Edays. }
  split; [exists delta; auto|]. split; [exact Hd0|]. split; [exact Hz|].
  split; [rewrite Hy, length_map, range_length; lia|].
  intros n Hn.
  assert (Hq : n / 4 <= elapsed_days) by (Z.div_mod_to_equations; lia).
  destruct (aligned_item start_from_zero n Hz eq_refl eq_refl eq_refl eq_refl
              ltac:(lia) ltac:(unfold toordinal in *; cbn; lia))
    as (t & Et & Hok & Hord & Hh & Hm & Hsec & Hus).
  exists t. split; [|split; [exact Hok|]].
  - rewrite Hy, nth_error_map, range_nth_error by lia. cbn. now rewrite Et.
  - unfold timestamp_us, day_seconds. rewrite Hord, Hh, Hm, Hsec, Hus.
    cbn [hour minute second microsecond start_from_zero].
    generalize (toordinal start_from_zero). intros o.
    Z.div_mod_to_equations. lia.
Qed.

(** C1 (amended).  For valid timestamps [start <= end],
    [six_hour_aligned_dates(start, end)] yields exactly
    [((end - start).days + 1) * 4] timestamps, where [(end - start).days]
    counts the whole 24-hour periods elapsed (not the calendar days); the
    first is 00:00 of [start]'s calendar day and the [n]-th lies [6 n]
    hours after it.  When [end]'s time of day is not earlier than
    [start]'s, that count is [((end.date - start.date).days + 1) * 4] and
    the last timestamp is 18:00 of [end]'s calendar day.  For
    [start = end = 2018-11-16 00:00:00] the timestamps are 00:00, 06:00,
    12:00 and 18:00 of 2018-11-16. *)
Theorem six_hour_aligned_dates_elapsed_days (start end_ : datetime) :
  datetime_ok start = true -> datetime_ok end_ = true ->
  timestamp_us start <= timestamp_us end_ ->
  let start_from_zero := mk_datetime (year start) (month start) (day start) 0 0 0 0 in
  let elapsed_days := (timestamp_us end_ - timestamp_us start) / 86400000000 in
  let yielded := six_hour_aligned_dates start end_ in
  (exists delta, datetime_sub end_ start = Ok delta /\ days delta = elapsed_days)
  /\ Z.of_nat (List.length yielded) = (elapsed_days + 1) * 4
  /\ nth_error yielded 0 = Some (Ok start_from_zero)
  /\ (forall n, 0 <= n < (elapsed_days + 1) * 4 ->
        exists t, nth_error yielded (Z.to_nat n) = Some (Ok t)
                  /\ datetime_ok t = true
                  /\ timestamp_us t = timestamp_us start_from_zero + n * 21600000000)
  /\ (day_seconds start * 1000000 + microsecond start
      <= day_seconds end_ * 1000000 + microsecond end_ ->
      elapsed_days = toordinal end_ - toordinal start
      /\ last yielded (Raise IndexError)
         = Ok (mk_datetime (year end_) (month end_) (day end_) 18 0 0 0))
  /\ six_hour_aligned_dates (mk_datetime 2018 11 16 0 0 0 0) (mk_datetime 2018 11 16 0 0 0 0)
     = [Ok (mk_datetime 2018 11 16 0 0 0 0); Ok (mk_datetime 2018 11 16 6 0 0 0);
        Ok (mk_datetime 2018 11 16 12 0 0 0); Ok (mk_datetime 2018 11 16 18 0 0 0)].
Proof.
  intros Hs He Hle start_from_zero elapsed_days yielded.
  destruct (aligned_dates_items start end_ Hs He Hle) as (Hsub & Hd0 & Hz & Hlen & Hitem).
  fold start_from_zero elapsed_days yielded in Hsub, Hd0, Hz, Hlen, Hitem.
  split; [exact Hsub|]. split; [exact Hlen|].
  split.
  { destruct (Hitem 0 ltac:(lia)) as (t & Et & Hok & Hts).
    change (Z.to_nat 0) with 0%nat in Et. rewrite Et.
    do 2 f_equal. apply timestamp_us_inj; auto. lia. }
  split; [exact Hitem|].
  split; [|reflexivity].
  intros Htod.
  assert (Eel : elapsed_days = toordinal end_ - toordinal start).
  { pose proof Hs as Hs'. pose proof He as He'.
    apply datetime_ok_iff in Hs', He'. destruct Hs' as [_ Ts], He' as [_ Te].
    subst elapsed_days. unfold timestamp_us, day_seconds in *.
    Z.div_mod_to_equations. lia. }
  split; [exact Eel|].
  destruct (Hitem ((elapsed_days + 1) * 4 - 1) ltac:(lia)) as (t & Et & Hok & Hts).
  apply last_nth_error.
  replace (List.length yielded - 1)%nat with (Z.to_nat ((elapsed_days + 1) * 4 - 1))
    by lia.
  rewrite Et. do 2 f_equal. apply timestamp_us_inj; auto.
  - apply datetime_ok_iff in He. apply datetime_ok_iff. cbn. intuition lia.
  - rewrite Hts. unfold timestamp_us, day_seconds, toordinal in *. cbn. lia.
Qed.

(** ** Grid Locator *)

Lemma Qltb_lt (a b : Q) : Qltb a b = true <-> (a < b)%Q.
Proof.
  unfold Qltb. rewrite negb_true_iff. split.
  - intros H. apply Qnot_le_lt. intros L.
    apply Qle_bool_iff in L. congruence.
  - intros H. destruct (Qle_bool b a) eqn:E; [|reflexivity].
    apply Qle_bool_iff in E. exfalso. exact (Qlt_not_le _ _ H E).
Qed.

Lemma Qltb_ge (a b : Q) : Qltb a b = false <-> (b <= a)%Q.
Proof.
  unfold Qltb. rewrite negb_false_iff. apply Qle_bool_iff.
Qed.

(** [min] scans from the left and replaces its candidate only by a
    strictly smaller key: what precedes the result is strictly above it,
    what follows is not below it. *)
Lemma min_from_split (key : Q -> Q) (items : list Q) :
  forall (l1 : list Q) (best : Q) (l2 : list Q),
    (forall x, In x l1 -> (key best < key x)%Q) ->
    (forall x, In x l2 -> (key best <= key x)%Q) ->
    exists l1' l2',
      l1 ++ best :: l2 ++ items = l1' ++ min_from key best items :: l2'
      /\ (forall x, In x l1' -> (key (min_from key best items) < key x)%Q)
      /\ (forall x, In x l2' -> (key (min_from key best items) <= key x)%Q).
Proof.
  induction items as [|p rest IH]; intros l1 best l2 H1 H2; cbn [min_from].
  - exists l1, l2. rewrite app_nil_r. auto.
  - destruct (Qltb (key p) (key best)) eqn:E.
    + apply Qltb_lt in E.
      destruct (IH (l1 ++ best :: l2) p []) as (l1' & l2' & Eq & A & B).
      * intros x Hx. apply in_app_or in Hx. destruct Hx as [Hx | [<- | Hx]].
        -- eapply Qlt_trans; [exact E | auto].
        -- exact E.
        -- eapply Qlt_le_trans; [exact E | auto].
      * intros x [].
      * exists l1', l2'. split; [|auto].
        rewrite <- Eq. cbn [app]. rewrite <- app_assoc. reflexivity.
    + apply Qltb_ge in E.
      destruct (IH l1 best (l2 ++ [p])) as (l1' & l2' & Eq & A & B).
      * exact H1.
      * intros x Hx. apply in_app_or in Hx. destruct Hx as [Hx | [<- | []]]; auto.
      * exists l1', l2'. split; [|auto].
        rewrite <- Eq. rewrite <- app_assoc. reflexivity.
Qed.

Lemma tuple_index_split (l1 : list Q) (r : Q) (l2 : list Q) :
  (forall x, In x l1 -> ~ (x == r)%Q) ->
  tuple_index (l1 ++ r :: l2) r = Ok (List.length l1).
Proof.
  induction l1 as [|a l1 IH]; intros H; cbn [app tuple_index List.length].
  - replace (Qeq_bool r r) with true; [reflexivity|].
    symmetry. apply Qeq_bool_iff. reflexivity.
  - destruct (Qeq_bool a r) eqn:E.
    + apply Qeq_bool_iff in E. exfalso. exact (H a (or_introl eq_refl) E).
    + rewrite IH by (intros x Hx; apply H; now right). reflexivity.
Qed.

(** The index [approximate_position] returns for a query value already in
    the axis' convention. *)
Lemma nearest_index (nc_positions : list Q) (q : Q) :
  nc_positions <> [] ->
  exists i p,
    (pos <- py_min (fun p => Qabs (p - q)) nc_positions ;;
     tuple_index nc_positions pos)%result = Ok i
    /\ nth_error nc_positions i = Some p
    /\ (forall j p', nth_error nc_positions j = Some p' ->
          (Qabs (p - q) <= Qabs (p' - q))%Q)
    /\ (forall j p', (j < i)%nat -> nth_error nc_positions j = Some p' ->
          (Qabs (p - q) < Qabs (p' - q))%Q).
Proof.
  intros Hne. destruct nc_positions as [|p0 rest]; [congruence|].
  cbn [py_min bind].
  set (key := fun p : Q => Qabs (p - q)).
  destruct (min_from_split key rest [] p0 []) as (l1 & l2 & Eq & A & B);
    try (intros x []).
  cbn [app] in Eq. set (r := min_from key p0 rest) in *.
  exists (List.length l1), r. rewrite Eq.
  split; [|split; [|split]].
  - apply tuple_index_split. intros x Hx E.
    specialize (A x Hx). unfold key in A. rewrite E in A.
    exact (Qlt_irrefl _ A).
  - rewrite nth_error_app2, Nat.sub_diag by lia. reflexivity.
  - intros j p' Hj. apply nth_error_In in Hj. apply in_app_or in Hj.
    destruct Hj as [Hj | [<- | Hj]].
    + apply Qlt_le_weak. exact (A _ Hj).
    + apply Qle_refl.
    + exact (B _ Hj).
  - intros j p' Hlt Hj. rewrite nth_error_app1 in Hj by exact Hlt.
    apply nth_error_In in Hj. exact (A _ Hj).
Qed.

(** ** Arithmetic of binary64 *)

Module Binary64Facts.
Import Binary64.

Lemma rhe_cases (x : Q) :
  (round_half_even x = Qfloor x /\ (x - inject_Z (Qfloor x) <= 1 # 2)%Q)
  \/ (round_half_even x = Qfloor x + 1 /\ (1 # 2 <= x - inject_Z (Qfloor x))%Q).
Proof.
  unfold round_half_even.
  destruct (Qcompare (x - inject_Z (Qfloor x)) (1 # 2)) eqn:E.
  - apply Qeq_alt in E. destruct (Z.even (Qfloor x)); [left | right]; split; auto; lra.
  - apply Qlt_alt in E. left. split; [reflexivity | lra].
  - apply Qgt_alt in E. right. split; [reflexivity | lra].
Qed.

Lemma rhe_bounds (x : Q) : Qfloor x <= round_half_even x <= Qfloor x + 1.
Proof. destruct (rhe_cases x) as [[-> _]|[-> _]]; lia. Qed.

Lemma rhe_ge_int (n : Z) (x : Q) : (inject_Z n <= x)%Q -> n <= round_half_even x.
Proof.
  intros H. apply Qfloor_resp_le in H. rewrite Qfloor_Z in H.
  pose proof (rhe_bounds x). lia.
Qed.

Lemma rhe_le_int (n : Z) (x : Q) : (x <= inject_Z n)%Q -> round_half_even x <= n.
Proof.
  intros H. pose proof (Qfloor_le x) as F.
  assert (Hf : Qfloor x <= n).
  { apply Qfloor_resp_le in H. now rewrite Qfloor_Z in H. }
  destruct (rhe_cases x) as [[-> _]|[-> Hr]]; [exact Hf|].
  destruct (Z.eq_dec (Qfloor x) n) as [E|]; [|lia].
  rewrite E in Hr. lra.
Qed.

Lemma rhe_int (n : Z) : round_half_even (inject_Z n) = n.
Proof.
  apply Z.le_antisymm; [apply rhe_le_int | apply rhe_ge_int]; apply Qle_refl.
Qed.

Lemma rhe_mono (x y : Q) : (x <= y)%Q -> round_half_even x <= round_half_even y.
Proof.
  intros H. pose proof (Qfloor_resp_le _ _ H) as F.
  destruct (Z.eq_dec (Qfloor x) (Qfloor y)) as [E|Hne].
  2:{ pose proof (rhe_bounds x). pose proof (rhe_bounds y). lia. }
  unfold round_half_even. rewrite <- E.
  destruct (Qcompare (x - inject_Z (Qfloor x)) (1 # 2)) eqn:Ex;
    destruct (Qcompare (y - inject_Z (Qfloor x)) (1 # 2)) eqn:Ey;
    try (destruct (Z.even (Qfloor x))); try lia;
    first [apply Qeq_alt in Ex | apply Qlt_alt in Ex | apply Qgt_alt in Ex];
    first [apply Qeq_alt in Ey | apply Qlt_alt in Ey | apply Qgt_alt in Ey];
    exfalso; lra.
Qed.

Lemma pow2_pos (k : Z) : 0 <= k -> (0 < inject_Z (2 ^ k))%Q.
Proof.
  intros H. change 0%Q with (inject_Z 0). rewrite <- Zlt_Qlt.
  apply Z.pow_pos_nonneg; lia.
Qed.

Lemma pow2_add (k s : Z) :
  0 <= k -> 0 <= s -> (inject_Z (2 ^ (k + s)) == inject_Z (2 ^ k) * inject_Z (2 ^ s))%Q.
Proof. intros. rewrite Z.pow_add_r by lia. rewrite inject_Z_mult. reflexivity. Qed.

Lemma div_pow2_le (X : Q) (s k : Z) :
  0 <= s -> 0 <= k -> (X <= inject_Z (2 ^ (k + s)))%Q ->
  (X / inject_Z (2 ^ s) <= inject_Z (2 ^ k))%Q.
Proof.
  intros Hs Hk H. apply Qle_shift_div_r; [now apply pow2_pos|].
  now rewrite <- pow2_add.
Qed.

Lemma div_pow2_ge (X : Q) (s k : Z) :
  0 <= s -> 0 <= k -> (inject_Z (2 ^ (k + s)) <= X)%Q ->
  (inject_Z (2 ^ k) <= X / inject_Z (2 ^ s))%Q.
Proof.
  intros Hs Hk H. apply Qle_shift_div_l; [now apply pow2_pos|].
  now rewrite <- pow2_add.
Qed.

Lemma round_units_mono (X Y : Q) :
  (0 <= X)%Q -> (X <= Y)%Q -> round_units X <= round_units Y.
Proof.
  intros H0 H. unfold round_units.
  pose proof (Qfloor_resp_le _ _ H) as F.
  assert (A0 : 0 <= Qfloor X).
  { apply Qfloor_resp_le in H0. exact H0. }
  set (a := Qfloor X) in *. set (b := Qfloor Y) in *.
  pose proof (Z.log2_le_mono _ _ F) as L.
  set (s := Z.max (Z.log2 a - 52) 0). set (t := Z.max (Z.log2 b - 52) 0).
  assert (Hs : 0 <= s) by lia. assert (Ht : 0 <= t) by lia.
  destruct (Z.eq_dec s t) as [E|Hne].
  - rewrite <- E. apply Z.mul_le_mono_nonneg_r; [apply Z.pow_nonneg; lia|].
    apply rhe_mono. apply Qmult_le_compat_r; [exact H|].
    apply Qinv_le_0_compat. apply Qlt_le_weak. now apply pow2_pos.
  - assert (Hst : s < t) by lia.
    assert (Et : t = Z.log2 b - 52) by lia.
    assert (Bpos : 0 < b).
    { destruct (Z.lt_ge_cases 0 b); [assumption|].
      rewrite (Z.log2_nonpos b) in Et by lia. lia. }
    (* the larger argument reaches its binade *)
    assert (Hy : 2 ^ 52 <= round_half_even (Y / inject_Z (2 ^ t))).
    { apply rhe_ge_int. apply div_pow2_ge; [lia | lia |].
      apply Qle_trans with (inject_Z b); [|apply Qfloor_le].
      rewrite <- Zle_Qle. replace (52 + t) with (Z.log2 b) by lia.
      apply Z.log2_spec. exact Bpos. }
    (* the smaller one stays in its own *)
    assert (Hx : round_half_even (X / inject_Z (2 ^ s)) <= 2 ^ 53).
    { apply rhe_le_int. apply div_pow2_le; [lia | lia |].
      apply Qle_trans with (inject_Z (a + 1)); [apply Qlt_le_weak, Qlt_floor|].
      rewrite <- Zle_Qle.
      assert (a < 2 ^ (53 + s)); [|lia].
      destruct (Z.eq_dec a 0) as [->|].
      - apply Z.pow_pos_nonneg; lia.
      - apply Z.lt_le_trans with (2 ^ Z.succ (Z.log2 a)).
        + apply Z.log2_spec. lia.
        + apply Z.pow_le_mono_r; lia. }
    apply Z.le_trans with (2 ^ 53 * 2 ^ s).
    + apply Z.mul_le_mono_nonneg_r; [apply Z.pow_nonneg; lia | exact Hx].
    + apply Z.le_trans with (2 ^ 52 * 2 ^ t).
      * rewrite <- !Z.pow_add_r by lia. apply Z.pow_le_mono_r; lia.
      * apply Z.mul_le_mono_nonneg_r; [apply Z.pow_nonneg; lia | exact Hy].
Qed.

Lemma round_magnitude_mono (x y : Q) :
  (0 <= x)%Q -> (x <= y)%Q -> (round_magnitude x <= round_magnitude y)%Q.
Proof.
  intros H0 H. unfold round_magnitude.
  apply Qmult_le_compat_r.
  - rewrite <- Zle_Qle. apply round_units_mono.
    + apply Qmult_le_0_compat; [exact H0 | apply Qlt_le_weak, (pow2_pos 1074 ltac:(lia))].
    + apply Qmult_le_compat_r; [exact H | apply Qlt_le_weak, (pow2_pos 1074 ltac:(lia))].
  - apply Qinv_le_0_compat, Qlt_le_weak, (pow2_pos 1074 ltac:(lia)).
Qed.

Lemma round_magnitude_zero : (round_magnitude 0 == 0)%Q.
Proof. vm_compute. reflexivity. Qed.

Lemma round_magnitude_nonneg (x : Q) : (0 <= x)%Q -> (0 <= round_magnitude x)%Q.
Proof.
  intros H. rewrite <- round_magnitude_zero at 1.
  apply round_magnitude_mono; [apply Qle_refl | exact H].
Qed.

Lemma round_magnitude_comp (x y : Q) :
  (0 <= x)%Q -> (x == y)%Q -> (round_magnitude x == round_magnitude y)%Q.
Proof.
  intros H E. apply Qle_antisym; apply round_magnitude_mono; lra.
Qed.

(** Rounding is symmetric: the magnitude of the rounded number is the
    rounded magnitude. *)
Lemma round_abs (x : Q) : (Qabs (round x) == round_magnitude (Qabs x))%Q.
Proof.
  unfold round. rewrite Qred_correct. destruct (Qle_bool 0 x) eqn:E.
  - apply Qle_bool_iff in E.
    rewrite (Qabs_pos (round_magnitude x)) by now apply round_magnitude_nonneg.
    apply round_magnitude_comp; [exact E|]. symmetry. now apply Qabs_pos.
  - assert (H : (x < 0)%Q).
    { apply Qnot_le_lt. intros L. apply Qle_bool_iff in L. congruence. }
    rewrite Qabs_opp.
    rewrite (Qabs_pos (round_magnitude (- x))) by (apply round_magnitude_nonneg; lra).
    apply round_magnitude_comp; [lra|]. symmetry. apply Qabs_neg. lra.
Qed.

Lemma round_abs_mono (x y : Q) :
  (Qabs x <= Qabs y)%Q -> (Qabs (round x) <= Qabs (round y))%Q.
Proof.
  intros H. rewrite !round_abs.
  apply round_magnitude_mono; [apply Qabs_nonneg | exact H].
Qed.

Lemma round_comp (x y : Q) : (x == y)%Q -> (round x == round y)%Q.
Proof.
  intros E. unfold round. rewrite !Qred_correct.
  assert (B : Qle_bool 0 x = Qle_bool 0 y).
  { destruct (Qle_bool 0 x) eqn:Ex, (Qle_bool 0 y) eqn:Ey; try reflexivity.
    - apply Qle_bool_iff in Ex. assert (L : (0 <= y)%Q) by lra.
      apply Qle_bool_iff in L. congruence.
    - apply Qle_bool_iff in Ey. assert (L : (0 <= x)%Q) by lra.
      apply Qle_bool_iff in L. congruence. }
  rewrite <- B. destruct (Qle_bool 0 x) eqn:Ex.
  - apply Qle_bool_iff in Ex. now apply round_magnitude_comp.
  - assert (H : (x < 0)%Q).
    { apply Qnot_le_lt. intros L. apply Qle_bool_iff in L. congruence. }
    apply Qopp_comp. apply round_magnitude_comp; lra.
Qed.

Lemma round_nonneg_mono (x y : Q) :
  (0 <= x)%Q -> (x <= y)%Q -> (round x <= round y)%Q.
Proof.
  intros H0 H. unfold round.
  assert (Hx : Qle_bool 0 x = true) by now apply Qle_bool_iff.
  assert (Hy : Qle_bool 0 y = true) by (apply Qle_bool_iff; lra).
  rewrite Hx, Hy, !Qred_correct. now apply round_magnitude_mono.
Qed.

(** The key of [approximate_position]: the rounded difference has the
    rounded distance as its magnitude, so a point that is not farther
    never has a larger key. *)
Lemma key_distance (p c : Q) :
  (Qabs (sub p c) == round_magnitude (Qabs (p - c)))%Q.
Proof. apply round_abs. Qed.

Lemma key_mono (p p' c : Q) :
  (Qabs (p - c) <= Qabs (p' - c))%Q -> (Qabs (sub p c) <= Qabs (sub p' c))%Q.
Proof. apply round_abs_mono. Qed.

Lemma key_comp (c x y : Q) : (x == y)%Q -> (Qabs (sub x c) == Qabs (sub y c))%Q.
Proof.
  intros E. unfold sub. apply Qabs_wd. apply round_comp. now rewrite E.
Qed.

(** Integers below 2^53 are binary64 numbers. *)
Lemma round_magnitude_int (m : Z) :
  0 <= m < 2 ^ 53 -> (round_magnitude (inject_Z m) == inject_Z m)%Q.
Proof.
  intros [H0 H]. destruct (Z.eq_dec m 0) as [->|Hm]; [apply round_magnitude_zero|].
  unfold round_magnitude, round_units.
  assert (EX : (inject_Z m * inject_Z (2 ^ 1074) == inject_Z (m * 2 ^ 1074))%Q)
    by (rewrite inject_Z_mult; reflexivity).
  assert (L : Z.log2 m <= 52).
  { assert (Z.log2 m < 53); [|lia]. apply Z.log2_lt_pow2; lia. }
  pose proof (Z.log2_nonneg m) as L0.
  assert (EF : Qfloor (inject_Z m * inject_Z (2 ^ 1074)) = m * 2 ^ 1074).
  { rewrite (Qfloor_comp _ _ EX). apply Qfloor_Z. }
  rewrite EF. rewrite Z.log2_mul_pow2 by lia.
  replace (Z.max (1074 + Z.log2 m - 52) 0) with (Z.log2 m + 1022) by lia.
  set (s := Z.log2 m + 1022).
  assert (Hs : 0 <= s) by (unfold s; lia).
  assert (EP : 2 ^ 1074 = 2 ^ (52 - Z.log2 m) * 2 ^ s).
  { rewrite <- Z.pow_add_r by lia. f_equal. unfold s. lia. }
  assert (ED : (inject_Z m * inject_Z (2 ^ 1074) / inject_Z (2 ^ s)
                == inject_Z (m * 2 ^ (52 - Z.log2 m)))%Q).
  { assert (E1 : (inject_Z m * inject_Z (2 ^ 1074)
                  == inject_Z (m * 2 ^ (52 - Z.log2 m)) * inject_Z (2 ^ s))%Q).
    { rewrite <- !inject_Z_mult. rewrite EP at 1. now rewrite Z.mul_assoc. }
    rewrite E1. apply Qdiv_mult_l.
    intros E0. pose proof (pow2_pos s Hs) as P. rewrite E0 in P.
    exact (Qlt_irrefl _ P). }
  assert (ER : round_half_even (inject_Z m * inject_Z (2 ^ 1074) / inject_Z (2 ^ s))
               = m * 2 ^ (52 - Z.log2 m)).
  { apply Z.le_antisymm; [apply rhe_le_int | apply rhe_ge_int]; rewrite ED;
      apply Qle_refl. }
  rewrite ER. rewrite <- Z.mul_assoc, <- EP. rewrite inject_Z_mult.
  apply Qdiv_mult_l.
  intros E0. pose proof (pow2_pos 1074 ltac:(lia)) as P. rewrite E0 in P.
  exact (Qlt_irrefl _ P).
Qed.

Lemma round_int (m : Z) :
  0 <= m < 2 ^ 53 -> (round (inject_Z m) == inject_Z m)%Q.
Proof.
  intros H. unfold round.
  assert (E : Qle_bool 0 (inject_Z m) = true).
  { apply Qle_bool_iff. change 0%Q with (inject_Z 0). rewrite <- Zle_Qle. lia. }
  rewrite E, Qred_correct. now apply round_magnitude_int.
Qed.
End Binary64Facts.

(** ** Grid Locator in binary64 *)

(** [min] with any key that respects the equality of rationals: the index
    returned is the first one whose key is minimal. *)
Lemma first_minimum_index (key : Q -> Q) (nc_positions : list Q) :
  (forall x y, (x == y)%Q -> (key x == key y)%Q) ->
  nc_positions <> [] ->
  exists i p,
    (pos <- py_min key nc_positions ;; tuple_index nc_positions pos)%result = Ok i
    /\ nth_error nc_positions i = Some p
    /\ (forall j p', nth_error nc_positions j = Some p' -> (key p <= key p')%Q)
    /\ (forall j p', (j < i)%nat -> nth_error nc_positions j = Some p' ->
          (key p < key p')%Q).
Proof.
  intros Hkey Hne. destruct nc_positions as [|p0 rest]; [congruence|].
  cbn [py_min bind].
  destruct (min_from_split key rest [] p0 []) as (l1 & l2 & Eq & A & B);
    try (intros x []).
  cbn [app] in Eq. set (r := min_from key p0 rest) in *.
  exists (List.length l1), r. rewrite Eq.
  split; [|split; [|split]].
  - apply tuple_index_split. intros x Hx E.
    specialize (A x Hx). rewrite (Hkey x r E) in A.
    exact (Qlt_irrefl _ A).
  - rewrite nth_error_app2, Nat.sub_diag by lia. reflexivity.
  - intros j p' Hj. apply nth_error_In in Hj. apply in_app_or in Hj.
    destruct Hj as [Hj | [<- | Hj]].
    + apply Qlt_le_weak. exact (A _ Hj).
    + apply Qle_refl.
    + exact (B _ Hj).
  - intros j p' Hlt Hj. rewrite nth_error_app1 in Hj by exact Hlt.
    apply nth_error_In in Hj. exact (A _ Hj).
Qed.

Lemma binary64_nearest_index (nc_positions : list Q) (q : Q) :
  nc_positions <> [] ->
  exists i p,
    Binary64.approximate_position nc_positions (Some q) None = Ok i
    /\ nth_error nc_positions i = Some p
    /\ (forall j p', nth_error nc_positions j = Some p' ->
          (Qabs (Binary64.sub p q) <= Qabs (Binary64.sub p' q))%Q)
    /\ (forall j p', (j < i)%nat -> nth_error nc_positions j = Some p' ->
          (Qabs (Binary64.sub p q) < Qabs (Binary64.sub p' q))%Q).
Proof.
  intros Hne. unfold Binary64.approximate_position. cbn [bind].
  apply (first_minimum_index (fun p => Qabs (Binary64.sub p q))); [|exact Hne].
  intros x y E. now apply Binary64Facts.key_comp.
Qed.

(** A bound of the exact distance that is a binary64 bounds the key. *)
Lemma key_le_float (p c a : Q) :
  (0 <= a)%Q -> (Binary64.round_magnitude a == a)%Q ->
  (Qabs (p - c) <= a)%Q -> (Qabs (Binary64.sub p c) <= a)%Q.
Proof.
  intros H0 Ha H. rewrite Binary64Facts.key_distance, <- Ha.
  apply Binary64Facts.round_magnitude_mono; [apply Qabs_nonneg | exact H].
Qed.

Lemma key_ge_float (p c a : Q) :
  (0 <= a)%Q -> (Binary64.round_magnitude a == a)%Q ->
  (a <= Qabs (p - c))%Q -> (a <= Qabs (Binary64.sub p c))%Q.
Proof.
  intros H0 Ha H. rewrite Binary64Facts.key_distance, <- Ha at 1.
  apply Binary64Facts.round_magnitude_mono; [exact H0 | exact H].
Qed.

(** C6.  For every non-empty axis and query value, [approximate_position],
    computed in binary64, returns the first index at which the rounded
    difference [fabs(p - value)] is minimal; a lattice point that is not
    farther from the query than the returned one has the same rounded
    difference.  A latitude is looked up as it is, a longitude below 0 as
    the float [360 + lon]; the float -8.73 is mapped to the float 351.27,
    and both get index 141 of [NC_LON]. *)
Theorem approximate_position_first_minimum (nc_positions : list Q) (value : Q) :
  nc_positions <> [] ->
  (forall lon, exists i p,
      Binary64.approximate_position nc_positions (Some value) lon = Ok i
      /\ nth_error nc_positions i = Some p
      /\ (forall j p', nth_error nc_positions j = Some p' ->
            (Qabs (Binary64.sub p value) <= Qabs (Binary64.sub p' value))%Q)
      /\ (forall j p', (j < i)%nat -> nth_error nc_positions j = Some p' ->
            (Qabs (Binary64.sub p value) < Qabs (Binary64.sub p' value))%Q)
      /\ (forall j p', nth_error nc_positions j = Some p' ->
            (Qabs (p' - value) <= Qabs (p - value))%Q ->
            (Qabs (Binary64.sub p' value) == Qabs (Binary64.sub p value))%Q))
  /\ Binary64.approximate_position nc_positions None (Some value)
     = Binary64.approximate_position nc_positions
         (Some (if Qle_bool 0 value then value else Binary64.add 360 value)) None
  /\ (Binary64.add 360 (Binary64.round (- (873 # 100)))
      == Binary64.round (35127 # 100))%Q
  /\ Binary64.approximate_position NC_LON None
       (Some (Binary64.round (- (873 # 100)))) = Ok 141%nat
  /\ Binary64.approximate_position NC_LON None
       (Some (Binary64.round (35127 # 100))) = Ok 141%nat.
Proof.
  intros Hne. split; [|split; [|split; [|split]]].
  - intros lon.
    destruct (binary64_nearest_index nc_positions value Hne)
      as (i & p & E & Hp & Hmin & Hfirst).
    exists i, p. split; [exact E|]. split; [exact Hp|].
    split; [exact Hmin|]. split; [exact Hfirst|].
    intros j p' Hj Hnear. apply Qle_antisym.
    + now apply Binary64Facts.key_mono.
    + exact (Hmin j p' Hj).
  - reflexivity.
  - vm_compute. reflexivity.
  - vm_compute. reflexivity.
  - vm_compute. reflexivity.
Qed.

(** ** Dictionaries *)

Section DictFacts.
Context {K V : Type} (eqb : K -> K -> bool).
Hypothesis eqb_refl : forall k, eqb k k = true.
Hypothesis eqb_sym : forall a b, eqb a b = eqb b a.
Hypothesis eqb_trans : forall a b c, eqb a b = true -> eqb b c = true -> eqb a c = true.

Lemma eqb_false_l (a b c : K) : eqb a b = true -> eqb b c = false -> eqb a c = false.
Proof.
  intros Hab Hbc. destruct (eqb a c) eqn:E; [|reflexivity].
  rewrite <- Hbc. symmetry. apply (eqb_trans b a c); [|exact E].
  now rewrite eqb_sym.
Qed.

Lemma dict_get_set_same (k : K) (v : V) (d : dict K V) :
  dict_get eqb k (dict_set eqb k v d) = Some v.
Proof.
  induction d as [|[k' v'] d IH]; cbn.
  - now rewrite eqb_refl.
  - destruct (eqb k' k) eqn:E; cbn; now rewrite E.
Qed.

Lemma dict_get_set_other (k k' : K) (v : V) (d : dict K V) :
  eqb k k' = false ->
  dict_get eqb k' (dict_set eqb k v d) = dict_get eqb k' d.
Proof.
  intros Hne. induction d as [|[k0 v0] d IH]; cbn.
  - now rewrite Hne.
  - destruct (eqb k0 k) eqn:E; cbn.
    + now rewrite (eqb_false_l k0 k k' E Hne).
    + now rewrite IH.
Qed.

Lemma dict_get_congr (k k' : K) (d : dict K V) :
  eqb k k' = true -> dict_get eqb k d = dict_get eqb k' d.
Proof.
  intros E. induction d as [|[k0 v0] d IH]; cbn; [reflexivity|].
  destruct (eqb k0 k) eqn:E0.
  - now rewrite (eqb_trans k0 k k' E0 E).
  - rewrite eqb_sym in E. rewrite eqb_sym in E0.
    assert (E1 : eqb k' k0 = false) by exact (eqb_false_l k' k k0 E E0).
    rewrite eqb_sym in E1. now rewrite E1.
Qed.

Lemma dict_keys_set (k : K) (v : V) (d : dict K V) :
  dict_keys (dict_set eqb k v d)
  = if dict_mem eqb k d then dict_keys d else dict_keys d ++ [k].
Proof.
  unfold dict_mem, dict_keys.
  induction d as [|[k0 v0] d IH]; cbn; [reflexivity|].
  destruct (eqb k0 k) eqn:E; cbn; [reflexivity|].
  rewrite IH. now destruct (dict_get eqb k d).
Qed.

Lemma dict_get_In (k : K) (v : V) (d : dict K V) :
  dict_get eqb k d = Some v -> exists k', In (k', v) d /\ eqb k' k = true.
Proof.
  induction d as [|[k0 v0] d IH]; cbn; [discriminate|].
  destruct (eqb k0 k) eqn:E.
  - intros [= <-]. exists k0. auto.
  - intros H. destruct (IH H) as (k' & Hin & Hk). exists k'. auto.
Qed.

Lemma dict_get_None (k : K) (d : dict K V) :
  dict_get eqb k d = None <-> forall k', In k' (dict_keys d) -> eqb k' k = false.
Proof.
  unfold dict_keys. induction d as [|[k0 v0] d IH]; cbn.
  - split; [intros _ k' []|reflexivity].
  - destruct (eqb k0 k) eqn:E.
    + split; [discriminate|]. intros H. specialize (H k0 (or_introl eq_refl)). congruence.
    + rewrite IH. split.
      * intros H k' [<- | Hin]; auto.
      * intros H k' Hin. apply H. now right.
Qed.
Lemma dict_set_absent (k : K) (v : V) (d : dict K V) :
  dict_get eqb k d = None -> dict_set eqb k v d = d ++ [(k, v)].
Proof.
  induction d as [|[k0 v0] d IH]; cbn; [reflexivity|].
  destruct (eqb k0 k) eqn:E; [discriminate|].
  intros H. now rewrite IH.
Qed.

Lemma dict_get_app_absent (k : K) (d1 d2 : dict K V) :
  dict_get eqb k d1 = None -> dict_get eqb k (d1 ++ d2) = dict_get eqb k d2.
Proof.
  induction d1 as [|[k0 v0] d1 IH]; cbn; [reflexivity|].
  destruct (eqb k0 k); [discriminate | exact IH].
Qed.

Lemma dict_set_nodup (k : K) (v : V) (d : dict K V) :
  dict_nodup eqb d -> dict_nodup eqb (dict_set eqb k v d).
Proof.
  induction d as [|[k0 v0] d IH]; cbn.
  - auto.
  - intros [H0 Hd]. destruct (eqb k0 k) eqn:E; cbn.
    + auto.
    + split; [|auto].
      rewrite dict_get_set_other; [exact H0|].
      rewrite eqb_sym. exact E.
Qed.

Lemma dict_nodup_In_get (k : K) (v : V) (d : dict K V) :
  dict_nodup eqb d -> In (k, v) d -> dict_get eqb k d = Some v.
Proof.
  induction d as [|[k0 v0] d IH]; cbn; [tauto|].
  intros [H0 Hd] [[= -> ->] | Hin].
  - now rewrite eqb_refl.
  - destruct (eqb k0 k) eqn:E; [|auto].
    exfalso. rewrite (dict_get_congr k0 k d E) in H0.
    rewrite (IH Hd Hin) in H0. discriminate.
Qed.

(** The entries after an assignment: the old ones, except that the
    assigned key has its new value, or is new and last. *)
Lemma dict_set_In (k k' : K) (v v' : V) (d : dict K V) :
  dict_nodup eqb d ->
  In (k', v') (dict_set eqb k v d) ->
  (In (k', v') d /\ eqb k' k = false)
  \/ (v' = v
      /\ ((dict_get eqb k d = None /\ k' = k)
          \/ (exists v0, In (k', v0) d /\ eqb k' k = true))).
Proof.
  induction d as [|[k0 v0] d IH]; cbn.
  - intros _ [[= <- <-] | []]. right. auto.
  - intros [H0 Hd]. destruct (eqb k0 k) eqn:E; cbn.
    + intros [[= <- <-] | Hin].
      * right. split; [reflexivity|]. right. exists v0. auto.
      * left. split; [auto|].
        assert (Hk : eqb k' k0 = false).
        { apply (proj1 (dict_get_None k0 d) H0).
          unfold dict_keys. apply in_map_iff. exists (k', v'). auto. }
        destruct (eqb k' k) eqn:E'; [|reflexivity].
        rewrite <- Hk. symmetry. apply (eqb_trans k' k k0 E').
        now rewrite eqb_sym.
    + intros [[= <- <-] | Hin].
      * left. auto.
      * destruct (IH Hd Hin) as [[Hin' Hne] | [-> [[Hnone ->] | (w & Hw & He)]]].
        -- left. auto.
        -- right. split; [reflexivity|]. left. auto.
        -- right. split; [reflexivity|]. right. exists w. auto.
Qed.

End DictFacts.

Section Properties.
  Context {num : Type} {N : Numeric num}.

(** ** Temporal Upsampler *)

Lemma range_succ (n : Z) : 0 <= n -> range (n + 1) = range n ++ [n].
Proof.
  intros Hn. unfold range.
  replace (Z.to_nat (n + 1)) with (S (Z.to_nat n)) by lia.
  rewrite seq_S, map_app. cbn. f_equal. f_equal. lia.
Qed.

Lemma x_old_bounds (L : Z) :
  1 <= L ->
  hd 0 (map (fun x => 0 + x * 6) (range L)) = 0
  /\ last (map (fun x => 0 + x * 6) (range L)) 0 = 6 * (L - 1).
Proof.
  intros HL. split.
  - unfold range. destruct (Z.to_nat L) eqn:E; [lia|]. reflexivity.
  - replace L with ((L - 1) + 1) at 1 by lia.
    rewrite range_succ, map_app by lia. cbn [map]. rewrite last_last. lia.
Qed.

(** C5.  For 18 level series of common length [L >= 4], [calc_hourly]
    returns 18 series, each of length [6 L - 5]: the values of the series'
    interpolant at the hours [0, 1, ..., 6 L - 6]; for [L = 4] that length
    is 19. *)
Theorem calc_hourly_shape (data : list (list num)) (L : nat) :
  List.length data = 18%nat ->
  (forall row, In row data -> List.length row = L) ->
  (4 <= L)%nat ->
  let x_old := map (fun x => 0 + x * 6) (range (Z.of_nat L)) in
  let x_new := range (6 * Z.of_nat L - 5) in
  calc_hourly data = Ok (map (fun row => map (interp_cubic x_old row) x_new) data)
  /\ (forall hourly, calc_hourly data = Ok hourly ->
        List.length hourly = 18%nat
        /\ (forall row, In row hourly -> Z.of_nat (List.length row) = 6 * Z.of_nat L - 5)
        /\ (L = 4%nat -> forall row, In row hourly -> List.length row = 19%nat))
  /\ (forall x, In x x_new <-> 0 <= x <= 6 * Z.of_nat L - 6).
Proof.
  intros Hlen Hrows HL x_old x_new.
  assert (Hcalc : calc_hourly data
                  = Ok (map (fun row => map (interp_cubic x_old row) x_new) data)).
  { unfold calc_hourly. destruct data as [|data0 rest]; [discriminate|].
    cbn [nth_or_IndexError nth_error bind].
    rewrite (Hrows data0 (or_introl eq_refl)). fold x_old.
    unfold interp1d.
    assert (Hx : List.length x_old = L).
    { unfold x_old. rewrite length_map, range_length. lia. }
    rewrite Hx.
    replace (forallb (fun row => (List.length row =? L)%nat) (data0 :: rest)) with true.
    2:{ symmetry. apply forallb_forall. intros row Hrow.
        apply Nat.eqb_eq. now apply Hrows. }
    cbn [negb]. destruct (Nat.ltb_spec L 4) as [Hlt|_]; [lia|].
    cbn [bind]. unfold range_without_last5.
    replace (Z.max (Z.of_nat L * 6 - 5) 0) with (6 * Z.of_nat L - 5) by lia.
    fold x_new.
    destruct (x_old_bounds (Z.of_nat L) ltac:(lia)) as [Hhd Hlast].
    fold x_old in Hhd, Hlast. rewrite Hhd, Hlast.
    replace (forallb (fun v => (0 <=? v) && (v <=? 6 * (Z.of_nat L - 1))) x_new) with true.
    2:{ symmetry. apply forallb_forall. intros v Hv.
        apply range_In in Hv. apply andb_true_iff.
        split; apply Z.leb_le; lia. }
    reflexivity. }
  split; [exact Hcalc|]. split.
  - intros hourly Hh. rewrite Hcalc in Hh. injection Hh as <-.
    assert (Hrow : forall row,
               In row (map (fun row => map (interp_cubic x_old row) x_new) data) ->
               Z.of_nat (List.length row) = 6 * Z.of_nat L - 5).
    { intros row Hrow. apply in_map_iff in Hrow. destruct Hrow as (r & <- & _).
      unfold x_new. rewrite length_map, range_length. lia. }
    split; [now rewrite length_map|]. split; [exact Hrow|].
    intros -> row Hin. apply Hrow in Hin. lia.
  - intros x. unfold x_new. rewrite range_In. lia.
Qed.

(** ** Trip Parser *)

Lemma location_eqb_refl (a : location) : location_eqb a a = true.
Proof.
  unfold location_eqb. apply andb_true_iff. split; apply Qeq_bool_iff; reflexivity.
Qed.

Lemma location_eqb_sym (a b : location) : location_eqb a b = location_eqb b a.
Proof.
  unfold location_eqb.
  assert (S : forall x y, Qeq_bool x y = Qeq_bool y x).
  { intros x y. apply eq_true_iff_eq. rewrite !Qeq_bool_iff. split; intros E; now symmetry. }
  now rewrite (S (fst a)), (S (snd a)).
Qed.

Lemma location_eqb_trans (a b c : location) :
  location_eqb a b = true -> location_eqb b c = true -> location_eqb a c = true.
Proof.
  unfold location_eqb. rewrite !andb_true_iff, !Qeq_bool_iff.
  intros [E1 E2] [E3 E4]. split; etransitivity; eauto.
Qed.

Lemma datetime_eqb_sym (a b : datetime) : datetime_eqb a b = datetime_eqb b a.
Proof.
  apply eq_true_iff_eq. rewrite !datetime_eqb_eq. split; congruence.
Qed.

Lemma datetime_eqb_trans (a b c : datetime) :
  datetime_eqb a b = true -> datetime_eqb b c = true -> datetime_eqb a c = true.
Proof. rewrite !datetime_eqb_eq. congruence. Qed.

Lemma datetime_eqb_neq (a b : datetime) : datetime_eqb a b = false <-> a <> b.
Proof.
  rewrite <- datetime_eqb_eq. destruct (datetime_eqb a b); split; congruence.
Qed.

Lemma strptime_ok (text : date_text) (d : datetime) :
  strptime text = Ok d ->
  datetime_ok d = true /\ year d = txt_year text /\ microsecond d = 0.
Proof.
  unfold strptime.
  destruct (date_ok _ _ _ && time_ok _ _ _ 0) eqn:E; [|discriminate].
  intros [= <-]. unfold datetime_ok. cbn. auto.
Qed.

(** Every coordinate has a grid index on both axes. *)
Lemma grid_index_ok (la lo : Q) :
  exists i j p q,
    approximate_position NC_LAT (Some la) None = Ok i
    /\ approximate_position NC_LON None (Some lo) = Ok j
    /\ nth_error NC_LAT i = Some p /\ nth_error NC_LON j = Some q.
Proof.
  assert (Hlat : NC_LAT <> []) by (intros E; discriminate (f_equal (@List.length Q) E)).
  assert (Hlon : NC_LON <> []) by (intros E; discriminate (f_equal (@List.length Q) E)).
  destruct (nearest_index NC_LAT la Hlat) as (i & p & Ei & Hp & _).
  destruct (nearest_index NC_LON (if Qle_bool 0 lo then lo else 360 + lo)%Q Hlon)
    as (j & q & Ej & Hq & _).
  exists i, j, p, q. unfold approximate_position. cbn [bind]. auto.
Qed.

(** A matched line that parses adds its sample to the two dictionaries:
    a new location gets a group of its own, a known one has its end date
    moved. *)
Lemma read_line_sample (t : trip) (line : trip_line) (date : datetime) (loc : location) :
  line_sample line = Ok (Some (date, loc)) ->
  exists g,
    read_line t line
    = Ok (mk_trip (dict_set location_eqb loc g (trip_by_location t))
                  (dict_set datetime_eqb date loc (trip_by_date t))
                  (Some date))
    /\ match dict_get location_eqb loc (trip_by_location t) with
       | None =>
           lat g = fst loc /\ lon g = snd loc
           /\ start_date g = date /\ end_date g = date
           /\ approximate_position NC_LAT (Some (lat g)) None = Ok (nc_lat_index g)
           /\ approximate_position NC_LON None (Some (lon g)) = Ok (nc_lon_index g)
           /\ nth_error NC_LAT (nc_lat_index g) = Some (nc_lat g)
           /\ nth_error NC_LON (nc_lon_index g) = Some (nc_lon g)
       | Some g0 => g = set_end_date date g0
       end.
Proof.
  destruct line as [|text la lo]; cbn [line_sample]; [discriminate|].
  unfold read_line.
  destruct (strptime text) as [d|e]; cbn [bind]; [|discriminate].
  destruct (py_float la) as [x|e]; cbn [bind]; [|discriminate].
  destruct (py_float lo) as [y|e]; cbn [bind]; [|discriminate].
  intros [= -> <-].
  destruct (dict_get location_eqb (x, y) (trip_by_location t)) as [g0|] eqn:G.
  - exists (set_end_date date g0). cbn [bind]. auto.
  - destruct (grid_index_ok x y) as (i & j & p & q & Ei & Ej & Hp & Hq).
    rewrite Ei, Ej. cbn [bind]. unfold nth_or_IndexError. rewrite Hp, Hq. cbn [bind].
    eexists. split; [reflexivity|].
    cbn [lat lon start_date end_date nc_lat nc_lon nc_lat_index nc_lon_index fst snd].
    repeat split; assumption.
Qed.

Lemma read_line_no_sample (t : trip) (line : trip_line) :
  line_sample line = Ok None -> read_line t line = Ok t.
Proof.
  destruct line as [|text la lo]; cbn; [reflexivity|].
  destruct (strptime text); cbn; [|discriminate].
  destruct (py_float la); cbn; [|discriminate].
  destruct (py_float lo); cbn; discriminate.
Qed.

Lemma read_line_raise (t : trip) (line : trip_line) (e : exn) :
  line_sample line = Raise e -> read_line t line = Raise e.
Proof.
  destruct line as [|text la lo]; cbn; [discriminate|].
  destruct (strptime text); cbn; [|congruence].
  destruct (py_float la); cbn; [|congruence].
  destruct (py_float lo); cbn; congruence.
Qed.

Lemma read_lines_app (t : trip) (l1 l2 : list trip_line) :
  read_lines t (l1 ++ l2) = (t' <- read_lines t l1 ;; read_lines t' l2)%result.
Proof.
  revert t. induction l1 as [|line l1 IH]; intros t; cbn; [reflexivity|].
  destruct (read_line t line); cbn; [apply IH | reflexivity].
Qed.

Lemma trip_samples_app (l1 l2 : list trip_line) :
  trip_samples (l1 ++ l2) = trip_samples l1 ++ trip_samples l2.
Proof.
  induction l1 as [|line l1 IH]; cbn; [reflexivity|].
  destruct (line_sample line) as [[s|]|e]; cbn; now rewrite IH.
Qed.

(** Reading goes through exactly when every line parses; the state after
    a prefix and one more line. *)
Lemma read_trip_snoc (lines : list trip_line) (line : trip_line) (t : trip) :
  read_trip (lines ++ [line]) = Ok t ->
  exists t0, read_trip lines = Ok t0 /\ read_line t0 line = Ok t.
Proof.
  unfold read_trip. rewrite read_lines_app.
  destruct (read_lines empty_trip lines) as [t0|e]; cbn [bind read_lines]; [|discriminate].
  destruct (read_line t0 line) as [t1|e] eqn:E; cbn [bind]; [|discriminate].
  intros [= <-]. exists t0. split; [reflexivity | exact E].
Qed.

Lemma last_location_snoc (d' d : datetime) (loc : location)
      (samples : list (datetime * location)) :
  last_location d' (samples ++ [(d, loc)])
  = if datetime_eqb d d' then Some loc else last_location d' samples.
Proof.
  induction samples as [|[d0 l0] samples IH]; cbn.
  - reflexivity.
  - rewrite IH. destruct (datetime_eqb d d'); [reflexivity|].
    reflexivity.
Qed.

Lemma dates_at_snoc (k : location) (d : datetime) (loc : location)
      (samples : list (datetime * location)) :
  dates_at k (samples ++ [(d, loc)])
  = dates_at k samples ++ (if location_eqb loc k then [d] else []).
Proof.
  unfold dates_at. rewrite filter_app, map_app. cbn.
  now destruct (location_eqb loc k).
Qed.

Lemma dates_at_congr (k k' : location) (samples : list (datetime * location)) :
  location_eqb k k' = true -> dates_at k samples = dates_at k' samples.
Proof.
  intros E. unfold dates_at. f_equal. apply filter_ext. intros [d l]. cbn.
  destruct (location_eqb l k) eqn:E1, (location_eqb l k') eqn:E2; try reflexivity.
  - pose proof (location_eqb_trans _ _ _ E1 E). congruence.
  - rewrite location_eqb_sym in E.
    pose proof (location_eqb_trans _ _ _ E2 E). congruence.
Qed.

Lemma group_ok_congr (k k' : location) (g : loc_info)
      (samples : list (datetime * location)) :
  location_eqb k k' = true -> group_ok k g samples -> group_ok k' g samples.
Proof.
  intros E (H1 & H2 & H3 & H4). unfold group_ok.
  rewrite <- (dates_at_congr k k' samples E).
  split; [exact (location_eqb_trans _ _ _ H1 E)|]. auto.
Qed.

Lemma by_date_get_set_same {V : Type} (d : datetime) (v : V) (tbl : dict datetime V) :
  dict_get datetime_eqb d (dict_set datetime_eqb d v tbl) = Some v.
Proof. apply dict_get_set_same. apply datetime_eqb_refl. Qed.

Lemma by_date_get_set_other {V : Type} (d d' : datetime) (v : V) (tbl : dict datetime V) :
  datetime_eqb d d' = false ->
  dict_get datetime_eqb d' (dict_set datetime_eqb d v tbl) = dict_get datetime_eqb d' tbl.
Proof.
  apply dict_get_set_other; [apply datetime_eqb_sym | apply datetime_eqb_trans].
Qed.

Lemma by_location_get_congr {V : Type} (k k' : location) (tbl : dict location V) :
  location_eqb k k' = true ->
  dict_get location_eqb k tbl = dict_get location_eqb k' tbl.
Proof.
  apply dict_get_congr; [apply location_eqb_sym | apply location_eqb_trans].
Qed.

Lemma by_location_get_set_same {V : Type} (k k' : location) (v : V) (tbl : dict location V) :
  location_eqb k k' = true ->
  dict_get location_eqb k' (dict_set location_eqb k v tbl) = Some v.
Proof.
  intros E. rewrite <- (by_location_get_congr k k' _ E).
  apply dict_get_set_same. apply location_eqb_refl.
Qed.

Lemma by_location_get_set_other {V : Type} (k k' : location) (v : V) (tbl : dict location V) :
  location_eqb k k' = false ->
  dict_get location_eqb k' (dict_set location_eqb k v tbl) = dict_get location_eqb k' tbl.
Proof.
  apply dict_get_set_other; [apply location_eqb_sym | apply location_eqb_trans].
Qed.

Lemma NoDup_snoc {A : Type} (l : list A) (x : A) :
  NoDup l -> ~ In x l -> NoDup (l ++ [x]).
Proof.
  induction l as [|a l IH]; cbn; intros Hl Hx.
  - constructor; [intros [] | constructor].
  - inversion Hl as [|? ? Ha Hl']; subst. constructor.
    + rewrite in_app_iff. cbn. intuition congruence.
    + apply IH; tauto.
Qed.

(** The state of the parser after the lines read so far. *)
Lemma read_trip_inv (lines : list trip_line) :
  forall t, read_trip lines = Ok t ->
  let samples := trip_samples lines in
  (forall line, In line lines -> is_ok (line_sample line) = true)
  /\ NoDup (dict_keys (trip_by_date t))
  /\ (forall d, In d (dict_keys (trip_by_date t)) <-> In d (map fst samples))
  /\ (forall d, dict_get datetime_eqb d (trip_by_date t) = last_location d samples)
  /\ trip_end_date t = last (map (fun s => Some (fst s)) samples) None
  /\ dict_nodup location_eqb (trip_by_location t)
  /\ (forall k, dict_get location_eqb k (trip_by_location t) = None
                <-> dates_at k samples = [])
  /\ (forall k g, dict_get location_eqb k (trip_by_location t) = Some g ->
                  group_ok k g samples)
  /\ (forall k g, In (k, g) (trip_by_location t) -> k = (lat g, lon g)).
Proof.
  induction lines as [|line lines IH] using rev_ind; intros t Ht.
  - injection Ht as <-. cbn.
    repeat split; try tauto; try constructor; try discriminate.
  - cbv zeta. rewrite trip_samples_app.
    destruct (read_trip_snoc lines line t Ht) as (t0 & Ht0 & Hline).
    destruct (IH t0 Ht0) as (P & A & B & C & D & E & F & G & K). clear IH.
    set (samples := trip_samples lines) in *.
    assert (Pline : forall l, In l (lines ++ [line]) ->
                              is_ok (line_sample line) = true ->
                              is_ok (line_sample l) = true).
    { intros l Hl Hok. apply in_app_or in Hl. destruct Hl as [Hl | [<- | []]]; auto. }
    destruct (line_sample line) as [[[date loc]|]|e] eqn:Es.
    + (* one more sample *)
      destruct (read_line_sample t0 line date loc Es) as (g & Hg & Hnew).
      rewrite Hline in Hg. injection Hg as ->.
      cbn [trip_by_date trip_by_location trip_end_date trip_samples].
      rewrite Es. cbn [app].
      split; [intros l Hl; now apply Pline|].
      split; [|split; [|split; [|split; [|split; [|split; [|split]]]]]].
      * rewrite (dict_keys_set datetime_eqb). unfold dict_mem.
        destruct (dict_get datetime_eqb date (trip_by_date t0)) eqn:Eg; [exact A|].
        apply NoDup_snoc; [exact A|].
        intros Hin.
        pose proof (proj1 (dict_get_None datetime_eqb date _) Eg date Hin) as Hf.
        rewrite datetime_eqb_refl in Hf. discriminate.
      * intros d. rewrite (dict_keys_set datetime_eqb), map_app, in_app_iff. cbn.
        unfold dict_mem.
        destruct (dict_get datetime_eqb date (trip_by_date t0)) as [l0|] eqn:Eg.
        -- rewrite B. split; [tauto|]. intros [H | [<- | []]]; [exact H|].
           apply B. destruct (dict_get_In datetime_eqb _ _ _ Eg) as (k' & Hin & Hk).
           apply datetime_eqb_eq in Hk. subst k'.
           unfold dict_keys. apply in_map_iff. exists (date, l0). auto.
        -- rewrite in_app_iff, B. cbn. tauto.
      * intros d. rewrite last_location_snoc.
        destruct (datetime_eqb date d) eqn:Ed.
        -- apply datetime_eqb_eq in Ed. subst d. apply by_date_get_set_same.
        -- rewrite by_date_get_set_other by exact Ed. apply C.
      * rewrite map_app. cbn. now rewrite last_last.
      * apply dict_set_nodup;
          [apply location_eqb_sym | apply location_eqb_trans | exact E].
      * intros k. rewrite dates_at_snoc.
        destruct (location_eqb loc k) eqn:Ek.
        -- rewrite by_location_get_set_same by exact Ek.
           split; [discriminate|]. intros H. apply app_eq_nil in H. destruct H. discriminate.
        -- rewrite by_location_get_set_other by exact Ek.
           rewrite app_nil_r. apply F.
      * intros k g'. destruct (location_eqb loc k) eqn:Ek.
        -- rewrite by_location_get_set_same by exact Ek.
           intros [= <-]. apply (group_ok_congr loc k); [exact Ek|].
           unfold group_ok. rewrite dates_at_snoc, location_eqb_refl.
           destruct (dict_get location_eqb loc (trip_by_location t0)) as [g0|] eqn:Eg.
           ++ subst g. destruct (G loc g0 Eg) as (G1 & G2 & G3 & G4).
              cbn [set_end_date lat lon start_date end_date nc_lat nc_lon
                   nc_lat_index nc_lon_index].
              split; [exact G1|]. split; [|split; [now rewrite last_last | exact G4]].
              destruct (dates_at loc samples); [discriminate | exact G2].
           ++ destruct Hnew as (N1 & N2 & N3 & N4 & N5).
              apply F in Eg. rewrite Eg. cbn [app hd_error last].
              rewrite N3, N4.
              split; [rewrite N1, N2; destruct loc; apply location_eqb_refl|].
              split; [reflexivity|]. split; [reflexivity|]. exact N5.
        -- rewrite by_location_get_set_other by exact Ek.
           intros Hg. specialize (G k g' Hg). unfold group_ok in *.
           rewrite dates_at_snoc, Ek, app_nil_r. exact G.
      * intros k g' Hin.
        apply (dict_set_In location_eqb location_eqb_sym location_eqb_trans) in Hin;
          [|exact E].
        destruct Hin as [[Hin _] | [-> [[Hnone ->] | (v0 & Hin & Ek)]]].
        -- exact (K k g' Hin).
        -- rewrite Hnone in Hnew. destruct Hnew as (N1 & N2 & _).
           rewrite N1, N2. now destruct loc.
        -- pose proof (K k v0 Hin) as Hk.
           pose proof (dict_nodup_In_get location_eqb location_eqb_refl location_eqb_sym
                         location_eqb_trans k v0 _ E Hin) as Hget.
           rewrite (by_location_get_congr k loc _ Ek) in Hget.
           rewrite Hget in Hnew. subst g. exact Hk.
    + (* a line that does not match *)
      rewrite (read_line_no_sample t0 line Es) in Hline. injection Hline as <-.
      cbn [trip_samples]. rewrite Es, app_nil_r.
      split; [intros l Hl; now apply Pline|]. auto 10.
    + rewrite (read_line_raise t0 line e Es) in Hline. discriminate.
Qed.

(** ** Grid Sampler *)

Lemma series_of_snoc (plan : list sampled_point) (p : sampled_point) :
  series_of (plan ++ [p])
  = map (fun kr => snd kr ++ [level_value p (fst kr)])
        (combine (seq 0%nat (1 + NC_LEVELS_COUNT)%nat) (series_of plan)).
Proof.
  unfold series_of. generalize (seq 0%nat (1 + NC_LEVELS_COUNT)%nat). intros ks.
  induction ks as [|k ks IH]; cbn [map combine]; [reflexivity|].
  rewrite map_app. cbn [map fst snd]. f_equal. exact IH.
Qed.

Lemma series_of_length (plan : list sampled_point) :
  List.length (series_of plan) = 18%nat.
Proof. unfold series_of. now rewrite length_map, length_seq. Qed.

(** One pass over a date not yet processed: a slice is read and each of
    the 18 series gets one more value. *)
Lemma sample_date_step (ds : dataset num) (lat_i lon_i : nat) (date : datetime)
      (air : nat -> nat -> nat -> num) (plan : list sampled_point) :
  nc_getitem ds (tm_yday date * 4 - 1) = Ok air ->
  sample_date ds lat_i lon_i date (series_of plan)
  = ([EvReadSlice (tm_yday date * 4 - 1)],
     Ok (series_of (plan ++ [mk_point date air lat_i lon_i]))).
Proof.
  intros Hair. unfold sample_date. cbv zeta.
  unfold io_emit, io_lift. rewrite Hair. cbn [io_bind].
  rewrite series_of_snoc.
  pose proof (series_of_length plan) as Hlen.
  destruct (series_of plan) as [|r0 data]; [discriminate|].
  do 17 (destruct data as [|? data]; [discriminate|]).
  destruct data; [|discriminate].
  reflexivity.
Qed.

Lemma sample_date_raise (ds : dataset num) (lat_i lon_i : nat) (date : datetime)
      (e : exn) (nc_data : list (list num)) :
  nc_getitem ds (tm_yday date * 4 - 1) = Raise e ->
  sample_date ds lat_i lon_i date nc_data
  = ([EvReadSlice (tm_yday date * 4 - 1)], Raise e).
Proof.
  intros Hair. unfold sample_date. cbv zeta.
  unfold io_emit, io_lift. rewrite Hair. reflexivity.
Qed.

Lemma io_bind_ok {A B : Type} (m : IO A) (f : A -> IO B) (log : list event) (b : B) :
  io_bind m f = (log, Ok b) ->
  exists log1 a log2, m = (log1, Ok a) /\ f a = (log2, Ok b) /\ log = log1 ++ log2.
Proof.
  destruct m as [log1 [a|e]]; cbn [io_bind]; [|discriminate].
  destruct (f a) as [log2 r] eqn:E. intros [= <- ->].
  exists log1, a, log2. auto.
Qed.

Lemma existsb_datetime (d : datetime) (l : list datetime) :
  existsb (datetime_eqb d) l = true <-> In d l.
Proof.
  rewrite existsb_exists. split.
  - intros (x & Hx & E). apply datetime_eqb_eq in E. now subst.
  - intros H. exists d. split; [exact H | apply datetime_eqb_refl].
Qed.

(** The inner loop over the aligned dates of one location, from the state
    reached by the passes [plan]: the new passes are the dates not seen
    before, in order. *)
Lemma sample_dates_ok (ds : dataset num) (lat_i lon_i : nat)
      (dates : list (result datetime)) :
  forall (plan : list sampled_point) (log : list event) (st' : sampler_state),
    sample_dates ds lat_i lon_i dates (series_of plan, map sp_date plan) = (log, Ok st') ->
    exists new,
      st' = (series_of (plan ++ new), map sp_date (plan ++ new))
      /\ log = map (fun p => EvReadSlice (tm_yday (sp_date p) * 4 - 1)) new
      /\ (forall p, In p new ->
            nc_getitem ds (tm_yday (sp_date p) * 4 - 1) = Ok (sp_air p)
            /\ sp_lat_i p = lat_i /\ sp_lon_i p = lon_i
            /\ In (Ok (sp_date p)) dates
            /\ ~ In (sp_date p) (map sp_date plan))
      /\ NoDup (map sp_date new)
      /\ (forall r, In r dates ->
            exists d, r = Ok d /\ In d (map sp_date (plan ++ new))).
Proof.
  induction dates as [|next rest IH]; intros plan log st' H.
  - cbn in H. injection H as <- <-. exists []. rewrite app_nil_r.
    split; [reflexivity|]. split; [reflexivity|]. split; [intros p []|].
    split; [constructor|]. intros r [].
  - cbn [sample_dates] in H.
    destruct next as [date|e]; [|discriminate].
    cbn [io_lift io_bind] in H.
    destruct (existsb (datetime_eqb date) (map sp_date plan)) eqn:Eseen.
    + destruct (sample_dates ds lat_i lon_i rest (series_of plan, map sp_date plan))
        as [log' r] eqn:Erest.
      cbn [app] in H. injection H as <- ->.
      destruct (IH plan log' st' Erest) as (new & -> & -> & Hnew & Hnd & Hall).
      exists new. split; [reflexivity|]. split; [reflexivity|].
      split; [|split; [exact Hnd|]].
      * intros p Hp. destruct (Hnew p Hp) as (? & ? & ? & ? & ?).
        repeat split; auto. now right.
      * intros r [<- | Hr]; [|auto].
        exists date. split; [reflexivity|].
        rewrite map_app, in_app_iff. left. now apply existsb_datetime.
    + destruct (nc_getitem ds (tm_yday date * 4 - 1)) as [air|e] eqn:Eair.
      2:{ rewrite (sample_date_raise ds lat_i lon_i date e _ Eair) in H.
          cbn in H. discriminate. }
      rewrite (sample_date_step ds lat_i lon_i date air plan Eair) in H.
      cbn [io_bind] in H.
      set (p := mk_point date air lat_i lon_i) in *.
      replace (map sp_date plan ++ [date]) with (map sp_date (plan ++ [p])) in H
        by (rewrite map_app; reflexivity).
      destruct (sample_dates ds lat_i lon_i rest
                  (series_of (plan ++ [p]), map sp_date (plan ++ [p])))
        as [log' r] eqn:Erest.
      injection H as <- ->.
      destruct (IH (plan ++ [p]) log' st' Erest) as (new & -> & -> & Hnew & Hnd & Hall).
      assert (Hfresh : ~ In date (map sp_date plan)).
      { intros Hin. apply existsb_datetime in Hin. congruence. }
      exists (p :: new). rewrite <- !app_assoc. cbn [app].
      split; [reflexivity|]. split; [reflexivity|].
      split; [|split].
      * intros q [<- | Hq].
        -- cbn. repeat split; auto.
        -- destruct (Hnew q Hq) as (? & ? & ? & ? & Hq').
           repeat split; auto. now right.
           intros Hin. apply Hq'. rewrite map_app, in_app_iff. now left.
      * cbn [map]. constructor; [|exact Hnd].
        intros Hin. apply in_map_iff in Hin. destruct Hin as (q & Eq & Hq).
        destruct (Hnew q Hq) as (_ & _ & _ & _ & Hq').
        apply Hq'. rewrite map_app, in_app_iff. right. cbn. left. now rewrite Eq.
      * intros r [<- | Hr].
        -- exists date. split; [reflexivity|].
           rewrite map_app, in_app_iff. right. now left.
        -- destruct (Hall r Hr) as (d & -> & Hd). exists d. split; [reflexivity|].
           rewrite <- app_assoc in Hd. exact Hd.
Qed.

(** The outer loop over the groups. *)
Lemma sample_locations_ok (ds : dataset num) (locs : list loc_info) :
  forall (plan : list sampled_point) (log : list event) (st' : sampler_state),
    sample_locations ds locs (series_of plan, map sp_date plan) = (log, Ok st') ->
    exists new,
      st' = (series_of (plan ++ new), map sp_date (plan ++ new))
      /\ log = map (fun p => EvReadSlice (tm_yday (sp_date p) * 4 - 1)) new
      /\ (forall p, In p new ->
            (exists loc, In loc locs /\ point_of ds loc p)
            /\ ~ In (sp_date p) (map sp_date plan))
      /\ NoDup (map sp_date new)
      /\ (forall loc r, In loc locs ->
            In r (six_hour_aligned_dates (start_date loc) (end_date loc)) ->
            exists d, r = Ok d /\ In d (map sp_date (plan ++ new))).
Proof.
  induction locs as [|loc rest IH]; intros plan log st' H.
  - cbn in H. injection H as <- <-. exists []. rewrite app_nil_r.
    split; [reflexivity|]. split; [reflexivity|]. split; [intros p []|].
    split; [constructor|]. intros loc r [].
  - cbn [sample_locations] in H.
    apply io_bind_ok in H. destruct H as (log1 & st1 & log2 & H1 & H2 & ->).
    destruct (sample_dates_ok _ _ _ _ _ _ _ H1) as (new1 & -> & -> & P1 & N1 & A1).
    destruct (IH _ _ _ H2) as (new2 & -> & -> & P2 & N2 & A2).
    exists (new1 ++ new2). rewrite <- !app_assoc.
    split; [reflexivity|]. split; [now rewrite map_app|].
    split; [|split].
    + intros p Hp. apply in_app_or in Hp. destruct Hp as [Hp | Hp].
      * destruct (P1 p Hp) as (Q1 & Q2 & Q3 & Q4 & Q5).
        split; [|exact Q5]. exists loc. split; [now left|].
        unfold point_of. auto.
      * destruct (P2 p Hp) as ((l & Hl & Hpt) & Hq).
        split; [exists l; split; [now right | exact Hpt]|].
        intros Hin. apply Hq. rewrite map_app, in_app_iff. now left.
    + rewrite map_app.
      assert (Hdisj : forall d, In d (map sp_date new1) -> ~ In d (map sp_date new2)).
      { intros d H1' H2'. apply in_map_iff in H2'. destruct H2' as (q & <- & Hq).
        destruct (P2 q Hq) as (_ & Hq'). apply Hq'.
        rewrite map_app, in_app_iff. now right. }
      clear - N1 N2 Hdisj.
      induction (map sp_date new1) as [|d l IHl]; cbn; [exact N2|].
      inversion N1 as [|? ? Hd Hl]; subst. constructor.
      * rewrite in_app_iff. intros [Hin | Hin]; [exact (Hd Hin)|].
        exact (Hdisj d (or_introl eq_refl) Hin).
      * apply IHl; [exact Hl|]. intros x Hx. apply Hdisj. now right.
    + intros l r [<- | Hl] Hr.
      * destruct (A1 r Hr) as (d & -> & Hd). exists d. split; [reflexivity|].
        rewrite !map_app, !in_app_iff in *. tauto.
      * destruct (A2 l r Hl Hr) as (d & -> & Hd). exists d. split; [reflexivity|].
        rewrite <- app_assoc in Hd. exact Hd.
Qed.

(** The sampler from its initial state: the passes it makes. *)
Lemma sampler_run (ds : dataset num) (locs : list loc_info)
      (log : list event) (nc_data : list (list num)) (processed_dates : list datetime) :
  sample_locations ds locs initial_state = (log, Ok (nc_data, processed_dates)) ->
  exists plan,
    nc_data = series_of plan /\ processed_dates = map sp_date plan
    /\ log = map (fun p => EvReadSlice (tm_yday (sp_date p) * 4 - 1)) plan
    /\ (forall p, In p plan -> exists loc, In loc locs /\ point_of ds loc p)
    /\ NoDup processed_dates
    /\ (forall loc r, In loc locs ->
          In r (six_hour_aligned_dates (start_date loc) (end_date loc)) ->
          exists d, r = Ok d /\ In d processed_dates).
Proof.
  intros H.
  change initial_state
    with (series_of (@nil (@sampled_point num)), map sp_date (@nil (@sampled_point num)))
    in H.
  destruct (sample_locations_ok ds locs [] log _ H) as (plan & E & -> & P & Nd & A).
  cbn [app] in *. injection E as -> ->.
  exists plan. repeat split; auto.
  intros p Hp. exact (proj1 (P p Hp)).
Qed.

(** ** main *)

Lemma io_lift_ok {A : Type} (r : result A) (log : list event) (a : A) :
  io_lift r = (log, Ok a) -> log = [] /\ r = Ok a.
Proof. unfold io_lift. intros [= <- ->]. auto. Qed.

Lemma io_emit_ok (e : event) (log : list event) (u : unit) :
  io_emit e = (log, Ok u) -> log = [e].
Proof. unfold io_emit. intros [= <-]. reflexivity. Qed.

(** The header line has its 23 names. *)
Lemma header_ok :
  exists header, OUT_FILE_LINE_format header_fields = Ok header.
Proof. eexists. vm_compute. reflexivity. Qed.

(** A run of [main] that ends normally went through every stage. *)
Lemma main_ok_inv (a : args) (lines : list trip_line)
      (nc_open : string -> result (dataset num)) (log : list event) (u : unit) :
  main a lines nc_open = (log, Ok u) ->
  exists t trip_end ds slog nc_data processed_dates nc_data0 hourly header rows_log,
    string_filter isdigit (nc_file a) <> EmptyString
    /\ read_trip lines = Ok t
    /\ trip_end_date t = Some trip_end
    /\ year trip_end = int_of_digits (string_filter isdigit (nc_file a))
    /\ nc_open (nc_file a) = Ok ds
    /\ sample_locations ds (dict_values (trip_by_location t)) initial_state
       = (slog, Ok (nc_data, processed_dates))
    /\ nth_error nc_data 0 = Some nc_data0
    /\ expected_samples (List.length (trip_by_date t)) = Z.of_nat (List.length nc_data0)
    /\ calc_hourly nc_data = Ok hourly
    /\ OUT_FILE_LINE_format header_fields = Ok header
    /\ write_rows t (zip_star (trip_by_date t) hourly) = (rows_log, Ok u)
    /\ log = EvOpenDataset (nc_file a) :: slog
             ++ EvOpenOut (match out_file a with
                           | Some f => f
                           | None => default_out_file a
                           end)
             :: EvWrite header :: rows_log.
Proof.
  unfold main. cbv zeta.
  destruct (String.eqb (string_filter isdigit (nc_file a)) EmptyString) eqn:Ey;
    [discriminate|].
  apply String.eqb_neq in Ey.
  intros H. apply io_bind_ok in H. destruct H as (l1 & t & l2 & H1 & H & ->).
  apply io_lift_ok in H1. destruct H1 as [-> Ht].
  destruct (trip_end_date t) as [trip_end|] eqn:Eend; [|discriminate].
  destruct (year trip_end =? int_of_digits (string_filter isdigit (nc_file a))) eqn:Eyear;
    cbn [negb] in H; [|discriminate].
  apply Z.eqb_eq in Eyear.
  apply io_bind_ok in H. destruct H as (l3 & [] & l4 & H3 & H & ->).
  apply io_emit_ok in H3. subst l3.
  apply io_bind_ok in H. destruct H as (l5 & ds & l6 & H5 & H & ->).
  apply io_lift_ok in H5. destruct H5 as [-> Hds].
  apply io_bind_ok in H. destruct H as (slog & [nc_data processed_dates] & l8 & Hs & H & ->).
  apply io_bind_ok in H. destruct H as (l9 & nc_data0 & l10 & H9 & H & ->).
  apply io_lift_ok in H9. destruct H9 as [-> H0].
  unfold nth_or_IndexError in H0.
  destruct (nth_error nc_data 0) as [r0|] eqn:E0; [|discriminate].
  injection H0 as ->.
  destruct (expected_samples (List.length (trip_by_date t)) =? Z.of_nat (List.length nc_data0))
    eqn:Echeck; cbn [negb] in H; [|discriminate].
  apply Z.eqb_eq in Echeck.
  apply io_bind_ok in H. destruct H as (l11 & hourly & l12 & H11 & H & ->).
  apply io_lift_ok in H11. destruct H11 as [-> Hh].
  apply io_bind_ok in H. destruct H as (l13 & [] & l14 & H13 & H & ->).
  apply io_emit_ok in H13. subst l13.
  apply io_bind_ok in H. destruct H as (l15 & header & l16 & H15 & H & ->).
  apply io_lift_ok in H15. destruct H15 as [-> Hhead].
  apply io_bind_ok in H. destruct H as (l17 & [] & rows_log & H17 & H & ->).
  apply io_emit_ok in H17. subst l17.
  exists t, trip_end, ds, slog, nc_data, processed_dates, nc_data0, hourly, header, rows_log.
  cbn [app]. repeat split; auto.
Qed.

Lemma read_trip_no_match (lines : list trip_line) :
  (forall line, In line lines -> line = NoMatch) ->
  read_trip lines = Ok empty_trip.
Proof.
  unfold read_trip. generalize empty_trip.
  induction lines as [|line rest IH]; intros t H; cbn; [reflexivity|].
  rewrite (H line (or_introl eq_refl)). cbn.
  apply IH. intros l Hl. apply H. now right.
Qed.

(** C8.  When no line of the trip file matches the record pattern (an
    empty file included), the process ends with exit status 1 and has
    performed no file operation: the dataset is never opened.  With a
    dataset file name that holds a digit, this is the [sys.exit(1)] of the
    script. *)
Theorem no_matching_line_exits_1 (a : args) (lines : list trip_line)
        (nc_open : string -> result (dataset num)) :
  (forall line, In line lines -> line = NoMatch) ->
  exit_status (snd (main a lines nc_open)) = 1
  /\ fst (main a lines nc_open) = []
  /\ (forall e, In e (fst (main a lines nc_open)) -> is_dataset_event e = false)
  /\ (string_filter isdigit (nc_file a) <> EmptyString ->
      snd (main a lines nc_open) = Raise (SystemExit 1)).
Proof.
  intros H. unfold main. cbv zeta. rewrite (read_trip_no_match lines H).
  destruct (String.eqb (string_filter isdigit (nc_file a)) EmptyString) eqn:E; cbn.
  - apply String.eqb_eq in E.
    split; [reflexivity|]. split; [reflexivity|]. split; [intros e []|]. congruence.
  - split; [reflexivity|]. split; [reflexivity|]. split; [intros e []|]. reflexivity.
Qed.

Lemma read_lines_end_date (lines : list trip_line) :
  forall t0 t, read_lines t0 lines = Ok t ->
  match last_matched lines with
  | Some text => exists d, strptime text = Ok d /\ trip_end_date t = Some d
  | None => trip_end_date t = trip_end_date t0
  end.
Proof.
  induction lines as [|line rest IH]; intros t0 t H; cbn in *.
  - now injection H as <-.
  - destruct (read_line t0 line) as [t1|e] eqn:E1; cbn [bind] in H; [|discriminate].
    specialize (IH t1 t H).
    destruct (last_matched rest) as [text|]; [exact IH|].
    destruct line as [|text la lo].
    + cbn in E1. injection E1 as <-. exact IH.
    + rewrite IH. unfold read_line in E1.
      destruct (strptime text) as [d|e]; cbn [bind] in E1; [|discriminate].
      exists d. split; [reflexivity|].
      destruct (py_float la); cbn [bind] in E1; [|discriminate].
      destruct (py_float lo); cbn [bind] in E1; [|discriminate].
      match type of E1 with
      | bind ?x _ = _ => destruct x; cbn [bind] in E1; [|discriminate]
      end.
      now injection E1 as <-.
Qed.

(** C7.  When the year of the last matched line's timestamp differs from
    the number the digits of the dataset file name spell, the run ends in
    a [ValueError] and has performed no file operation: nothing of the
    dataset is opened or read.  (The error is the year check's unless the
    file name has no digit or a matched line fails to parse, each a
    [ValueError] raised even earlier.) *)
Theorem year_mismatch_aborts (a : args) (lines : list trip_line)
        (nc_open : string -> result (dataset num)) (text : date_text) :
  last_matched lines = Some text ->
  txt_year text <> int_of_digits (string_filter isdigit (nc_file a)) ->
  (exists msg, main a lines nc_open = ([], Raise (ValueError msg)))
  /\ (forall e, In e (fst (main a lines nc_open)) -> is_dataset_event e = false)
  /\ exit_status (snd (main a lines nc_open)) = 1
  /\ (string_filter isdigit (nc_file a) <> EmptyString ->
      is_ok (read_trip lines) = true ->
      main a lines nc_open
      = ([], Raise (ValueError "Trip should be in boundaries of NC_FILE"))).
Proof.
  intros Hlast Hyear.
  assert (Hread : forall e, read_trip lines = Raise e -> exists msg, e = ValueError msg).
  { unfold read_trip. generalize empty_trip. clear.
    induction lines as [|line rest IH]; intros t e H; cbn in H; [discriminate|].
    destruct (read_line t line) as [t1|e1] eqn:E1; cbn [bind] in H.
    - eauto.
    - injection H as <-. destruct line as [|text la lo]; [discriminate|].
      unfold read_line in E1.
      destruct (strptime text) as [d|e0] eqn:Ed; cbn [bind] in E1.
      2:{ unfold strptime in Ed. destruct (_ && _) in Ed; [discriminate|].
          injection Ed as <-. injection E1 as <-. eauto. }
      destruct la as [x|]; cbn [py_float bind] in E1; [|injection E1 as <-; eauto].
      destruct lo as [y|]; cbn [py_float bind] in E1; [|injection E1 as <-; eauto].
      destruct (dict_get location_eqb (x, y) (trip_by_location t)); cbn [bind] in E1;
        [discriminate|].
      destruct (grid_index_ok x y) as (i & j & p & q & Ei & Ej & Hp & Hq).
      rewrite Ei, Ej in E1. cbn [bind] in E1. unfold nth_or_IndexError in E1.
      rewrite Hp, Hq in E1. cbn [bind] in E1. discriminate E1. }
  assert (Hmain : (exists msg, main a lines nc_open = ([], Raise (ValueError msg)))
                  /\ (string_filter isdigit (nc_file a) <> EmptyString ->
                      is_ok (read_trip lines) = true ->
                      main a lines nc_open
                      = ([], Raise (ValueError "Trip should be in boundaries of NC_FILE")))).
  { unfold main. cbv zeta.
    destruct (String.eqb (string_filter isdigit (nc_file a)) EmptyString) eqn:E.
    - apply String.eqb_eq in E. split; [eexists; reflexivity | congruence].
    - destruct (read_trip lines) as [t|e] eqn:Et.
      + pose proof (read_lines_end_date lines empty_trip t Et) as Hend.
        rewrite Hlast in Hend. destruct Hend as (d & Hd & Hend).
        apply strptime_ok in Hd. destruct Hd as (_ & Hy & _).
        cbn [io_lift io_bind]. rewrite Hend.
        replace (year d =? int_of_digits (string_filter isdigit (nc_file a))) with false
          by (symmetry; apply Z.eqb_neq; congruence).
        cbn. split; [eexists; reflexivity | reflexivity].
      + destruct (Hread e eq_refl) as (msg & ->). cbn.
        split; [eexists; reflexivity | discriminate]. }
  destruct Hmain as [(msg & Hm) Hm2].
  split; [eauto|]. split; [|split; [|exact Hm2]]; rewrite Hm; cbn.
  - intros e [].
  - reflexivity.
Qed.

Lemma series_of_nth (plan : list sampled_point) (k : nat) :
  (k < 18)%nat ->
  nth_error (series_of plan) k = Some (map (fun p => level_value p k) plan).
Proof.
  intros Hk. unfold series_of. rewrite nth_error_map, nth_error_seq.
  destruct (Nat.ltb_spec k (1 + NC_LEVELS_COUNT)) as [_|H]; [reflexivity|].
  unfold NC_LEVELS_COUNT in H. lia.
Qed.

(** C3.  For every 6-hour timestamp sampled, at position [k] of the
    sampling order, the entry [k] of the first level series is
    [(air0 - 273.15) - 13/75 * (air1 - air0)], where [air0] and [air1] are
    the dataset's values of level 0 and level 1 in the slice read for the
    timestamp, at the grid indices of the location for which the sampler
    read it; the series of the native level [l] holds [air_l - 273.15]
    there. *)
Theorem surface_level_formula (ds : dataset num) (locs : list loc_info)
        (log : list event) (nc_data : list (list num)) (processed_dates : list datetime) :
  sample_locations ds locs initial_state = (log, Ok (nc_data, processed_dates)) ->
  exists surface,
    nth_error nc_data 0 = Some surface
    /\ List.length surface = List.length processed_dates
    /\ forall k date, nth_error processed_dates k = Some date ->
         exists loc air,
           In loc locs
           /\ In (Ok date) (six_hour_aligned_dates (start_date loc) (end_date loc))
           /\ nc_getitem ds (tm_yday date * 4 - 1) = Ok air
           /\ (let air0 := air 0%nat (nc_lat_index loc) (nc_lon_index loc) in
               let air1 := air 1%nat (nc_lat_index loc) (nc_lon_index loc) in
               nth_error surface k
               = Some (num_sub (num_sub air0 (num_of_float (27315 # 100)))
                               (num_mul (num_div (num_of_int 13) (num_of_int 75))
                                        (num_sub air1 air0))))
           /\ (forall level_i, (level_i < NC_LEVELS_COUNT)%nat ->
                 exists series,
                   nth_error nc_data (S level_i) = Some series
                   /\ nth_error series k
                      = Some (num_sub (air level_i (nc_lat_index loc) (nc_lon_index loc))
                                      (num_of_float (27315 # 100)))).
Proof.
  intros H. destruct (sampler_run ds locs log nc_data processed_dates H)
    as (plan & -> & -> & _ & P & _ & _).
  exists (map (fun p => level_value p 0) plan).
  split; [apply series_of_nth; lia|]. split; [now rewrite !length_map|].
  intros k date Hk. rewrite nth_error_map in Hk.
  destruct (nth_error plan k) as [p|] eqn:Ep; [|discriminate].
  injection Hk as <-.
  destruct (P p (nth_error_In _ _ Ep)) as (loc & Hloc & Hair & Hi & Hj & Hd).
  exists loc, (sp_air p). split; [exact Hloc|]. split; [exact Hd|].
  split; [exact Hair|]. split.
  - cbv zeta. rewrite nth_error_map, Ep. cbn [option_map level_value].
    unfold lvl_1013. now rewrite Hi, Hj.
  - intros level_i Hl. exists (map (fun p => level_value p (S level_i)) plan).
    split; [apply series_of_nth; unfold NC_LEVELS_COUNT in Hl; lia|].
    rewrite nth_error_map, Ep. cbn [option_map level_value]. now rewrite Hi, Hj.
Qed.

Lemma monotonic_filter (f : datetime * location -> bool)
      (samples : list (datetime * location)) :
  monotonic (map fst samples) -> monotonic (map fst (filter f samples)).
Proof.
  unfold monotonic. induction samples as [|s samples IH]; cbn; [auto|].
  intros H. inversion H as [|? ? Hs Hall]; subst.
  destruct (f s); cbn; [|auto]. constructor; [auto|].
  rewrite Forall_forall in *. intros x Hx. apply Hall.
  apply in_map_iff in Hx. destruct Hx as (y & <- & Hy).
  apply filter_In in Hy. apply in_map. tauto.
Qed.

Lemma monotonic_last (dates : list datetime) :
  monotonic dates ->
  forall dflt d, In d dates -> timestamp_us d <= timestamp_us (last dates dflt).
Proof.
  unfold monotonic. induction 1 as [|a l Hl IH Hall]; intros dflt d Hin; [destruct Hin|].
  destruct l as [|b l'].
  - destruct Hin as [-> | []]. cbn. lia.
  - change (last (a :: b :: l') dflt) with (last (b :: l') dflt).
    destruct Hin as [-> | Hin].
    + rewrite Forall_forall in Hall.
      assert (Hb : timestamp_us d <= timestamp_us b) by (apply Hall; now left).
      specialize (IH dflt b (or_introl eq_refl)). lia.
    + exact (IH dflt d Hin).
Qed.

Lemma monotonic_bounds (dates : list datetime) (first d : datetime) :
  monotonic dates -> hd_error dates = Some first -> In d dates ->
  timestamp_us first <= timestamp_us d <= timestamp_us (last dates first).
Proof.
  intros Hs Hhd Hin. split; [|now apply monotonic_last].
  destruct dates as [|a dates]; [discriminate|]. injection Hhd as ->.
  inversion Hs as [|? ? _ Hall]; subst. destruct Hin as [-> | Hin]; [lia|].
  rewrite Forall_forall in Hall. auto.
Qed.

(** C4 (amended).  After the trip file is read and the sampler has run,
    the timestamps sampled are exactly those that [six_hour_aligned_dates]
    yields for some group, from the group's start date to its end date:
    the first and the last timestamp observed at its location, which are
    the earliest and the latest when the file is in time order.  No
    timestamp is sampled twice, and each of the 18 level series has
    exactly one entry per sampled timestamp, also where the ranges of
    several groups overlap. *)
Theorem sampled_timestamps_union (lines : list trip_line) (t : trip) (ds : dataset num)
        (log : list event) (nc_data : list (list num)) (processed_dates : list datetime) :
  read_trip lines = Ok t ->
  sample_locations ds (dict_values (trip_by_location t)) initial_state
  = (log, Ok (nc_data, processed_dates)) ->
  (forall d, In d processed_dates <->
             exists k g, In (k, g) (trip_by_location t)
                         /\ In (Ok d) (six_hour_aligned_dates (start_date g) (end_date g)))
  /\ NoDup processed_dates
  /\ List.length nc_data = 18%nat
  /\ (forall series, In series nc_data ->
        List.length series = List.length processed_dates)
  /\ (forall k g, In (k, g) (trip_by_location t) ->
        hd_error (dates_at k (trip_samples lines)) = Some (start_date g)
        /\ last (dates_at k (trip_samples lines)) (start_date g) = end_date g
        /\ (monotonic (map fst (trip_samples lines)) ->
            forall d, In d (dates_at k (trip_samples lines)) ->
                      timestamp_us (start_date g) <= timestamp_us d
                      <= timestamp_us (end_date g))).
Proof.
  intros Ht Hs.
  destruct (sampler_run ds _ log nc_data processed_dates Hs)
    as (plan & -> & -> & _ & P & Nd & A).
  destruct (read_trip_inv lines t Ht) as (_ & _ & _ & _ & _ & E & _ & G & _).
  split; [|split; [exact Nd|split; [apply series_of_length|split]]].
  - intros d. split.
    + intros Hd. apply in_map_iff in Hd. destruct Hd as (p & <- & Hp).
      destruct (P p Hp) as (g & Hg & _ & _ & _ & Hin).
      unfold dict_values in Hg. apply in_map_iff in Hg.
      destruct Hg as ([k g'] & <- & Hkg). exists k, g'. auto.
    + intros (k & g & Hkg & Hin).
      destruct (A g (Ok d)) as (d' & [= <-] & Hd'); auto.
      unfold dict_values. apply in_map_iff. exists (k, g). auto.
  - intros series Hin. unfold series_of in Hin. apply in_map_iff in Hin.
    destruct Hin as (k & <- & _). now rewrite !length_map.
  - intros k g Hkg.
    pose proof (dict_nodup_In_get location_eqb location_eqb_refl location_eqb_sym
                  location_eqb_trans k g _ E Hkg) as Hget.
    destruct (G k g Hget) as (_ & Hfirst & Hlast & _).
    split; [exact Hfirst|]. split; [exact Hlast|].
    intros Hmono d Hd. rewrite <- Hlast.
    apply monotonic_bounds; auto. unfold dates_at. now apply monotonic_filter.
Qed.

(** ** Report Writer *)

Lemma heads_tails_Some {B : Type} (columns : list (list B)) :
  forall (hs : list B) (ts : list (list B)),
    heads_tails columns = Some (hs, ts) ->
    Forall2 (fun col h => nth_error col 0 = Some h) columns hs
    /\ Forall2 (fun col t => forall k, nth_error col (S k) = nth_error t k) columns ts
    /\ Forall2 (fun col t => List.length col = S (List.length t)) columns ts.
Proof.
  induction columns as [|col columns IH]; intros hs ts; cbn [heads_tails fold_right].
  - intros [= <- <-]. repeat split; constructor.
  - fold (heads_tails columns).
    destruct col as [|b rest]; [discriminate|].
    destruct (heads_tails columns) as [[hs' ts']|]; [|discriminate].
    intros [= <- <-]. destruct (IH hs' ts' eq_refl) as (F1 & F2 & F3).
    repeat split; constructor; auto.
Qed.

Lemma heads_tails_None {B : Type} (columns : list (list B)) :
  heads_tails columns = None -> In [] columns.
Proof.
  induction columns as [|col columns IH]; cbn [heads_tails fold_right].
  - discriminate.
  - fold (heads_tails columns).
    destruct col as [|b rest]; [intros _; now left|].
    destruct (heads_tails columns) as [[hs ts]|]; [discriminate|].
    intros _. right. now apply IH.
Qed.

Lemma Forall2_In_r {A B : Type} (R : A -> B -> Prop) (l : list A) (l' : list B) (y : B) :
  Forall2 R l l' -> In y l' -> exists x, In x l /\ R x y.
Proof.
  induction 1 as [|a b l l' Hab F IH]; intros Hin; [destruct Hin|].
  destruct Hin as [<- | Hin].
  - exists a. split; [now left | exact Hab].
  - destruct (IH Hin) as (x & Hx & Hr). exists x. split; [now right | exact Hr].
Qed.

Lemma Forall2_compose {A B C : Type} (R : A -> B -> Prop) (S : B -> C -> Prop)
      (T : A -> C -> Prop) (l : list A) (l' : list B) (l'' : list C) :
  (forall a b c, R a b -> S b c -> T a c) ->
  Forall2 R l l' -> Forall2 S l' l'' -> Forall2 T l l''.
Proof.
  intros H F. revert l''. induction F as [|a b l l' Hab F IH]; intros l'' G.
  - inversion G. constructor.
  - inversion G as [|? c ? l3 Hbc G']; subst. constructor; eauto.
Qed.

(** [zip(items, *columns)] for columns of one length [M]: [min] of the
    two lengths many tuples, the [k]-th made of the [k]-th item and the
    [k]-th entry of every column. *)
Lemma zip_star_spec {A B : Type} (items : list A) :
  forall (columns : list (list B)) (M : nat),
    columns <> [] ->
    (forall col, In col columns -> List.length col = M) ->
    List.length (zip_star items columns) = Nat.min (List.length items) M
    /\ (forall k a vs, nth_error (zip_star items columns) k = Some (a, vs) ->
          nth_error items k = Some a
          /\ Forall2 (fun col v => nth_error col k = Some v) columns vs).
Proof.
  induction items as [|a items IH]; intros columns M Hne Hlen; cbn [zip_star].
  - split; [reflexivity|]. intros [|k] ? ? H; discriminate.
  - destruct (heads_tails columns) as [[hs ts]|] eqn:E.
    + destruct (heads_tails_Some columns hs ts E) as (F1 & F2 & F3).
      assert (Hts_ne : ts <> []).
      { intros ->. inversion F3; subst. congruence. }
      assert (HM : exists M', M = S M').
      { destruct columns as [|c0 columns]; [congruence|].
        inversion F3 as [|? t0 ? ? E0 ?]; subst.
        exists (List.length t0). rewrite <- (Hlen c0 (or_introl eq_refl)). exact E0. }
      destruct HM as (M' & ->).
      assert (Hts : forall t, In t ts -> List.length t = M').
      { intros t Ht. destruct (Forall2_In_r _ _ _ _ F3 Ht) as (c & Hc & Hl).
        apply Hlen in Hc. lia. }
      destruct (IH ts M' Hts_ne Hts) as (IHlen & IHnth).
      split; [cbn [List.length]; rewrite IHlen; reflexivity|].
      intros [|k] a' vs H; cbn [nth_error] in *.
      * injection H as <- <-. split; [reflexivity | exact F1].
      * destruct (IHnth k a' vs H) as (Ha & Fk). split; [exact Ha|].
        apply (Forall2_compose _ _ _ _ _ _ (fun c t v (H1 : forall k, nth_error c (S k) = nth_error t k)
                                                (H2 : nth_error t k = Some v) =>
                                              eq_trans (H1 k) H2) F2 Fk).
    + apply heads_tails_None in E. rewrite <- (Hlen [] E). cbn.
      split; [reflexivity|]. intros [|k] ? ? H; discriminate.
Qed.

(** What a successful [calc_hourly] was given and returns. *)
Lemma calc_hourly_inv (data hourly : list (list num)) :
  calc_hourly data = Ok hourly ->
  exists data0,
    nth_error data 0 = Some data0
    /\ (4 <= List.length data0)%nat
    /\ (forall row, In row data -> List.length row = List.length data0)
    /\ hourly
       = map (fun row =>
                map (interp_cubic (map (fun x => 0 + x * 6)
                                       (range (Z.of_nat (List.length data0)))) row)
                    (range (6 * Z.of_nat (List.length data0) - 5)))
             data.
Proof.
  unfold calc_hourly, nth_or_IndexError.
  destruct data as [|data0 rest]; cbn [nth_error bind]; [discriminate|].
  set (x_old := map (fun x => 0 + x * 6) (range (Z.of_nat (List.length data0)))).
  assert (Hx : List.length x_old = List.length data0).
  { unfold x_old. rewrite length_map, range_length. lia. }
  unfold interp1d. rewrite Hx.
  destruct (forallb (fun row => (List.length row =? List.length data0)%nat) (data0 :: rest))
    eqn:Erows; cbn [negb]; [|discriminate].
  destruct (Nat.ltb_spec (List.length data0) 4) as [Hlt|Hge]; [discriminate|].
  cbn [bind]. unfold range_without_last5.
  replace (Z.max (Z.of_nat (List.length data0) * 6 - 5) 0)
    with (6 * Z.of_nat (List.length data0) - 5) by lia.
  destruct (x_old_bounds (Z.of_nat (List.length data0)) ltac:(lia)) as [Hhd Hlast].
  fold x_old in Hhd, Hlast. rewrite Hhd, Hlast.
  replace (forallb (fun v => (0 <=? v) && (v <=? 6 * (Z.of_nat (List.length data0) - 1)))
                   (range (6 * Z.of_nat (List.length data0) - 5))) with true.
  2:{ symmetry. apply forallb_forall. intros v Hv.
      apply range_In in Hv. apply andb_true_iff.
      split; apply Z.leb_le; lia. }
  intros [= <-]. exists data0. split; [reflexivity|]. split; [exact Hge|].
  split; [|reflexivity].
  intros row Hrow. rewrite forallb_forall in Erows.
  apply Nat.eqb_eq. now apply Erows.
Qed.

(** The line of one row of the report. *)
Lemma write_rows_ok (t : trip) (rows : list ((datetime * location) * list num))
      (rlog : list event) (u : unit) :
  write_rows t rows = (rlog, Ok u) ->
  Forall2 (fun r e =>
             exists g,
               dict_get location_eqb (snd (fst r)) (trip_by_location t) = Some g
               /\ let fields :=
                    [datetime_str (fst (fst r)); float_str (lat g); float_str (lon g);
                     float_str (nc_lat g); float_str (nc_lon g)]
                      ++ map num_str (snd r) in
                  (OUT_FILE_FIELDS <= List.length fields)%nat
                  /\ e = EvWrite (String.append
                                    (String.concat OUT_FILE_SEP
                                                   (firstn OUT_FILE_FIELDS fields))
                                    newline))
          rows rlog.
Proof.
  revert rlog. induction rows as [|[[date loc] levels] rows IH]; intros rlog H.
  - cbn in H. injection H as <-. constructor.
  - cbn [write_rows] in H.
    apply io_bind_ok in H. destruct H as (l1 & fields & l2 & H1 & H & ->).
    apply io_lift_ok in H1. destruct H1 as [-> Hf].
    apply io_bind_ok in H. destruct H as (l3 & line & l4 & H3 & H & ->).
    apply io_lift_ok in H3. destruct H3 as [-> Hl].
    apply io_bind_ok in H. destruct H as (l5 & [] & l6 & H5 & H & ->).
    apply io_emit_ok in H5. subst l5. cbn [app].
    constructor; [|apply IH; exact H].
    unfold row_fields in Hf. cbn [fst snd].
    destruct (dict_get location_eqb loc (trip_by_location t)) as [g|]; [|discriminate].
    injection Hf as <-. exists g. split; [reflexivity|]. cbv zeta.
    revert Hl. unfold OUT_FILE_LINE_format.
    match goal with
    | |- context [Nat.ltb ?x ?y] => destruct (Nat.ltb_spec x y) as [Hlt|Hge]
    end; [discriminate|].
    intros [= <-]. split; [exact Hge | reflexivity].
Qed.

Lemma written_app (l1 l2 : list event) : written (l1 ++ l2) = written l1 ++ written l2.
Proof. unfold written. apply flat_map_app. Qed.

Lemma written_reads (plan : list (@sampled_point num)) :
  written (map (fun p => EvReadSlice (tm_yday (sp_date p) * 4 - 1)) plan) = [].
Proof. induction plan; cbn; auto. Qed.

(** C9 (amended).  In a run that ends normally the output file holds the
    header row of 23 column names followed by [min(n, 6 L - 5)] data rows,
    [n] being the number of entries of [trip_by_date] and [6 L - 5] the
    number of hourly values per level.  Row [k] joins, with four spaces
    between them, 23 fields: the [k]-th timestamp of [trip_by_date], the
    original latitude and longitude and the grid latitude and longitude of
    its group, and the [k]-th hourly value of each of the 18 levels;
    elements beyond the shorter of the two sequences produce no row.  The
    timestamp field is the text of the datetime, with a space between its
    date and its time of day, so the fields of a row are delimited by the
    four-space separator and not by whitespace alone. *)
Theorem report_layout (a : args) (lines : list trip_line)
        (nc_open : string -> result (dataset num)) (log : list event) (u : unit) :
  main a lines nc_open = (log, Ok u) ->
  exists t ds slog nc_data processed_dates hourly header rows,
    read_trip lines = Ok t
    /\ nc_open (nc_file a) = Ok ds
    /\ sample_locations ds (dict_values (trip_by_location t)) initial_state
       = (slog, Ok (nc_data, processed_dates))
    /\ calc_hourly nc_data = Ok hourly
    /\ List.length hourly = 18%nat
    /\ (forall series, In series hourly ->
          Z.of_nat (List.length series) = 6 * Z.of_nat (List.length processed_dates) - 5)
    /\ written log = header :: rows
    /\ header = String.append (String.concat OUT_FILE_SEP header_fields) newline
    /\ List.length header_fields = 23%nat
    /\ Z.of_nat (List.length rows)
       = Z.min (Z.of_nat (List.length (trip_by_date t)))
               (6 * Z.of_nat (List.length processed_dates) - 5)
    /\ forall k row, nth_error rows k = Some row ->
         exists date loc g levels,
           nth_error (trip_by_date t) k = Some (date, loc)
           /\ dict_get location_eqb loc (trip_by_location t) = Some g
           /\ Forall2 (fun series v => nth_error series k = Some v) hourly levels
           /\ let fields :=
                [datetime_str date; float_str (lat g); float_str (lon g);
                 float_str (nc_lat g); float_str (nc_lon g)]
                  ++ map num_str levels in
              List.length fields = 23%nat
              /\ row = String.append (String.concat OUT_FILE_SEP fields) newline
              /\ String.get 10 (datetime_str date) = Some " "%char.
Proof.
  intros H. apply main_ok_inv in H.
  destruct H as (t & trip_end & ds & slog & nc_data & processed_dates & nc_data0 & hourly
                 & header & rows_log & Hy & Ht & Hend & Hyear & Hds & Hs & H0 & Hchk
                 & Hh & Hhead & Hw & ->).
  destruct (sampler_run ds _ slog nc_data processed_dates Hs)
    as (plan & -> & -> & -> & _).
  destruct (calc_hourly_inv _ _ Hh) as (d0 & Hd0 & HL & Hrows & Ehourly).
  rewrite series_of_nth in Hd0 by lia. injection Hd0 as <-.
  rewrite !length_map in *.
  set (L := List.length plan) in *.
  assert (Hhl : List.length hourly = 18%nat).
  { rewrite Ehourly, length_map. apply series_of_length. }
  assert (Hser : forall series, In series hourly ->
                   List.length series = Z.to_nat (6 * Z.of_nat L - 5)).
  { intros series Hin. rewrite Ehourly in Hin. apply in_map_iff in Hin.
    destruct Hin as (row & <- & _). now rewrite length_map, range_length. }
  assert (Hne : hourly <> []) by (intros E; rewrite E in Hhl; discriminate).
  destruct (zip_star_spec (trip_by_date t) hourly _ Hne Hser) as (Zlen & Znth).
  pose proof (write_rows_ok t _ rows_log u Hw) as F.
  exists t, ds, (map (fun p => EvReadSlice (tm_yday (sp_date p) * 4 - 1)) plan),
    (series_of plan), (map sp_date plan), hourly, header, (written rows_log).
  rewrite !length_map. fold L.
  split; [exact Ht|]. split; [exact Hds|]. split; [exact Hs|]. split; [exact Hh|].
  split; [exact Hhl|].
  split; [intros series Hin; rewrite (Hser series Hin); lia|].
  split.
  { change (EvOpenDataset (nc_file a) :: ?x) with ([EvOpenDataset (nc_file a)] ++ x).
    rewrite written_app, written_app, written_reads. reflexivity. }
  split.
  { unfold OUT_FILE_LINE_format in Hhead.
    change (List.length header_fields <? OUT_FILE_FIELDS)%nat with false in Hhead.
    change (firstn OUT_FILE_FIELDS header_fields) with header_fields in Hhead.
    now injection Hhead as <-. }
  split; [reflexivity|].
  assert (Ewr : Forall2 (fun r line =>
                  exists g,
                    dict_get location_eqb (snd (fst r)) (trip_by_location t) = Some g
                    /\ let fields :=
                         [datetime_str (fst (fst r)); float_str (lat g); float_str (lon g);
                          float_str (nc_lat g); float_str (nc_lon g)]
                           ++ map num_str (snd r) in
                       (OUT_FILE_FIELDS <= List.length fields)%nat
                       /\ line = String.append
                                   (String.concat OUT_FILE_SEP
                                                  (firstn OUT_FILE_FIELDS fields))
                                   newline)
                  (zip_star (trip_by_date t) hourly) (written rows_log)).
  { clear - F. induction F as [|r e rs es (g & Hg & Hlen & ->) F IH]; cbn; [constructor|].
    constructor; [|exact IH]. exists g. auto. }
  split.
  { rewrite <- (Forall2_length Ewr), Zlen. lia. }
  intros k row Hrow.
  assert (Hk : exists r, nth_error (zip_star (trip_by_date t) hourly) k = Some r
                         /\ exists g,
                    dict_get location_eqb (snd (fst r)) (trip_by_location t) = Some g
                    /\ let fields :=
                         [datetime_str (fst (fst r)); float_str (lat g); float_str (lon g);
                          float_str (nc_lat g); float_str (nc_lon g)]
                           ++ map num_str (snd r) in
                       (OUT_FILE_FIELDS <= List.length fields)%nat
                       /\ row = String.append
                                  (String.concat OUT_FILE_SEP
                                                 (firstn OUT_FILE_FIELDS fields))
                                  newline).
  { clear - Ewr Hrow. revert k Hrow.
    induction Ewr as [|r e rs es Hre F IH]; intros [|k] Hrow; try discriminate.
    - injection Hrow as <-. exists r. auto.
    - exact (IH k Hrow). }
  destruct Hk as ([[date loc] levels] & Hr & g & Hg & Hlen & Erow).
  cbn [fst snd] in *.
  destruct (Znth k (date, loc) levels Hr) as (Hitem & Hlev).
  exists date, loc, g, levels.
  split; [exact Hitem|]. split; [exact Hg|]. split; [exact Hlev|].
  assert (Hll : List.length levels = 18%nat).
  { rewrite <- (Forall2_length Hlev). exact Hhl. }
  assert (Hfl : List.length
                  ([datetime_str date; float_str (lat g); float_str (lon g);
                    float_str (nc_lat g); float_str (nc_lon g)] ++ map num_str levels)
                = 23%nat).
  { rewrite length_app, length_map, Hll. reflexivity. }
  split; [exact Hfl|]. split; [|reflexivity].
  rewrite Erow. do 2 f_equal.
  apply firstn_all2. rewrite Hfl. unfold OUT_FILE_FIELDS. lia.
Qed.

Lemma last_location_In (d : datetime) (loc : location)
      (samples : list (datetime * location)) :
  last_location d samples = Some loc -> In (d, loc) samples.
Proof.
  induction samples as [|[d0 l0] samples IH]; cbn; [discriminate|].
  destruct (last_location d samples) as [l|].
  - intros [= ->]. right. now apply IH.
  - destruct (datetime_eqb d0 d) eqn:E; [|discriminate].
    apply datetime_eqb_eq in E. subst d0. intros [= ->]. now left.
Qed.

Lemma zip_star_length_le {A B : Type} (items : list A) :
  forall columns : list (list B),
    (List.length (zip_star items columns) <= List.length items)%nat.
Proof.
  induction items as [|a items IH]; intros columns; cbn; [lia|].
  destruct (heads_tails columns) as [[hs ts]|]; cbn; [|lia].
  specialize (IH ts). lia.
Qed.

Lemma zip_star_nth_item {A B : Type} (items : list A) :
  forall (columns : list (list B)) (k : nat) (a : A) (vs : list B),
    nth_error (zip_star items columns) k = Some (a, vs) ->
    nth_error items k = Some a.
Proof.
  induction items as [|a0 items IH]; intros columns k a vs; cbn [zip_star].
  - destruct k; discriminate.
  - destruct (heads_tails columns) as [[hs ts]|]; [|destruct k; discriminate].
    destruct k as [|k]; cbn [nth_error].
    + now intros [= -> _].
    + apply IH.
Qed.

Lemma distinct_count (keys dates : list datetime) :
  NoDup keys -> (forall d, In d keys <-> In d dates) ->
  List.length keys = List.length (nodup datetime_eq_dec dates).
Proof.
  intros Hnd Hiff. apply Nat.le_antisymm.
  - apply NoDup_incl_length; [exact Hnd|].
    intros d Hd. apply nodup_In. now apply Hiff.
  - apply NoDup_incl_length; [apply NoDup_nodup|].
    intros d Hd. apply nodup_In in Hd. now apply Hiff.
Qed.

(** The rows of a run that ends normally, against the entries of
    [trip_by_date]. *)
Lemma main_rows (a : args) (lines : list trip_line)
      (nc_open : string -> result (dataset num)) (log : list event) (u : unit) :
  main a lines nc_open = (log, Ok u) ->
  exists t ds slog nc_data processed_dates header rows,
    read_trip lines = Ok t
    /\ nc_open (nc_file a) = Ok ds
    /\ sample_locations ds (dict_values (trip_by_location t)) initial_state
       = (slog, Ok (nc_data, processed_dates))
    /\ expected_samples (List.length (trip_by_date t))
       = Z.of_nat (List.length processed_dates)
    /\ written log = header :: rows
    /\ (List.length rows <= List.length (trip_by_date t))%nat
    /\ (forall k row, nth_error rows k = Some row ->
          exists date loc, nth_error (trip_by_date t) k = Some (date, loc)).
Proof.
  intros H. apply main_ok_inv in H.
  destruct H as (t & trip_end & ds & slog & nc_data & processed_dates & nc_data0 & hourly
                 & header & rows_log & Hy & Ht & Hend & Hyear & Hds & Hs & H0 & Hchk
                 & Hh & Hhead & Hw & ->).
  destruct (sampler_run ds _ slog nc_data processed_dates Hs)
    as (plan & Enc & Epr & Eslog & _).
  pose proof (write_rows_ok t _ rows_log u Hw) as F.
  assert (Hlen : List.length (written rows_log)
                 = List.length (zip_star (trip_by_date t) hourly)
                 /\ forall k row, nth_error (written rows_log) k = Some row ->
                      exists r, nth_error (zip_star (trip_by_date t) hourly) k = Some r).
  { clear - F. induction F as [|r e rs es (g & Hg & Hl & ->) F (IH1 & IH2)].
    - split; [reflexivity|]. intros [|k] row H; discriminate.
    - change (written (EvWrite ?x :: es)) with (x :: written es).
      cbn [List.length]. split; [now rewrite IH1|].
      intros [|k] row H; cbn [nth_error] in *.
      + exists r. reflexivity.
      + exact (IH2 k row H). }
  destruct Hlen as (Hlen & Hnth).
  exists t, ds, slog, nc_data, processed_dates, header, (written rows_log).
  split; [exact Ht|]. split; [exact Hds|]. split; [exact Hs|].
  split.
  { rewrite Hchk. subst nc_data processed_dates.
    rewrite series_of_nth in H0 by lia. injection H0 as <-.
    now rewrite !length_map. }
  split.
  { subst slog.
    change (EvOpenDataset (nc_file a) :: ?x) with ([EvOpenDataset (nc_file a)] ++ x).
    rewrite written_app, written_app, written_reads. reflexivity. }
  split; [rewrite Hlen; apply zip_star_length_le|].
  intros k row Hrow. destruct (Hnth k row Hrow) as ([[date loc] levels] & Hr).
  exists date, loc. exact (zip_star_nth_item _ _ _ _ _ Hr).
Qed.

(** C10.  When several matched lines carry the same timestamp,
    [trip_by_date] has one entry for it, holding the location of the last
    such line (whose group exists): its keys are the distinct timestamps
    of the file.  So the sanity check compares against the number of
    distinct timestamps, and a run that ends normally writes at most that
    many rows, row [k] for the [k]-th distinct timestamp. *)
Theorem duplicate_timestamps_keep_last (a : args) (lines : list trip_line)
        (nc_open : string -> result (dataset num)) (t : trip) :
  read_trip lines = Ok t ->
  let samples := trip_samples lines in
  let distinct := nodup datetime_eq_dec (map fst samples) in
  NoDup (dict_keys (trip_by_date t))
  /\ (forall d, In d (dict_keys (trip_by_date t)) <-> In d (map fst samples))
  /\ List.length (trip_by_date t) = List.length distinct
  /\ (forall d, dict_get datetime_eqb d (trip_by_date t) = last_location d samples)
  /\ (forall d loc, dict_get datetime_eqb d (trip_by_date t) = Some loc ->
        exists g, dict_get location_eqb loc (trip_by_location t) = Some g
                  /\ location_eqb (lat g, lon g) loc = true)
  /\ (forall log u, main a lines nc_open = (log, Ok u) ->
        exists ds slog nc_data processed_dates header rows,
          sample_locations ds (dict_values (trip_by_location t)) initial_state
          = (slog, Ok (nc_data, processed_dates))
          /\ expected_samples (List.length distinct)
             = Z.of_nat (List.length processed_dates)
          /\ written log = header :: rows
          /\ (List.length rows <= List.length distinct)%nat
          /\ (forall k row, nth_error rows k = Some row ->
                exists date, nth_error (dict_keys (trip_by_date t)) k = Some date)).
Proof.
  intros Ht samples distinct.
  destruct (read_trip_inv lines t Ht) as (_ & A & B & C & _ & E & F & G & _).
  fold samples in B, C, F, G.
  assert (Hcount : List.length (trip_by_date t) = List.length distinct).
  { unfold distinct.
    rewrite <- (distinct_count (dict_keys (trip_by_date t)) (map fst samples) A B).
    unfold dict_keys. now rewrite length_map. }
  split; [exact A|]. split; [exact B|]. split; [exact Hcount|]. split; [exact C|].
  split.
  - intros d loc Hd. rewrite C in Hd. apply last_location_In in Hd.
    destruct (dict_get location_eqb loc (trip_by_location t)) as [g|] eqn:Eg.
    + exists g. split; [reflexivity|]. exact (proj1 (G loc g Eg)).
    + exfalso. apply F in Eg. unfold dates_at in Eg.
      assert (Hin : In (d, loc) (filter (fun s => location_eqb (snd s) loc) samples)).
      { apply filter_In. split; [exact Hd | apply location_eqb_refl]. }
      destruct (filter _ samples); [destruct Hin | discriminate].
  - intros log u Hmain.
    destruct (main_rows a lines nc_open log u Hmain)
      as (t' & ds & slog & nc_data & processed_dates & header & rows
          & Ht' & Hds & Hs & Hchk & Hw & Hlen & Hnth).
    rewrite Ht in Ht'. injection Ht' as <-.
    exists ds, slog, nc_data, processed_dates, header, rows.
    rewrite <- Hcount. split; [exact Hs|]. split; [exact Hchk|]. split; [exact Hw|].
    split; [exact Hlen|].
    intros k row Hrow. destruct (Hnth k row Hrow) as (date & loc & Hk).
    exists date. unfold dict_keys. now rewrite nth_error_map, Hk.
Qed.

(** ** The sanity check *)

(** [int(n / 24 * 4)] is [n] divided by 6, rounded down. *)
Lemma expected_samples_div (n : nat) : expected_samples n = Z.of_nat n / 6.
Proof.
  unfold expected_samples, py_int.
  cbn [Qdiv Qinv Qmult inject_Z Qnum Qden Z.mul Pos.mul].
  rewrite Z.quot_div_nonneg by lia.
  change (Z.pos (1 * 24 * 1)) with 24.
  Z.div_mod_to_equations. lia.
Qed.

Lemma tm_yday_range (d : datetime) :
  datetime_ok d = true -> 1 <= tm_yday d <= 366.
Proof.
  rewrite datetime_ok_iff. intros ((Hy & Hm & Hd) & _).
  pose proof (ymd2ord_bounds _ _ _ Hm Hd) as B.
  rewrite days_before_year_succ in B. unfold ymd2ord in B. unfold tm_yday.
  destruct (is_leap (year d)); lia.
Qed.

Lemma hourly_spaced_nth (d : datetime) (dates : list datetime) :
  hourly_spaced (d :: dates) ->
  forall k x, nth_error (d :: dates) k = Some x ->
              timestamp_us x = timestamp_us d + Z.of_nat k * 3600000000.
Proof.
  revert d. induction dates as [|d' dates IH]; intros d H k x Hk.
  - destruct k as [|[|k]]; cbn in Hk; try discriminate. injection Hk as <-. lia.
  - destruct H as [E H]. destruct k as [|k].
    + injection Hk as <-. lia.
    + cbn [nth_error] in Hk. rewrite (IH d' H k x Hk). lia.
Qed.

Lemma hourly_spaced_NoDup (dates : list datetime) :
  hourly_spaced dates -> NoDup dates.
Proof.
  induction dates as [|d dates IH]; intros H; [constructor|].
  constructor.
  - intros Hin. destruct (In_nth_error _ _ Hin) as (k & Hk).
    pose proof (hourly_spaced_nth d dates H (S k) d Hk). lia.
  - apply IH. destruct dates; [exact I | exact (proj2 H)].
Qed.

Lemma hourly_spaced_last (d : datetime) (dates : list datetime) :
  hourly_spaced (d :: dates) ->
  timestamp_us (last (d :: dates) d)
  = timestamp_us d + Z.of_nat (List.length dates) * 3600000000.
Proof.
  intros H.
  destruct (nth_error (d :: dates) (List.length dates)) as [x|] eqn:E.
  - rewrite (last_nth_error (d :: dates) d x).
    + exact (hourly_spaced_nth d dates H _ x E).
    + cbn [List.length]. now rewrite Nat.sub_succ, Nat.sub_0_r.
  - apply nth_error_None in E. cbn [List.length] in E. lia.
Qed.

Lemma trip_samples_ok (lines : list trip_line) :
  forall s, In s (trip_samples lines) -> datetime_ok (fst s) = true.
Proof.
  induction lines as [|line lines IH]; intros s Hs; cbn in Hs; [destruct Hs|].
  destruct (line_sample line) as [[s0|]|e] eqn:E; auto.
  destruct Hs as [<- | Hs]; [|auto].
  destruct line as [|text la lo]; cbn in E; [discriminate|].
  destruct (strptime text) as [d|] eqn:Ed; cbn [bind] in E; [|discriminate].
  destruct (py_float la); cbn [bind] in E; [|discriminate].
  destruct (py_float lo); cbn [bind] in E; [|discriminate].
  injection E as <-. cbn. exact (proj1 (strptime_ok text d Ed)).
Qed.

(** A dataset of a whole (leap) year has a slice for every date. *)
Lemma nc_getitem_ok (ds : dataset num) (d : datetime) :
  datetime_ok d = true -> 1464 <= nc_times ds ->
  exists air, nc_getitem ds (tm_yday d * 4 - 1) = Ok air.
Proof.
  intros Hd Hn. pose proof (tm_yday_range d Hd) as R. unfold nc_getitem.
  replace ((0 <=? tm_yday d * 4 - 1) && (tm_yday d * 4 - 1 <? nc_times ds)) with true.
  - eexists. reflexivity.
  - symmetry. apply andb_true_iff. split; [apply Z.leb_le | apply Z.ltb_lt]; lia.
Qed.

(** The inner loop goes through when every date has a slice. *)
Lemma sample_dates_total (ds : dataset num) (lat_i lon_i : nat)
      (dates : list (result datetime)) :
  (forall r, In r dates ->
     exists d air, r = Ok d /\ nc_getitem ds (tm_yday d * 4 - 1) = Ok air) ->
  forall plan : list sampled_point,
  exists log st',
    sample_dates ds lat_i lon_i dates (series_of plan, map sp_date plan) = (log, Ok st').
Proof.
  induction dates as [|next rest IH]; intros H plan.
  - eexists. eexists. reflexivity.
  - destruct (H next (or_introl eq_refl)) as (date & air & -> & Hair).
    assert (Hrest : forall r, In r rest ->
              exists d air, r = Ok d /\ nc_getitem ds (tm_yday d * 4 - 1) = Ok air)
      by (intros r Hr; apply H; now right).
    cbn [sample_dates io_lift io_bind].
    destruct (existsb (datetime_eqb date) (map sp_date plan)).
    + destruct (IH Hrest plan) as (log & st' & E). rewrite E. cbn [app]. eauto.
    + rewrite (sample_date_step ds lat_i lon_i date air plan Hair). cbn [io_bind].
      replace (map sp_date plan ++ [date])
        with (map sp_date (plan ++ [mk_point date air lat_i lon_i]))
        by (rewrite map_app; reflexivity).
      destruct (IH Hrest (plan ++ [mk_point date air lat_i lon_i])) as (log & st' & E).
      rewrite E. eauto.
Qed.

(** A trip at one location has one group, spanning its samples. *)
Lemma single_location_group (lines : list trip_line) (t : trip) (loc : location) :
  read_trip lines = Ok t ->
  trip_samples lines <> [] ->
  (forall s, In s (trip_samples lines) -> location_eqb (snd s) loc = true) ->
  exists k g,
    trip_by_location t = [(k, g)]
    /\ hd_error (map fst (trip_samples lines)) = Some (start_date g)
    /\ last (map fst (trip_samples lines)) (start_date g) = end_date g.
Proof.
  intros Ht Hne Hloc.
  destruct (read_trip_inv lines t Ht) as (_ & _ & _ & _ & _ & E & F & G & _).
  set (samples := trip_samples lines) in *.
  assert (Hall : forall k, location_eqb k loc = true ->
                           dates_at k samples = map fst samples).
  { intros k Hk. unfold dates_at. f_equal.
    apply forallb_filter_id. apply forallb_forall. intros s Hs.
    apply (location_eqb_trans _ loc); [auto | now rewrite location_eqb_sym]. }
  assert (Hkey : forall k g, dict_get location_eqb k (trip_by_location t) = Some g ->
                             location_eqb k loc = true).
  { intros k g Hg.
    destruct (dates_at k samples) as [|d ds'] eqn:Ed.
    - apply F in Ed. congruence.
    - assert (Hin : In d (dates_at k samples)) by (rewrite Ed; now left).
      unfold dates_at in Hin. apply in_map_iff in Hin. destruct Hin as (s & _ & Hs).
      apply filter_In in Hs. destruct Hs as [Hs Hk].
      rewrite location_eqb_sym in Hk.
      exact (location_eqb_trans _ _ _ Hk (Hloc s Hs)). }
  destruct (trip_by_location t) as [|[k g] rest] eqn:Etbl.
  - exfalso. assert (Hn : dict_get location_eqb loc (@nil (location * loc_info)) = None)
      by reflexivity.
    apply F in Hn. rewrite (Hall loc (location_eqb_refl loc)) in Hn.
    destruct samples; [congruence | discriminate].
  - assert (Hk : location_eqb k loc = true).
    { apply (Hkey k g). cbn. now rewrite location_eqb_refl. }
    destruct rest as [|[k2 g2] rest].
    + exists k, g. split; [reflexivity|].
      assert (Hg : group_ok k g samples).
      { apply G. cbn. now rewrite location_eqb_refl. }
      destruct Hg as (_ & H1 & H2 & _). rewrite (Hall k Hk) in H1, H2. auto.
    + exfalso. destruct E as [E1 [E2 _]]. cbn in E1.
      assert (Hk2 : location_eqb k2 loc = true).
      { apply (Hkey k2 g2). cbn.
        destruct (location_eqb k k2) eqn:E12; [|now rewrite location_eqb_refl].
        rewrite location_eqb_sym in E12. now rewrite E12 in E1. }
      assert (E21 : location_eqb k2 k = true).
      { apply (location_eqb_trans _ loc); [exact Hk2 | now rewrite location_eqb_sym]. }
      rewrite E21 in E1. discriminate.
Qed.

Lemma all_ok_list {A : Type} (l : list (result A)) :
  (forall r, In r l -> exists a, r = Ok a) -> exists l', l = map Ok l'.
Proof.
  induction l as [|r l IH]; intros H.
  - exists []. reflexivity.
  - destruct (H r (or_introl eq_refl)) as (a & ->).
    destruct IH as (l' & ->); [intros r Hr; apply H; now right|].
    exists (a :: l'). reflexivity.
Qed.

(** A trip of [24 D] hourly samples at one location, once sampled: [4 D]
    timestamps were sampled, whatever the dataset holds. *)
Lemma hourly_days_counted (lines : list trip_line) (t : trip) (ds : dataset num)
      (loc : location) (D : nat) (slog : list event) (nc_data : list (list num))
      (processed_dates : list datetime) :
  read_trip lines = Ok t ->
  (forall s, In s (trip_samples lines) -> location_eqb (snd s) loc = true) ->
  hourly_spaced (map fst (trip_samples lines)) ->
  List.length (trip_samples lines) = (24 * D)%nat -> (1 <= D)%nat ->
  sample_locations ds (dict_values (trip_by_location t)) initial_state
  = (slog, Ok (nc_data, processed_dates)) ->
  List.length processed_dates = (4 * D)%nat
  /\ List.length (trip_by_date t) = (24 * D)%nat.
Proof.
  intros Ht Hloc Hhour Hlen HD Hsl.
  set (samples := trip_samples lines) in *.
  assert (Hne : samples <> []) by (intros E; rewrite E in Hlen; cbn in Hlen; lia).
  destruct (single_location_group lines t loc Ht Hne Hloc) as (k & g & Etbl & Hfirst & Hlast).
  fold samples in Hfirst, Hlast.
  (* the span of the group *)
  destruct (map fst samples) as [|d0 dates] eqn:Edates; [discriminate|].
  injection Hfirst as Hstart. subst d0.
  assert (Hok : forall d, In d (start_date g :: dates) -> datetime_ok d = true).
  { intros d Hd. rewrite <- Edates in Hd. apply in_map_iff in Hd.
    destruct Hd as (s & <- & Hs). now apply (trip_samples_ok lines). }
  assert (Hn : List.length dates = (24 * D - 1)%nat).
  { apply (f_equal (@List.length _)) in Edates. rewrite length_map in Edates.
    cbn in Edates. lia. }
  pose proof (hourly_spaced_last (start_date g) dates Hhour) as Hts.
  rewrite Hlast, Hn in Hts.
  assert (Hs_ok : datetime_ok (start_date g) = true) by (apply Hok; now left).
  assert (He_ok : datetime_ok (end_date g) = true).
  { rewrite <- Hlast.
    destruct (exists_last (l := start_date g :: dates) ltac:(discriminate))
      as (l' & x & El). rewrite El, last_last. apply Hok. rewrite El.
    apply in_or_app. right. now left. }
  destruct (aligned_dates_items (start_date g) (end_date g) Hs_ok He_ok ltac:(lia))
    as (_ & _ & _ & Hcount & Hitem).
  assert (Eel : (timestamp_us (end_date g) - timestamp_us (start_date g)) / 86400000000
                = Z.of_nat D - 1).
  { rewrite Hts. Z.div_mod_to_equations. lia. }
  rewrite Eel in Hcount, Hitem.
  set (yielded := six_hour_aligned_dates (start_date g) (end_date g)) in *.
  set (base := timestamp_us (mk_datetime (year (start_date g)) (month (start_date g))
                                         (day (start_date g)) 0 0 0 0)) in *.
  assert (Hy : forall r, In r yielded ->
             exists d, r = Ok d /\ datetime_ok d = true).
  { intros r Hr. destruct (In_nth_error _ _ Hr) as (n & Hn').
    assert (Hb : (n < List.length yielded)%nat) by (apply nth_error_Some; congruence).
    destruct (Hitem (Z.of_nat n) ltac:(lia)) as (x & Ex & Hx & _).
    rewrite Nat2Z.id, Hn' in Ex. injection Ex as ->. eauto. }
  destruct (all_ok_list yielded) as (ydates & Ey).
  { intros r Hr. destruct (Hy r Hr) as (d & -> & _). eauto. }
  assert (Hynd : NoDup ydates).
  { apply NoDup_nth_error. intros i j Hi Hij.
    assert (Hlen_y : List.length yielded = List.length ydates)
      by (rewrite Ey; apply length_map).
    assert (Hj : (j < List.length ydates)%nat).
    { apply nth_error_Some. rewrite <- Hij. apply nth_error_Some. exact Hi. }
    destruct (Hitem (Z.of_nat i) ltac:(lia)) as (x & Ex & _ & Tx).
    destruct (Hitem (Z.of_nat j) ltac:(lia)) as (y & Ex' & _ & Ty).
    rewrite Nat2Z.id, Ey, nth_error_map in Ex, Ex'.
    destruct (nth_error ydates i) as [xi|]; [|discriminate].
    destruct (nth_error ydates j) as [xj|]; [|discriminate].
    injection Ex as ->. injection Ex' as ->. injection Hij as ->. lia. }
  destruct (sampler_run ds _ slog nc_data processed_dates Hsl)
    as (plan & _ & Epr & _ & P & Nd & A).
  split.
  - assert (Hl : List.length processed_dates = List.length ydates).
    { apply Nat.le_antisymm; apply NoDup_incl_length; auto.
      - intros d Hd. rewrite Epr in Hd. apply in_map_iff in Hd.
        destruct Hd as (p & <- & Hp). destruct (P p Hp) as (g' & Hg' & _ & _ & _ & Hin).
        rewrite Etbl in Hg'. destruct Hg' as [<- | []].
        cbn [snd] in Hin. fold yielded in Hin. rewrite Ey in Hin. apply in_map_iff in Hin. destruct Hin as (x & [= ->] & Hx).
        exact Hx.
      - intros d Hd. destruct (A g (Ok d)) as (d' & [= <-] & Hd').
        + rewrite Etbl. now left.
        + fold yielded. rewrite Ey. now apply in_map.
        + exact Hd'. }
    rewrite Hl. apply (f_equal (@List.length _)) in Ey. rewrite length_map in Ey. lia.
  - destruct (read_trip_inv lines t Ht) as (_ & A1 & B1 & _).
    fold samples in B1. rewrite Edates in B1.
    pose proof (distinct_count _ _ A1 B1) as Hc.
    rewrite (nodup_fixed_point datetime_eq_dec (hourly_spaced_NoDup _ Hhour)) in Hc.
    unfold dict_keys in Hc. rewrite length_map in Hc. rewrite Hc. cbn. lia.
Qed.


(** The sampler on a trip of [24 D] hourly samples at one location:
    [4 D] timestamps are sampled. *)
Lemma hourly_days_sampled (lines : list trip_line) (t : trip) (ds : dataset num)
      (loc : location) (D : nat) :
  read_trip lines = Ok t ->
  (forall s, In s (trip_samples lines) -> location_eqb (snd s) loc = true) ->
  hourly_spaced (map fst (trip_samples lines)) ->
  List.length (trip_samples lines) = (24 * D)%nat -> (1 <= D)%nat ->
  1464 <= nc_times ds ->
  exists slog nc_data processed_dates,
    sample_locations ds (dict_values (trip_by_location t)) initial_state
    = (slog, Ok (nc_data, processed_dates))
    /\ List.length processed_dates = (4 * D)%nat
    /\ List.length (trip_by_date t) = (24 * D)%nat.
Proof.
  intros Ht Hloc Hhour Hlen HD Hds.
  set (samples := trip_samples lines) in *.
  assert (Hne : samples <> []) by (intros E; rewrite E in Hlen; cbn in Hlen; lia).
  destruct (single_location_group lines t loc Ht Hne Hloc) as (k & g & Etbl & Hfirst & Hlast).
  fold samples in Hfirst, Hlast.
  (* the span of the group *)
  destruct (map fst samples) as [|d0 dates] eqn:Edates; [discriminate|].
  injection Hfirst as Hstart. subst d0.
  assert (Hok : forall d, In d (start_date g :: dates) -> datetime_ok d = true).
  { intros d Hd. rewrite <- Edates in Hd. apply in_map_iff in Hd.
    destruct Hd as (s & <- & Hs). now apply (trip_samples_ok lines). }
  assert (Hn : List.length dates = (24 * D - 1)%nat).
  { apply (f_equal (@List.length _)) in Edates. rewrite length_map in Edates.
    cbn in Edates. lia. }
  pose proof (hourly_spaced_last (start_date g) dates Hhour) as Hts.
  rewrite Hlast, Hn in Hts.
  assert (Hs_ok : datetime_ok (start_date g) = true) by (apply Hok; now left).
  assert (He_ok : datetime_ok (end_date g) = true).
  { rewrite <- Hlast.
    destruct (exists_last (l := start_date g :: dates) ltac:(discriminate))
      as (l' & x & El). rewrite El, last_last. apply Hok. rewrite El.
    apply in_or_app. right. now left. }
  destruct (aligned_dates_items (start_date g) (end_date g) Hs_ok He_ok ltac:(lia))
    as (_ & _ & _ & Hcount & Hitem).
  assert (Eel : (timestamp_us (end_date g) - timestamp_us (start_date g)) / 86400000000
                = Z.of_nat D - 1).
  { rewrite Hts. Z.div_mod_to_equations. lia. }
  rewrite Eel in Hcount, Hitem.
  set (yielded := six_hour_aligned_dates (start_date g) (end_date g)) in *.
  set (base := timestamp_us (mk_datetime (year (start_date g)) (month (start_date g))
                                         (day (start_date g)) 0 0 0 0)) in *.
  assert (Hy : forall r, In r yielded ->
             exists d, r = Ok d /\ datetime_ok d = true).
  { intros r Hr. destruct (In_nth_error _ _ Hr) as (n & Hn').
    assert (Hb : (n < List.length yielded)%nat) by (apply nth_error_Some; congruence).
    destruct (Hitem (Z.of_nat n) ltac:(lia)) as (x & Ex & Hx & _).
    rewrite Nat2Z.id, Hn' in Ex. injection Ex as ->. eauto. }
  destruct (all_ok_list yielded) as (ydates & Ey).
  { intros r Hr. destruct (Hy r Hr) as (d & -> & _). eauto. }
  assert (Hynd : NoDup ydates).
  { apply NoDup_nth_error. intros i j Hi Hij.
    assert (Hlen_y : List.length yielded = List.length ydates)
      by (rewrite Ey; apply length_map).
    assert (Hj : (j < List.length ydates)%nat).
    { apply nth_error_Some. rewrite <- Hij. apply nth_error_Some. exact Hi. }
    destruct (Hitem (Z.of_nat i) ltac:(lia)) as (x & Ex & _ & Tx).
    destruct (Hitem (Z.of_nat j) ltac:(lia)) as (y & Ex' & _ & Ty).
    rewrite Nat2Z.id, Ey, nth_error_map in Ex, Ex'.
    destruct (nth_error ydates i) as [xi|]; [|discriminate].
    destruct (nth_error ydates j) as [xj|]; [|discriminate].
    injection Ex as ->. injection Ex' as ->. injection Hij as ->. lia. }
  (* the run *)
  destruct (sample_dates_total ds (nc_lat_index g) (nc_lon_index g) yielded) with (plan := @nil (@sampled_point num))
    as (slog & [nc_data processed_dates] & Erun).
  { intros r Hr. destruct (Hy r Hr) as (d & -> & Hd).
    destruct (nc_getitem_ok ds d Hd Hds) as (air & Hair). eauto. }
  assert (Hsl : sample_locations ds (dict_values (trip_by_location t)) initial_state
                = (slog, Ok (nc_data, processed_dates))).
  { rewrite Etbl. cbn [dict_values map snd sample_locations]. fold yielded.
    change initial_state
      with (series_of (@nil (@sampled_point num)), map sp_date (@nil (@sampled_point num))).
    rewrite Erun. cbn [io_bind io_ret]. now rewrite app_nil_r. }
  exists slog, nc_data, processed_dates. split; [exact Hsl|].
  destruct (sampler_run ds _ slog nc_data processed_dates Hsl)
    as (plan & _ & Epr & _ & P & Nd & A).
  split.
  - assert (Hl : List.length processed_dates = List.length ydates).
    { apply Nat.le_antisymm; apply NoDup_incl_length; auto.
      - intros d Hd. rewrite Epr in Hd. apply in_map_iff in Hd.
        destruct Hd as (p & <- & Hp). destruct (P p Hp) as (g' & Hg' & _ & _ & _ & Hin).
        rewrite Etbl in Hg'. destruct Hg' as [<- | []].
        cbn [snd] in Hin. fold yielded in Hin. rewrite Ey in Hin. apply in_map_iff in Hin. destruct Hin as (x & [= ->] & Hx).
        exact Hx.
      - intros d Hd. destruct (A g (Ok d)) as (d' & [= <-] & Hd').
        + rewrite Etbl. now left.
        + fold yielded. rewrite Ey. now apply in_map.
        + exact Hd'. }
    rewrite Hl. apply (f_equal (@List.length _)) in Ey. rewrite length_map in Ey. lia.
  - destruct (read_trip_inv lines t Ht) as (_ & A1 & B1 & _).
    fold samples in B1. rewrite Edates in B1.
    pose proof (distinct_count _ _ A1 B1) as Hc.
    rewrite (nodup_fixed_point datetime_eq_dec (hourly_spaced_NoDup _ Hhour)) in Hc.
    unfold dict_keys in Hc. rewrite length_map in Hc. rewrite Hc. cbn. lia.
Qed.

Lemma calc_hourly_raise (data : list (list num)) (e : exn) :
  calc_hourly data = Raise e -> e <> AssertionError.
Proof.
  unfold calc_hourly, nth_or_IndexError.
  destruct (nth_error data 0) as [data0|]; cbn [bind]; [|intros [= <-]; discriminate].
  unfold interp1d.
  destruct (negb _); cbn [bind]; [intros [= <-]; discriminate|].
  destruct (_ <? 4)%nat; cbn [bind]; [intros [= <-]; discriminate|].
  destruct (forallb _ _); [discriminate | intros [= <-]; discriminate].
Qed.

Lemma io_bind_raise {A B : Type} (m : IO A) (f : A -> IO B) (log : list event) (e : exn) :
  io_bind m f = (log, Raise e) ->
  m = (log, Raise e)
  \/ exists log1 a log2, m = (log1, Ok a) /\ f a = (log2, Raise e) /\ log = log1 ++ log2.
Proof.
  destruct m as [log1 [a|e1]]; cbn [io_bind].
  - destruct (f a) as [log2 r] eqn:E. intros [= <- ->]. right.
    exists log1, a, log2. auto.
  - intros [= <- <-]. now left.
Qed.

Lemma OUT_FILE_LINE_format_raise (fields : list string) (e : exn) :
  OUT_FILE_LINE_format fields = Raise e -> e = IndexError.
Proof.
  unfold OUT_FILE_LINE_format. destruct (_ <? _)%nat; [|discriminate].
  now intros [= <-].
Qed.

Lemma write_rows_raise (t : trip) (rows : list ((datetime * location) * list num))
      (log : list event) (e : exn) :
  write_rows t rows = (log, Raise e) -> e <> AssertionError.
Proof.
  revert log. induction rows as [|[[date loc] levels] rows IH]; intros log H.
  - discriminate.
  - cbn [write_rows] in H.
    apply io_bind_raise in H. destruct H as [H | (l1 & fields & l2 & _ & H & _)].
    { unfold io_lift, row_fields in H.
      destruct (dict_get location_eqb loc (trip_by_location t)); [discriminate|].
      injection H as _ <-. discriminate. }
    apply io_bind_raise in H. destruct H as [H | (l3 & line & l4 & _ & H & _)].
    { unfold io_lift in H. injection H as _ H.
      apply OUT_FILE_LINE_format_raise in H. subst e. discriminate. }
    apply io_bind_raise in H. destruct H as [H | (l5 & u & l6 & _ & H & _)].
    { discriminate. }
    exact (IH l6 H).
Qed.

(** C2 (amended).  At the checkpoint after grid sampling the script
    asserts [int(len(trip_by_date) / 24 * 4) == len(nc_data[0])]: the
    number of sampled 6-hour timestamps must equal the number of distinct
    trip timestamps divided by 6, rounded down.  A run that reaches the
    checkpoint with the two different ends there in an [AssertionError],
    before the interpolation and with no output file opened; with the two
    equal it does not end in an [AssertionError].  For a trip of [24 D]
    samples spaced exactly hourly at one location ([D >= 1]), every run
    that reaches the checkpoint has sampled [4 D] timestamps, whatever
    the number of slices of the dataset, and the check holds. *)
Theorem sanity_check_whole_days (a : args) (lines : list trip_line)
        (nc_open : string -> result (dataset num)) (t : trip) (trip_end : datetime)
        (ds : dataset num) (slog : list event) (nc_data : list (list num))
        (processed_dates : list datetime) :
  string_filter isdigit (nc_file a) <> EmptyString ->
  read_trip lines = Ok t ->
  trip_end_date t = Some trip_end ->
  year trip_end = int_of_digits (string_filter isdigit (nc_file a)) ->
  nc_open (nc_file a) = Ok ds ->
  sample_locations ds (dict_values (trip_by_location t)) initial_state
  = (slog, Ok (nc_data, processed_dates)) ->
  let n := List.length (trip_by_date t) in
  let sampled := List.length processed_dates in
  expected_samples n = Z.of_nat n / 6
  /\ (Z.of_nat n / 6 <> Z.of_nat sampled ->
      main a lines nc_open = (EvOpenDataset (nc_file a) :: slog, Raise AssertionError))
  /\ (Z.of_nat n / 6 = Z.of_nat sampled ->
      snd (main a lines nc_open) <> Raise AssertionError)
  /\ (forall (loc : location) (D : nat),
        (forall s, In s (trip_samples lines) -> location_eqb (snd s) loc = true) ->
        hourly_spaced (map fst (trip_samples lines)) ->
        List.length (trip_samples lines) = (24 * D)%nat -> (1 <= D)%nat ->
        n = (24 * D)%nat /\ sampled = (4 * D)%nat
        /\ Z.of_nat n / 6 = Z.of_nat sampled).
Proof.
  intros Hy Ht Hend Hyear Hds Hs n sampled.
  destruct (sampler_run ds _ slog nc_data processed_dates Hs)
    as (plan & Enc & Epr & _).
  assert (H0 : nth_or_IndexError nc_data 0 = Ok (map (fun p => level_value p 0) plan)).
  { unfold nth_or_IndexError. rewrite Enc, series_of_nth by lia. reflexivity. }
  assert (Hl0 : List.length (map (fun p => level_value p 0) plan) = sampled).
  { unfold sampled. now rewrite Epr, !length_map. }
  assert (Hmain : main a lines nc_open
                  = io_bind (EvOpenDataset (nc_file a) :: slog, Ok tt)
                      (fun _ =>
                         if negb (expected_samples n =? Z.of_nat sampled)
                         then io_raise AssertionError
                         else
                           (hourly <- io_lift (calc_hourly nc_data) ;;
                            io_emit (EvOpenOut (match out_file a with
                                                | Some f => f
                                                | None => default_out_file a
                                                end)) ;;
                            line <- io_lift (OUT_FILE_LINE_format header_fields) ;;
                            io_emit (EvWrite line) ;;
                            write_rows t (zip_star (trip_by_date t) hourly))%io)).
  { unfold main. cbv zeta.
    apply String.eqb_neq in Hy. rewrite Hy, Ht. cbn [io_lift io_bind].
    rewrite Hend. apply Z.eqb_eq in Hyear. rewrite Hyear. cbn [negb].
    unfold io_emit at 1. cbn [io_bind]. rewrite Hds. cbn [io_bind].
    rewrite Hs. cbn [io_bind]. rewrite H0. cbn [io_bind]. rewrite Hl0.
    fold n.
    match goal with
    | |- context [if ?c then io_raise AssertionError else ?rest] =>
        destruct (if c then io_raise AssertionError else rest) as [log r]
    end.
    reflexivity. }
  split; [apply expected_samples_div|].
  split; [|split].
  - intros Hne. rewrite Hmain. rewrite expected_samples_div.
    apply Z.eqb_neq in Hne. rewrite Hne. cbn. now rewrite app_nil_r.
  - intros Heq. rewrite Hmain. rewrite expected_samples_div.
    apply Z.eqb_eq in Heq. rewrite Heq. cbn [negb io_bind].
    match goal with |- context [let '(_, _) := ?m in _] => destruct m as [log r] eqn:E end.
    cbn [snd]. destruct r as [u|e]; [discriminate|].
    intros [= ->].
    apply io_bind_raise in E. destruct E as [E | (l1 & hourly & l2 & _ & E & _)].
    { unfold io_lift in E. injection E as _ E. now apply calc_hourly_raise in E. }
    apply io_bind_raise in E. destruct E as [E | (l3 & u & l4 & _ & E & _)].
    { discriminate. }
    apply io_bind_raise in E. destruct E as [E | (l5 & line & l6 & _ & E & _)].
    { unfold io_lift in E. injection E as _ E.
      apply OUT_FILE_LINE_format_raise in E. discriminate. }
    apply io_bind_raise in E. destruct E as [E | (l7 & u' & l8 & _ & E & _)].
    { discriminate. }
    now apply write_rows_raise in E.
  - intros loc D Hloc Hhour Hlen HD.
    destruct (hourly_days_counted lines t ds loc D slog nc_data processed_dates
                Ht Hloc Hhour Hlen HD Hs) as (Hp & Hn).
    unfold n, sampled. rewrite Hp, Hn. repeat split; try reflexivity.
    Z.div_mod_to_equations. lia.
Qed.

(** ** Further properties *)

(** X1.  The dataset slice read for a timestamp depends on its calendar
    day only: the four timestamps that the Date Aligner yields for one day
    (items [4 q .. 4 q + 3]) all have the time index [tm_yday * 4 - 1]. *)
Theorem same_day_same_time_index (start end_ : datetime) (n m : nat) (t1 t2 : datetime) :
  datetime_ok start = true -> datetime_ok end_ = true ->
  timestamp_us start <= timestamp_us end_ ->
  nth_error (six_hour_aligned_dates start end_) n = Some (Ok t1) ->
  nth_error (six_hour_aligned_dates start end_) m = Some (Ok t2) ->
  (n / 4 = m / 4)%nat ->
  tm_yday t1 * 4 - 1 = tm_yday t2 * 4 - 1.
Proof.
  intros Hs He Hle H1 H2 Hnm.
  destruct (aligned_dates_items start end_ Hs He Hle) as (_ & _ & _ & Hlen & Hitem).
  assert (Hn : (n < List.length (six_hour_aligned_dates start end_))%nat)
    by (apply nth_error_Some; congruence).
  assert (Hm : (m < List.length (six_hour_aligned_dates start end_))%nat)
    by (apply nth_error_Some; congruence).
  destruct (Hitem (Z.of_nat n) ltac:(lia)) as (x & Ex & Hx & Tx).
  destruct (Hitem (Z.of_nat m) ltac:(lia)) as (y & Ey & Hy & Ty).
  rewrite Nat2Z.id in Ex, Ey. rewrite H1 in Ex. rewrite H2 in Ey.
  injection Ex as <-. injection Ey as <-.
  assert (Hq : Z.of_nat n / 4 = Z.of_nat m / 4).
  { rewrite <- !(Nat2Z.inj_div _ 4). now rewrite Hnm. }
  pose proof Hx as Hx'. pose proof Hy as Hy'.
  apply datetime_ok_iff in Hx', Hy'.
  destruct Hx' as ((_ & Mx & Dx) & Tx'), Hy' as ((_ & My & Dy) & Ty').
  assert (Eo : ymd2ord (year t1) (month t1) (day t1)
               = ymd2ord (year t2) (month t2) (day t2)).
  { unfold timestamp_us, day_seconds, toordinal in Tx, Ty.
    cbn [year month day hour minute second microsecond] in Tx, Ty.
    Z.div_mod_to_equations. lia. }
  destruct (ymd2ord_inj _ _ _ _ _ _ Mx Dx My Dy Eo) as (Ey' & Em & Ed).
  unfold tm_yday. now rewrite Ey', Em, Ed.
Qed.

(** X2.  With fewer than four 6-hour samples per level the interpolation
    is refused: [calc_hourly] raises a [ValueError]. *)
Theorem calc_hourly_too_short (data : list (list num)) (L : nat) :
  data <> [] ->
  (forall row, In row data -> List.length row = L) ->
  (L < 4)%nat ->
  calc_hourly data = Raise (ValueError "x and y arrays must have at least 4 entries").
Proof.
  intros Hne Hrows HL. unfold calc_hourly, nth_or_IndexError.
  destruct data as [|data0 rest]; [congruence|]. cbn [nth_error bind].
  rewrite (Hrows data0 (or_introl eq_refl)).
  set (x_old := map (fun x => 0 + x * 6) (range (Z.of_nat L))).
  assert (Hx : List.length x_old = L).
  { unfold x_old. rewrite length_map, range_length. lia. }
  unfold interp1d. rewrite Hx.
  replace (forallb (fun row => (List.length row =? L)%nat) (data0 :: rest)) with true.
  2:{ symmetry. apply forallb_forall. intros row Hrow.
      apply Nat.eqb_eq. now apply Hrows. }
  cbn [negb]. destruct (Nat.ltb_spec L 4) as [_|Hge]; [reflexivity | lia].
Qed.

Lemma NC_LAT_nth (k : Z) :
  0 <= k < 73 -> nth_error NC_LAT (Z.to_nat k) = Some (90 - (5 # 2) * inject_Z k)%Q.
Proof.
  intros Hk. unfold NC_LAT. now rewrite nth_error_map, range_nth_error.
Qed.


(** ** The record pattern *)

Lemma string_take_drop (n : nat) (s : string) :
  String.append (string_take n s) (string_drop n s) = s.
Proof.
  revert s. induction n as [|n IH]; intros [|c s]; cbn; try reflexivity.
  now rewrite IH.
Qed.

Lemma string_drop_length (n : nat) (s : string) :
  String.length (string_drop n s) = (String.length s - n)%nat.
Proof.
  revert s. induction n as [|n IH]; intros [|c s]; cbn; try reflexivity.
  apply IH.
Qed.

Lemma string_take_length (n : nat) (s : string) :
  (n <= String.length s)%nat -> String.length (string_take n s) = n.
Proof.
  revert s. induction n as [|n IH]; intros [|c s]; cbn; intros H; try reflexivity; try lia.
  rewrite IH; [reflexivity | lia].
Qed.

Lemma string_drop_app (a b : string) :
  string_drop (String.length a) (String.append a b) = b.
Proof. induction a as [|c a IH]; cbn; [now destruct b | exact IH]. Qed.

Lemma string_take_app (a b : string) :
  string_take (String.length a) (String.append a b) = a.
Proof. induction a as [|c a IH]; cbn; [now destruct b | now rewrite IH]. Qed.

Lemma string_drop_drop (n m : nat) (s : string) :
  string_drop n (string_drop m s) = string_drop (m + n) s.
Proof.
  revert s. induction m as [|m IH]; intros s; cbn; [reflexivity|].
  destruct s as [|c s]; [now destruct n | apply IH].
Qed.

Lemma append_assoc (a b c : string) :
  String.append (String.append a b) c = String.append a (String.append b c).
Proof. induction a as [|x a IH]; cbn; [reflexivity | now rewrite IH]. Qed.

Lemma span_le_length (cl : char_class) (limit : option nat) (s : string) :
  (span cl limit s <= String.length s)%nat.
Proof.
  revert limit. induction s as [|c s IH]; intros limit; cbn; [lia|].
  destruct limit as [[|n]|]; [lia| |]; destruct (class_mem cl c); try lia;
    match goal with |- (S (span _ ?l _) <= _)%nat => specialize (IH l) end; lia.
Qed.

Lemma span_take (cl : char_class) (s : string) :
  string_forall (class_mem cl) (string_take (span cl None s) s) = true.
Proof.
  induction s as [|c s IH]; cbn; [reflexivity|].
  destruct (class_mem cl c) eqn:E; cbn; [|reflexivity]. now rewrite E.
Qed.

Lemma span_drop (cl : char_class) (s : string) :
  stops cl (string_drop (span cl None s) s).
Proof.
  induction s as [|c s IH]; cbn; [exact I|].
  destruct (class_mem cl c) eqn:E; cbn; [exact IH | exact E].
Qed.

Lemma span_app (cl : char_class) (a b : string) :
  string_forall (class_mem cl) a = true -> stops cl b ->
  span cl None (String.append a b) = String.length a.
Proof.
  intros Ha Hb. induction a as [|c a IH]; cbn in *.
  - destruct b as [|c b]; cbn in *; [reflexivity | now rewrite Hb].
  - apply andb_prop in Ha. destruct Ha as [Hc Ha]. now rewrite Hc, IH.
Qed.

Lemma span_inside (cl : char_class) (s : string) (m : nat) :
  (m < span cl None s)%nat ->
  exists c r, string_drop m s = String c r /\ class_mem cl c = true.
Proof.
  revert s. induction m as [|m IH]; intros [|c s]; cbn; try lia.
  - destruct (class_mem cl c) eqn:E; [|lia]. intros _. now exists c, s.
  - destruct (class_mem cl c) eqn:E; [|lia]. intros H. apply IH. lia.
Qed.

Lemma backtrack_first {A : Type} (k : string -> option A) (s : string)
      (lo extra : nat) (a : A) :
  k (string_drop (lo + extra) s) = Some a -> backtrack k s lo extra = Some a.
Proof. intros H. destruct extra; cbn; now rewrite H. Qed.

Lemma backtrack_longest {A : Type} (k : string -> option A) (s : string) (lo : nat) :
  forall extra,
    (forall m, (lo <= m < lo + extra)%nat -> k (string_drop m s) = None) ->
    backtrack k s lo extra = k (string_drop (lo + extra) s).
Proof.
  intros extra H. destruct (k (string_drop (lo + extra) s)) as [a|] eqn:E.
  - now apply backtrack_first.
  - revert E. induction extra as [|extra IH]; intros E; cbn; rewrite E; [reflexivity|].
    apply IH.
    + intros m Hm. apply H. lia.
    + apply H. lia.
Qed.

(** A greedy repetition followed by something that cannot begin inside the
    class takes the whole run of the class. *)
Lemma rep_greedy (cl : char_class) (lo : nat) (s : string) (groups : list string)
      (k : string -> list string -> option (list string)) :
  (forall c r, class_mem cl c = true -> k (String c r) groups = None) ->
  re_run (Rep cl lo None) s groups k
  = if (span cl None s <? lo)%nat then None
    else k (string_drop (span cl None s) s) groups.
Proof.
  intros Hk. cbn [re_run]. destruct (Nat.ltb_spec (span cl None s) lo) as [|Hlo];
    [reflexivity|].
  rewrite backtrack_longest.
  - f_equal. f_equal. lia.
  - intros m Hm. destruct (span_inside cl s m) as (c & r & -> & Hc); [lia|].
    now apply Hk.
Qed.

(** A greedy repetition followed by something that always matches takes
    the whole run as well. *)
Lemma rep_greedy_total (cl : char_class) (lo : nat) (s : string) (groups : list string)
      (k : string -> list string -> option (list string)) :
  (forall rest, exists g, k rest groups = Some g) ->
  re_run (Rep cl lo None) s groups k
  = if (span cl None s <? lo)%nat then None
    else k (string_drop (span cl None s) s) groups.
Proof.
  intros Hk. cbn [re_run]. destruct (Nat.ltb_spec (span cl None s) lo) as [|Hlo];
    [reflexivity|].
  destruct (Hk (string_drop (span cl None s) s)) as (g & E). rewrite E.
  apply backtrack_first. replace (lo + (span cl None s - lo))%nat with (span cl None s) by lia.
  exact E.
Qed.

Lemma rep_exact_step (cl : char_class) (n : nat) (c : ascii) (s : string)
      (groups : list string) (k : string -> list string -> option (list string)) :
  re_run (Rep cl (S n) (Some (S n))) (String c s) groups k
  = if class_mem cl c then re_run (Rep cl n (Some n)) s groups k else None.
Proof.
  cbn [re_run span option_map Nat.pred]. destruct (class_mem cl c); [|reflexivity].
  pose proof (span_le_length cl (Some n) s) as _.
  assert (Hle : forall s', (span cl (Some n) s' <= n)%nat).
  { clear. induction n as [|n IH]; intros [|c s]; cbn; try lia.
    destruct (class_mem cl c); [|lia]. specialize (IH s). lia. }
  specialize (Hle s).
  destruct (Nat.ltb_spec (span cl (Some n) s) n) as [H1|H1].
  - destruct (Nat.ltb_spec (S (span cl (Some n) s)) (S n)); [reflexivity | lia].
  - destruct (Nat.ltb_spec (S (span cl (Some n) s)) (S n)); [lia|].
    replace (span cl (Some n) s) with n by lia.
    rewrite !Nat.sub_diag. cbn [backtrack]. rewrite !Nat.add_0_r. cbn [string_drop].
    now destruct (k (string_drop n s) groups).
Qed.

Lemma rep_exact_empty (cl : char_class) (n : nat) (groups : list string)
      (k : string -> list string -> option (list string)) :
  re_run (Rep cl (S n) (Some (S n))) EmptyString groups k = None.
Proof. reflexivity. Qed.

Lemma rep_exact_zero (cl : char_class) (s : string) (groups : list string)
      (k : string -> list string -> option (list string)) :
  re_run (Rep cl 0 (Some 0%nat)) s groups k = k s groups.
Proof.
  cbn [re_run]. replace (span cl (Some 0%nat) s) with 0%nat by now destruct s.
  cbn. now destruct (k s groups).
Qed.

Lemma begins_with_app (a b : list char_class) (s : string) :
  begins_with (a ++ b) s
  = begins_with a s && begins_with b (string_drop (List.length a) s).
Proof.
  revert s. induction a as [|cl a IH]; intros s; cbn [app begins_with List.length].
  - now destruct s.
  - destruct s as [|c s]; [reflexivity|]. cbn [string_drop].
    now rewrite IH, andb_assoc.
Qed.

Lemma begins_with_length (cls : list char_class) (s : string) :
  begins_with cls s = true -> (List.length cls <= String.length s)%nat.
Proof.
  revert s. induction cls as [|cl cls IH]; intros [|c s]; cbn; try lia; try discriminate.
  intros H. apply andb_prop in H. destruct H as [_ H]. specialize (IH s H). lia.
Qed.

Lemma begins_with_take (cls : list char_class) (s : string) :
  begins_with cls s = true ->
  begins_with cls (string_take (List.length cls) s) = true.
Proof.
  revert s. induction cls as [|cl cls IH]; intros [|c s]; cbn; try discriminate; auto.
  intros H. apply andb_prop in H. destruct H as [-> H]. now apply IH.
Qed.

Lemma begins_with_append (cls : list char_class) (a b : string) :
  begins_with cls a = true -> begins_with cls (String.append a b) = true.
Proof.
  revert a. induction cls as [|cl cls IH]; intros [|c a]; cbn; try discriminate; auto.
  intros H. apply andb_prop in H. destruct H as [-> H]. now apply IH.
Qed.

Lemma rep_exact (cl : char_class) (n : nat) (s : string) (groups : list string)
      (k : string -> list string -> option (list string)) :
  re_run (Rep cl n (Some n)) s groups k
  = if begins_with (repeat cl n) s then k (string_drop n s) groups else None.
Proof.
  revert s. induction n as [|n IH]; intros s.
  - rewrite rep_exact_zero. now destruct s.
  - destruct s as [|c s]; [reflexivity|].
    rewrite rep_exact_step. cbn [repeat begins_with string_drop].
    destruct (class_mem cl c); [apply IH | reflexivity].
Qed.

Lemma re_seq_exact (items : list (char_class * nat)) :
  forall (s : string) (groups : list string)
         (k : string -> list string -> option (list string)),
    re_run (re_seq (map (fun i => Rep (fst i) (snd i) (Some (snd i))) items)) s groups k
    = if begins_with (flat_map (fun i => repeat (fst i) (snd i)) items) s
      then k (string_drop (List.length (flat_map (fun i => repeat (fst i) (snd i)) items)) s)
             groups
      else None.
Proof.
  induction items as [|[cl n] items IH]; intros s groups k.
  - cbn. now destruct s.
  - cbn [map re_seq fold_right flat_map fst snd re_run].
    change (re_run (Rep cl n (Some n)) s groups
              (fun rest groups' =>
                 re_run (re_seq (map (fun i => Rep (fst i) (snd i) (Some (snd i))) items))
                        rest groups' k)
            = if begins_with (repeat cl n ++ flat_map (fun i => repeat (fst i) (snd i)) items) s
              then k (string_drop
                        (List.length
                           (repeat cl n ++ flat_map (fun i => repeat (fst i) (snd i)) items))
                        s) groups
              else None).
    rewrite rep_exact, begins_with_app, length_app, repeat_length.
    destruct (begins_with (repeat cl n) s); [|reflexivity].
    rewrite IH, string_drop_drop. reflexivity.
Qed.

Lemma backtrack_total {A : Type} (k : string -> option A) (s : string)
      (lo extra : nat) (a : A) :
  (forall rest, k rest = Some a) -> backtrack k s lo extra = Some a.
Proof. intros H. now apply backtrack_first. Qed.

(** The end of the pattern, [\s?.*], matches whatever follows. *)
Lemma line_end_total (rest : string) (groups : list string) :
  re_run (re_seq [Rep Space 0 (Some 1%nat); Rep NotNewline 0 None]) rest groups
         (fun _ groups' => Some groups')
  = Some groups.
Proof.
  cbn [re_seq fold_right re_run]. rewrite Nat.sub_0_r.
  change (span Space (Some 1%nat) rest <? 0)%nat with false. cbv iota.
  apply backtrack_total. intros rest'.
  change (span NotNewline None rest' <? 0)%nat with false. cbv iota.
  now apply backtrack_total.
Qed.

Lemma take_span_length (cl : char_class) (s : string) :
  (String.length s - String.length (string_drop (span cl None s) s))%nat
  = span cl None s.
Proof.
  rewrite string_drop_length. pose proof (span_le_length cl None s). lia.
Qed.

Lemma re_run_cat (r1 r2 : regex) (s : string) (groups : list string)
      (k : string -> list string -> option (list string)) :
  re_run (Cat r1 r2) s groups k
  = re_run r1 s groups (fun rest groups' => re_run r2 rest groups' k).
Proof. reflexivity. Qed.

Lemma re_run_group (r : regex) (s : string) (groups : list string)
      (k : string -> list string -> option (list string)) :
  re_run (Group r) s groups k
  = re_run r s groups
           (fun rest groups' =>
              k rest (groups' ++ [string_take (String.length s - String.length rest) s])).
Proof. reflexivity. Qed.

Lemma re_seq_cons (r : regex) (rs : list regex) : re_seq (r :: rs) = Cat r (re_seq rs).
Proof. reflexivity. Qed.

(** A repetition of at least one character fails where the text begins
    outside its class. *)
Lemma rep_plus_outside (cl : char_class) (c : ascii) (r : string) (groups : list string)
      (k : string -> list string -> option (list string)) :
  class_mem cl c = false -> re_run (Rep cl 1 None) (String c r) groups k = None.
Proof. intros H. cbn [re_run span]. now rewrite H. Qed.

Lemma space_not_nonspace (c : ascii) :
  class_mem Space c = true -> class_mem NonSpace c = false.
Proof. cbn. now intros ->. Qed.

Lemma nonspace_not_space (c : ascii) :
  class_mem NonSpace c = true -> class_mem Space c = false.
Proof. cbn. now destruct (re_isspace c). Qed.

(** A column, [(\S+)], before the end of the pattern. *)
Lemma scan_last_column (s : string) (groups : list string) :
  re_run (re_seq [Group (Rep NonSpace 1 None); Rep Space 0 (Some 1%nat);
                  Rep NotNewline 0 None]) s groups (fun _ groups' => Some groups')
  = if (span NonSpace None s <? 1)%nat then None
    else Some (groups ++ [string_take (span NonSpace None s) s]).
Proof.
  rewrite re_seq_cons, re_run_cat, re_run_group.
  rewrite rep_greedy_total.
  - destruct (span NonSpace None s <? 1)%nat; [reflexivity|].
    now rewrite line_end_total, take_span_length.
  - intros rest. eexists. apply line_end_total.
Qed.

(** Whitespace, [\s+], before a column. *)
Lemma scan_spaces (rs : list regex) (s : string) (groups : list string)
      (k : string -> list string -> option (list string)) :
  re_run (re_seq (Rep Space 1 None :: Group (Rep NonSpace 1 None) :: rs)) s groups k
  = if (span Space None s <? 1)%nat then None
    else re_run (re_seq (Group (Rep NonSpace 1 None) :: rs))
                (string_drop (span Space None s) s) groups k.
Proof.
  rewrite re_seq_cons, re_run_cat. apply rep_greedy.
  intros c r Hc. rewrite re_seq_cons, re_run_cat, re_run_group.
  apply rep_plus_outside. now apply space_not_nonspace.
Qed.

(** A column, [(\S+)], before whitespace. *)
Lemma scan_column (rs : list regex) (s : string) (groups : list string)
      (k : string -> list string -> option (list string)) :
  re_run (re_seq (Group (Rep NonSpace 1 None) :: Rep Space 1 None :: rs)) s groups k
  = if (span NonSpace None s <? 1)%nat then None
    else re_run (re_seq (Rep Space 1 None :: rs))
                (string_drop (span NonSpace None s) s)
                (groups ++ [string_take (span NonSpace None s) s]) k.
Proof.
  rewrite re_seq_cons, re_run_cat, re_run_group. rewrite rep_greedy.
  - destruct (span NonSpace None s <? 1)%nat; [reflexivity|].
    now rewrite take_span_length.
  - intros c r Hc. rewrite re_seq_cons, re_run_cat.
    apply rep_plus_outside. now apply nonspace_not_space.
Qed.

(** What follows the seconds, [\S*], before whitespace. *)
Lemma scan_suffix (rs : list regex) (s : string) (groups : list string)
      (k : string -> list string -> option (list string)) :
  re_run (re_seq (Rep NonSpace 0 None :: Rep Space 1 None :: rs)) s groups k
  = re_run (re_seq (Rep Space 1 None :: rs))
           (string_drop (span NonSpace None s) s) groups k.
Proof.
  rewrite re_seq_cons, re_run_cat. rewrite rep_greedy.
  - reflexivity.
  - intros c r Hc. rewrite re_seq_cons, re_run_cat.
    apply rep_plus_outside. now apply nonspace_not_space.
Qed.

(** The date group. *)
Lemma scan_date (rs : list regex) (s : string) (groups : list string)
      (k : string -> list string -> option (list string)) :
  re_run (re_seq
            (Group (re_seq [re_digits 4; re_char "-"; re_digits 2; re_char "-";
                            re_digits 2; re_char " "; re_digits 2; re_char ":";
                            re_digits 2; re_char ":"; re_digits 2]) :: rs)) s groups k
  = if begins_with DATE_CLASSES s
    then re_run (re_seq rs) (string_drop 19 s) (groups ++ [string_take 19 s]) k
    else None.
Proof.
  rewrite re_seq_cons, re_run_cat, re_run_group.
  pose proof (re_seq_exact
                [(Digit, 4%nat); (Literal "-", 1%nat); (Digit, 2%nat);
                 (Literal "-", 1%nat); (Digit, 2%nat); (Literal " ", 1%nat);
                 (Digit, 2%nat); (Literal ":", 1%nat); (Digit, 2%nat);
                 (Literal ":", 1%nat); (Digit, 2%nat)] s groups) as E.
  cbn [map fst snd flat_map repeat app List.length] in E.
  fold DATE_CLASSES in E. unfold re_digits, re_char. rewrite E.
  destruct (begins_with DATE_CLASSES s) eqn:B; [|reflexivity].
  apply begins_with_length in B. cbn [DATE_CLASSES List.length] in B.
  rewrite string_drop_length.
  replace (String.length s - (String.length s - 19))%nat with 19%nat by lia.
  reflexivity.
Qed.

(** What [TRIP_FILE_LINE.match] does on a line, in one scan from left to
    right: the backtracking never finds a second way. *)
Lemma TRIP_FILE_LINE_scan (line : string) :
  re_match TRIP_FILE_LINE line
  = if begins_with DATE_CLASSES line then
      let s1 := string_drop 19 line in
      let s2 := string_drop (span NonSpace None s1) s1 in
      let s3 := string_drop (span Space None s2) s2 in
      let s4 := string_drop (span NonSpace None s3) s3 in
      let s5 := string_drop (span Space None s4) s4 in
      if (span Space None s2 <? 1)%nat then None
      else if (span NonSpace None s3 <? 1)%nat then None
      else if (span Space None s4 <? 1)%nat then None
      else if (span NonSpace None s5 <? 1)%nat then None
      else Some [string_take 19 line; string_take (span NonSpace None s3) s3;
                 string_take (span NonSpace None s5) s5]
    else None.
Proof.
  unfold re_match, TRIP_FILE_LINE. rewrite scan_date.
  destruct (begins_with DATE_CLASSES line); [|reflexivity]. cbv zeta.
  rewrite scan_suffix, scan_spaces.
  destruct (span Space None _ <? 1)%nat; [reflexivity|].
  rewrite scan_column.
  destruct (span NonSpace None _ <? 1)%nat; [reflexivity|].
  rewrite scan_spaces.
  destruct (span Space None _ <? 1)%nat; [reflexivity|].
  rewrite scan_last_column.
  destruct (span NonSpace None _ <? 1)%nat; reflexivity.
Qed.

Lemma string_take_nonempty (n : nat) (s : string) :
  (1 <= n <= String.length s)%nat -> string_take n s <> EmptyString.
Proof.
  intros H E. pose proof (string_take_length n s (proj2 H)) as L.
  rewrite E in L. cbn in L. lia.
Qed.

Lemma nonempty_length (s : string) : s <> EmptyString -> (1 <= String.length s)%nat.
Proof. destruct s; [congruence | cbn; lia]. Qed.

Lemma stops_after (cl cl' : char_class) (s x : string) :
  (forall c, class_mem cl c = true -> class_mem cl' c = false) ->
  s <> EmptyString -> string_forall (class_mem cl) s = true ->
  stops cl' (String.append s x).
Proof.
  intros H Hs Hall. destruct s as [|c s]; [congruence|]. cbn in *.
  apply andb_prop in Hall. apply H, Hall.
Qed.

Lemma groups3_inj (a b c a' b' c' : string) :
  Some [a; b; c] = Some [a'; b'; c'] -> a = a' /\ b = b' /\ c = c'.
Proof. intros [= -> -> ->]. auto. Qed.

(** X4.  [TRIP_FILE_LINE] matches an ASCII line exactly when the line begins
    with a date text [dddd-dd-dd dd:dd:dd], runs on without whitespace, and
    goes on with whitespace, a first column, whitespace and a second
    column that ends at the end of the line or at whitespace; the groups
    are then the date text and the two columns.  What follows the seconds
    and what follows the second column play no part, and a line that does
    not begin with the date text does not match. *)
Theorem TRIP_FILE_LINE_columns (line : string) :
  ascii_text line = true ->
  (forall date lat lon,
      re_match TRIP_FILE_LINE line = Some [date; lat; lon] <->
      exists suffix ws1 ws2 rest,
        line = String.append date
                 (String.append suffix
                    (String.append ws1
                       (String.append lat
                          (String.append ws2 (String.append lon rest)))))
        /\ String.length date = 19%nat /\ begins_with DATE_CLASSES date = true
        /\ string_forall (class_mem NonSpace) suffix = true
        /\ ws1 <> EmptyString /\ string_forall (class_mem Space) ws1 = true
        /\ lat <> EmptyString /\ string_forall (class_mem NonSpace) lat = true
        /\ ws2 <> EmptyString /\ string_forall (class_mem Space) ws2 = true
        /\ lon <> EmptyString /\ string_forall (class_mem NonSpace) lon = true
        /\ stops NonSpace rest)
  /\ (forall groups, re_match TRIP_FILE_LINE line = Some groups ->
        List.length groups = 3%nat)
  /\ (begins_with DATE_CLASSES line = false -> re_match TRIP_FILE_LINE line = None).
Proof.
  intros _. split; [|split].
  - intros date lat lon. rewrite TRIP_FILE_LINE_scan. cbv zeta. split.
    + destruct (begins_with DATE_CLASSES line) eqn:B; [|discriminate].
      set (s1 := string_drop 19 line).
      set (s2 := string_drop (span NonSpace None s1) s1).
      set (s3 := string_drop (span Space None s2) s2).
      set (s4 := string_drop (span NonSpace None s3) s3).
      set (s5 := string_drop (span Space None s4) s4).
      destruct (Nat.ltb_spec (span Space None s2) 1) as [|H2]; [discriminate|].
      destruct (Nat.ltb_spec (span NonSpace None s3) 1) as [|H3]; [discriminate|].
      destruct (Nat.ltb_spec (span Space None s4) 1) as [|H4]; [discriminate|].
      destruct (Nat.ltb_spec (span NonSpace None s5) 1) as [|H5]; [discriminate|].
      intros E. apply groups3_inj in E. destruct E as (<- & <- & <-).
      exists (string_take (span NonSpace None s1) s1),
        (string_take (span Space None s2) s2),
        (string_take (span Space None s4) s4),
        (string_drop (span NonSpace None s5) s5).
      split.
      { rewrite (string_take_drop _ s5). unfold s5.
        rewrite (string_take_drop _ s4). unfold s4.
        rewrite (string_take_drop _ s3). unfold s3.
        rewrite (string_take_drop _ s2). unfold s2.
        rewrite (string_take_drop _ s1). unfold s1.
        now rewrite string_take_drop. }
      pose proof (begins_with_length _ _ B) as L. cbn [DATE_CLASSES List.length] in L.
      split; [now apply string_take_length|].
      split; [exact (begins_with_take DATE_CLASSES line B)|].
      split; [apply span_take|].
      split; [apply string_take_nonempty; split; [exact H2 | apply span_le_length]|].
      split; [apply span_take|].
      split; [apply string_take_nonempty; split; [exact H3 | apply span_le_length]|].
      split; [apply span_take|].
      split; [apply string_take_nonempty; split; [exact H4 | apply span_le_length]|].
      split; [apply span_take|].
      split; [apply string_take_nonempty; split; [exact H5 | apply span_le_length]|].
      split; [apply span_take | apply span_drop].
    + intros (suffix & ws1 & ws2 & rest & -> & Ld & Bd & Hsuf & N1 & W1 & Nla & Hla
              & N2 & W2 & Nlo & Hlo & Hrest).
      rewrite (begins_with_append _ _ _ Bd).
      replace 19%nat with (String.length date) by exact Ld.
      rewrite string_drop_app, string_take_app.
      rewrite (span_app NonSpace suffix) by
          (auto; eapply stops_after; eauto using space_not_nonspace).
      rewrite string_drop_app.
      rewrite (span_app Space ws1) by
          (auto; eapply stops_after; eauto using nonspace_not_space).
      rewrite string_drop_app.
      rewrite (span_app NonSpace lat) by
          (auto; eapply stops_after; eauto using space_not_nonspace).
      rewrite string_drop_app, string_take_app.
      rewrite (span_app Space ws2) by
          (auto; eapply stops_after; eauto using nonspace_not_space).
      rewrite string_drop_app.
      rewrite (span_app NonSpace lon) by auto.
      rewrite string_take_app.
      apply nonempty_length in N1, Nla, N2, Nlo.
      destruct (Nat.ltb_spec (String.length ws1) 1); [lia|].
      destruct (Nat.ltb_spec (String.length lat) 1); [lia|].
      destruct (Nat.ltb_spec (String.length ws2) 1); [lia|].
      destruct (Nat.ltb_spec (String.length lon) 1); [lia|].
      reflexivity.
  - intros groups. rewrite TRIP_FILE_LINE_scan. cbv zeta.
    destruct (begins_with DATE_CLASSES line); [|discriminate].
    repeat match goal with
           | |- (if ?b then _ else _) = _ -> _ => destruct b; [discriminate|]
           end.
    now intros [= <-].
  - intros B. now rewrite TRIP_FILE_LINE_scan, B.
Qed.

Lemma digit_char (c : ascii) (v : Z) :
  isdigit c = true -> v mod 10 = Z.of_nat (nat_of_ascii c) - 48 -> digit v = c.
Proof.
  unfold isdigit, digit. intros H E. apply andb_prop in H. destruct H as [H1 H2].
  apply Nat.leb_le in H1, H2. rewrite E.
  replace (48 + Z.to_nat (Z.of_nat (nat_of_ascii c) - 48))%nat with (nat_of_ascii c) by lia.
  apply ascii_nat_embedding.
Qed.

Lemma zero_padded_2 (c1 c2 : ascii) :
  isdigit c1 = true -> isdigit c2 = true ->
  zero_padded 2 (int_of_digits (String c1 (String c2 EmptyString)))
  = String c1 (String c2 EmptyString).
Proof.
  intros H1 H2. cbn [zero_padded String.append].
  pose proof H1 as B1. pose proof H2 as B2.
  unfold isdigit in B1, B2. apply andb_prop in B1, B2.
  destruct B1 as [L1 U1], B2 as [L2 U2]. apply Nat.leb_le in L1, U1, L2, U2.
  unfold int_of_digits. cbn [int_of_digits_from].
  set (a := Z.of_nat (nat_of_ascii c1)) in *. set (b := Z.of_nat (nat_of_ascii c2)) in *.
  rewrite (digit_char c1), (digit_char c2); auto;
    Z.div_mod_to_equations; lia.
Qed.

Lemma zero_padded_4 (c1 c2 c3 c4 : ascii) :
  isdigit c1 = true -> isdigit c2 = true -> isdigit c3 = true -> isdigit c4 = true ->
  zero_padded 4 (int_of_digits (String c1 (String c2 (String c3 (String c4 EmptyString)))))
  = String c1 (String c2 (String c3 (String c4 EmptyString))).
Proof.
  intros H1 H2 H3 H4. cbn [zero_padded String.append].
  pose proof H1 as B1. pose proof H2 as B2. pose proof H3 as B3. pose proof H4 as B4.
  unfold isdigit in B1, B2, B3, B4. apply andb_prop in B1, B2, B3, B4.
  destruct B1 as [L1 U1], B2 as [L2 U2], B3 as [L3 U3], B4 as [L4 U4].
  apply Nat.leb_le in L1, U1, L2, U2, L3, U3, L4, U4.
  unfold int_of_digits. cbn [int_of_digits_from].
  set (a := Z.of_nat (nat_of_ascii c1)) in *. set (b := Z.of_nat (nat_of_ascii c2)) in *.
  set (c := Z.of_nat (nat_of_ascii c3)) in *. set (d := Z.of_nat (nat_of_ascii c4)) in *.
  rewrite (digit_char c1), (digit_char c2), (digit_char c3), (digit_char c4); auto;
    Z.div_mod_to_equations; lia.
Qed.

Lemma date_text_str (date : string) :
  String.length date = 19%nat -> begins_with DATE_CLASSES date = true ->
  let t := date_text_of_string date in
  datetime_str (mk_datetime (txt_year t) (txt_month t) (txt_day t)
                            (txt_hour t) (txt_minute t) (txt_second t) 0)
  = date.
Proof.
  intros L B.
  do 19 (destruct date as [|? date]; [discriminate L|]).
  destruct date; [|discriminate L]. clear L.
  cbn [DATE_CLASSES begins_with class_mem] in B.
  repeat match type of B with
         | (_ && _)%bool = true => apply andb_prop in B; destruct B as [? B]
         end.
  repeat match goal with
         | H : Ascii.eqb _ _ = true |- _ => apply Ascii.eqb_eq in H; subst
         end.
  cbv zeta. unfold date_text_of_string, datetime_str.
  cbn [substring txt_year txt_month txt_day txt_hour txt_minute txt_second
       year month day hour minute second microsecond].
  change (0 =? 0) with true. cbv iota.
  rewrite zero_padded_4 by assumption. rewrite !zero_padded_2 by assumption.
  reflexivity.
Qed.

Lemma TRIP_FILE_LINE_date (line date lat lon : string) :
  re_match TRIP_FILE_LINE line = Some [date; lat; lon] ->
  begins_with DATE_CLASSES line = true /\ date = string_take 19 line.
Proof.
  rewrite TRIP_FILE_LINE_scan. cbv zeta.
  destruct (begins_with DATE_CLASSES line); [|discriminate].
  repeat match goal with
         | |- (if ?b then _ else _) = _ -> _ => destruct b; [discriminate|]
         end.
  intros E. apply groups3_inj in E. destruct E as (<- & _). now split.
Qed.

(** X5.  The timestamp of a matched ASCII line survives the script
    unchanged: parsing the captured date text with [strptime] and printing
    the [datetime] with [str], as the report does, gives back the first 19
    characters of the line. *)
Theorem timestamp_text_round_trip (line date lat lon : string) (d : datetime) :
  ascii_text line = true ->
  re_match TRIP_FILE_LINE line = Some [date; lat; lon] ->
  strptime (date_text_of_string date) = Ok d ->
  datetime_str d = date /\ date = string_take 19 line.
Proof.
  intros _ Hm Hp. destruct (TRIP_FILE_LINE_date _ _ _ _ Hm) as [B ->].
  split; [|reflexivity].
  unfold strptime in Hp.
  destruct (date_ok _ _ _ && time_ok _ _ _ _); [|discriminate].
  injection Hp as <-. apply date_text_str.
  - apply string_take_length. exact (begins_with_length _ _ B).
  - exact (begins_with_take DATE_CLASSES line B).
Qed.

(** ** File names *)

Lemma split_on_nonempty (sep : ascii) (s : string) : split_on sep s <> [].
Proof.
  destruct s as [|c r]; cbn; [discriminate|].
  destruct (Ascii.eqb c sep); [discriminate|]. now destruct (split_on sep r).
Qed.

Lemma split_on_app (sep : ascii) (a b : string) :
  split_on sep (String.append a (String sep b)) = split_on sep a ++ split_on sep b.
Proof.
  induction a as [|c a IH]; cbn [String.append split_on].
  - now rewrite Ascii.eqb_refl.
  - rewrite IH. destruct (Ascii.eqb c sep); [reflexivity|].
    pose proof (split_on_nonempty sep a) as Hne.
    destruct (split_on sep a) as [|h t]; [congruence | reflexivity].
Qed.

Lemma split_on_lacks (sep : ascii) (s : string) :
  lacks sep s = true -> split_on sep s = [s].
Proof.
  unfold lacks. induction s as [|c r IH]; cbn; [reflexivity|].
  intros H. apply andb_prop in H. destruct H as [Hc Hr].
  apply negb_true_iff in Hc. now rewrite Hc, IH.
Qed.

Lemma concat_cons (sep x y : string) (l : list string) :
  String.concat sep (x :: y :: l)
  = String.append x (String.append sep (String.concat sep (y :: l))).
Proof. reflexivity. Qed.

Lemma concat_split_on (sep : ascii) (s : string) :
  String.concat (String sep EmptyString) (split_on sep s) = s.
Proof.
  induction s as [|c r IH]; cbn [split_on]; [reflexivity|].
  pose proof (split_on_nonempty sep r) as Hne.
  destruct (split_on sep r) as [|h t]; [congruence|].
  destruct (Ascii.eqb_spec c sep) as [->|Hc].
  - rewrite concat_cons, IH. reflexivity.
  - destruct t as [|y l].
    + cbn [String.concat] in *. now rewrite IH.
    + rewrite concat_cons in *. cbn [String.append] in *. now rewrite IH.
Qed.

Lemma basename_in_dir (dir name : string) :
  dir = EmptyString \/ (exists d, dir = String.append d "/") ->
  lacks "/" name = true ->
  basename (String.append dir name) = name.
Proof.
  intros [-> | (d & ->)] Hn; unfold basename.
  - cbn [String.append]. now rewrite split_on_lacks.
  - rewrite append_assoc. cbn [String.append].
    rewrite split_on_app, (split_on_lacks "/" name Hn). apply last_last.
Qed.

Lemma basename_after_slash (d f : string) :
  basename (String.append d (String "/" f)) = basename f.
Proof.
  unfold basename. rewrite split_on_app.
  pose proof (split_on_nonempty "/" f) as Hne.
  destruct (exists_last Hne) as (l & x & E). rewrite E, app_assoc, !last_last.
  reflexivity.
Qed.

(** X16.  The stem that the default output name takes from a path: the
    directories are dropped, and of the file name only the part after the
    last dot; a file name without a dot leaves an empty stem. *)
Theorem output_name_stem (dir name : string) :
  dir = EmptyString \/ (exists d, dir = String.append d "/") ->
  lacks "/" name = true ->
  (forall stem ext,
      name = String.append stem (String "." ext) -> lacks "." ext = true ->
      drop_extension (basename (String.append dir name)) = stem)
  /\ (lacks "." name = true ->
      drop_extension (basename (String.append dir name)) = EmptyString).
Proof.
  intros Hdir Hname. rewrite (basename_in_dir dir name Hdir Hname).
  unfold drop_extension. split.
  - intros stem ext -> Hext.
    rewrite split_on_app, (split_on_lacks "." ext Hext), removelast_last.
    apply concat_split_on.
  - intros H. now rewrite (split_on_lacks "." name H).
Qed.

Lemma string_filter_app (f : ascii -> bool) (a b : string) :
  string_filter f (String.append a b)
  = String.append (string_filter f a) (string_filter f b).
Proof.
  induction a as [|c a IH]; cbn; [reflexivity|].
  destruct (f c); cbn; now rewrite IH.
Qed.

Lemma int_of_digits_from_app (acc : Z) (a b : string) :
  int_of_digits_from acc (String.append a b)
  = int_of_digits_from (int_of_digits_from acc a) b.
Proof.
  revert acc. induction a as [|c a IH]; intros acc; cbn; [reflexivity | apply IH].
Qed.

Lemma int_of_digits_from_acc (acc : Z) (s : string) :
  int_of_digits_from acc s
  = acc * 10 ^ Z.of_nat (String.length s) + int_of_digits s.
Proof.
  unfold int_of_digits. revert acc.
  induction s as [|c s IH]; intros acc; cbn [int_of_digits_from String.length].
  - cbn. lia.
  - rewrite IH, (IH (0 * 10 + _)), Nat2Z.inj_succ, Z.pow_succ_r by lia. lia.
Qed.

(** X17.  A relative NC_FILE is completed with the directory of the
    script before the year is read from it: the digits of that directory
    come first in the number that the trip's year is compared with.  The
    default output name, made from the base names, does not change. *)
Theorem relative_nc_file_year (SELF_PATH NC_FILE : string)
        (trip_file_opt out_file_opt : option string) :
  isabs NC_FILE = false ->
  let a := parse_args SELF_PATH NC_FILE trip_file_opt out_file_opt in
  let dir_digits := string_filter isdigit SELF_PATH in
  let file_digits := string_filter isdigit NC_FILE in
  string_filter isdigit (nc_file a) = String.append dir_digits file_digits
  /\ int_of_digits (string_filter isdigit (nc_file a))
     = int_of_digits dir_digits * 10 ^ Z.of_nat (String.length file_digits)
       + int_of_digits file_digits
  /\ basename (nc_file a) = basename NC_FILE.
Proof.
  intros Hrel. cbv zeta. unfold parse_args, script_relative. cbn [nc_file].
  rewrite Hrel. cbn [negb]. unfold path_join. rewrite Hrel.
  assert (E : string_filter isdigit
                (if String.eqb SELF_PATH EmptyString || ends_with_slash SELF_PATH
                 then String.append SELF_PATH NC_FILE
                 else String.append SELF_PATH (String "/" NC_FILE))
              = String.append (string_filter isdigit SELF_PATH)
                              (string_filter isdigit NC_FILE)).
  { destruct (String.eqb SELF_PATH EmptyString || ends_with_slash SELF_PATH);
      rewrite string_filter_app; reflexivity. }
  split; [exact E|]. split.
  - rewrite E. unfold int_of_digits at 1.
    rewrite int_of_digits_from_app, int_of_digits_from_acc. reflexivity.
  - destruct (String.eqb_spec SELF_PATH EmptyString) as [->|Hne]; [reflexivity|].
    cbn [orb]. destruct (ends_with_slash SELF_PATH) eqn:Es.
    + assert (Hd : exists d, SELF_PATH = String.append d "/").
      { clear - Es. induction SELF_PATH as [|c s IH]; [discriminate|].
        destruct s as [|c' s'].
        - cbn in Es. apply Ascii.eqb_eq in Es. subst c. now exists EmptyString.
        - destruct (IH Es) as (d & E). exists (String c d). cbn. now rewrite <- E. }
      destruct Hd as (d & ->). rewrite append_assoc. cbn [String.append].
      apply basename_after_slash.
    + apply basename_after_slash.
Qed.

(** ** Date Aligner: a span taken backwards *)

Lemma six_hour_aligned_dates_backwards_eq (start end_ : datetime) :
  datetime_ok start = true -> datetime_ok end_ = true ->
  timestamp_us end_ < timestamp_us start ->
  six_hour_aligned_dates start end_ = [].
Proof.
  intros Hs He Hlt.
  destruct (datetime_sub_days end_ start He Hs) as (delta & Esub & Edays).
  unfold six_hour_aligned_dates, datetime_new.
  assert (Hz : date_ok (year start) (month start) (day start) && time_ok 0 0 0 0 = true).
  { apply datetime_ok_iff in Hs.
    change (datetime_ok (mk_datetime (year start) (month start) (day start) 0 0 0 0) = true).
    apply datetime_ok_iff. cbn. intuition lia. }
  rewrite Hz, Esub, Edays.
  assert (Hneg : (timestamp_us end_ - timestamp_us start) / 86400000000 <= -1)
    by (Z.div_mod_to_equations; lia).
  unfold range.
  replace (Z.to_nat (((timestamp_us end_ - timestamp_us start) / 86400000000 + 1) * 4))
    with 0%nat by lia.
  reflexivity.
Qed.

(** X6.  When [end] lies before [start], [six_hour_aligned_dates] yields
    nothing and raises nothing: the elapsed days are negative and the
    range is empty. *)
Theorem six_hour_aligned_dates_backwards (start end_ : datetime) :
  datetime_ok start = true -> datetime_ok end_ = true ->
  timestamp_us end_ < timestamp_us start ->
  six_hour_aligned_dates start end_ = []
  /\ exists delta, datetime_sub end_ start = Ok delta /\ days delta < 0.
Proof.
  intros Hs He Hlt. split; [now apply six_hour_aligned_dates_backwards_eq|].
  destruct (datetime_sub_days end_ start He Hs) as (delta & Esub & Edays).
  exists delta. split; [exact Esub|]. rewrite Edays.
  Z.div_mod_to_equations. lia.
Qed.

(** Whatever the order of the two timestamps, every item of the generator
    is a valid timestamp. *)
Lemma aligned_dates_valid (start end_ : datetime) (r : result datetime) :
  datetime_ok start = true -> datetime_ok end_ = true ->
  In r (six_hour_aligned_dates start end_) ->
  exists d, r = Ok d /\ datetime_ok d = true.
Proof.
  intros Hs He Hin.
  destruct (Z.le_gt_cases (timestamp_us start) (timestamp_us end_)) as [Hle|Hgt].
  - destruct (aligned_dates_items start end_ Hs He Hle) as (_ & _ & _ & Hlen & Hitem).
    apply In_nth_error in Hin. destruct Hin as (n & Hn).
    assert (Hlt : (n < List.length (six_hour_aligned_dates start end_))%nat)
      by (apply nth_error_Some; congruence).
    destruct (Hitem (Z.of_nat n) ltac:(lia)) as (t & Et & Hok & _).
    rewrite Nat2Z.id, Hn in Et. injection Et as ->. now exists t.
  - rewrite six_hour_aligned_dates_backwards_eq in Hin by assumption. destruct Hin.
Qed.

(** ** Grid Resolver: the points of the grid and what lies outside *)

Lemma NC_LON_nth (k : Z) :
  0 <= k < 144 -> nth_error NC_LON (Z.to_nat k) = Some (0 + (5 # 2) * inject_Z k)%Q.
Proof.
  intros Hk. unfold NC_LON. now rewrite nth_error_map, range_nth_error.
Qed.

Lemma NC_LAT_item (i : nat) (p : Q) :
  nth_error NC_LAT i = Some p ->
  (i < 73)%nat /\ p = (90 - (5 # 2) * inject_Z (Z.of_nat i))%Q.
Proof.
  intros H.
  assert (Hi : (i < 73)%nat).
  { apply (f_equal (fun o => match o with Some _ => true | None => false end)) in H.
    destruct (Nat.lt_ge_cases i 73) as [|Hge]; [assumption|].
    assert (E : nth_error NC_LAT i = None).
    { apply nth_error_None. unfold NC_LAT. rewrite length_map, range_length. lia. }
    rewrite E in H. discriminate. }
  split; [exact Hi|].
  pose proof (NC_LAT_nth (Z.of_nat i) ltac:(lia)) as E. rewrite Nat2Z.id in E.
  congruence.
Qed.

Lemma NC_LON_item (j : nat) (q : Q) :
  nth_error NC_LON j = Some q ->
  (j < 144)%nat /\ q = (0 + (5 # 2) * inject_Z (Z.of_nat j))%Q.
Proof.
  intros H.
  assert (Hj : (j < 144)%nat).
  { destruct (Nat.lt_ge_cases j 144) as [|Hge]; [assumption|].
    assert (E : nth_error NC_LON j = None).
    { apply nth_error_None. unfold NC_LON. rewrite length_map, range_length. lia. }
    rewrite E in H. discriminate. }
  split; [exact Hj|].
  pose proof (NC_LON_nth (Z.of_nat j) ltac:(lia)) as E. rewrite Nat2Z.id in E.
  congruence.
Qed.

Lemma inject_nat_lt (i j : nat) :
  (i < j)%nat <-> (inject_Z (Z.of_nat i) < inject_Z (Z.of_nat j))%Q.
Proof. rewrite <- Zlt_Qlt. lia. Qed.

Lemma inject_nat_le (i j : nat) :
  (i <= j)%nat <-> (inject_Z (Z.of_nat i) <= inject_Z (Z.of_nat j))%Q.
Proof. rewrite <- Zle_Qle. lia. Qed.

Lemma Qabs_bounds (x y : Q) : (Qabs x <= y)%Q <-> (- y <= x <= y)%Q.
Proof. apply Qabs_Qle_condition. Qed.

Lemma Qabs_ge (x : Q) : (x <= Qabs x)%Q /\ (- x <= Qabs x)%Q.
Proof.
  split; [apply Qle_Qabs|]. rewrite <- Qabs_opp. apply Qle_Qabs.
Qed.


(** X8.  A latitude outside the grid is clamped, not refused: at or beyond
    the north pole it resolves to index 0 (90.0); from the south pole down
    to -2^52, where consecutive floats are still less than a grid step
    apart, to index 72 (-90.0). *)
Theorem latitude_out_of_range_clamped (query : Q) :
  (- inject_Z (2 ^ 52) <= query <= -90 \/ 90 <= query)%Q ->
  Binary64.approximate_position NC_LAT (Some query) None
  = Ok (if Qle_bool 90 query then 0%nat else 72%nat).
Proof.
  intros Hq.
  destruct (binary64_nearest_index NC_LAT query ltac:(discriminate))
    as (i & p & E & Hp & Hmin & Hfirst).
  rewrite E. f_equal.
  destruct (NC_LAT_item i p Hp) as [Hi ->].
  pose proof (proj1 (inject_nat_lt i 73) Hi) as Hi'.
  change (inject_Z (Z.of_nat 73)) with 73%Q in Hi'.
  assert (Hi0 : (0 <= inject_Z (Z.of_nat i))%Q)
    by (change 0%Q with (inject_Z (Z.of_nat 0)); apply inject_nat_le; lia).
  destruct (Qle_bool 90 query) eqn:B.
  - (* north: the first point is the nearest, and the differences grow *)
    apply Qle_bool_iff in B.
    destruct (Nat.eq_dec i 0) as [|Hne]; [assumption | exfalso].
    pose proof (Hfirst 0%nat _ ltac:(lia) (NC_LAT_nth 0 ltac:(lia))) as H.
    change (inject_Z 0) with 0%Q in H.
    apply (Qlt_not_le _ _ H). apply Binary64Facts.key_mono.
    rewrite (Qabs_neg (90 - (5 # 2) * 0 - query)) by lra.
    rewrite (Qabs_neg (90 - (5 # 2) * inject_Z (Z.of_nat i) - query)) by lra.
    lra.
  - (* south: an integer separates the nearest difference from the others *)
    assert (Hs : (- inject_Z (2 ^ 52) <= query <= -90)%Q).
    { destruct Hq as [|Hn]; [assumption|].
      apply Qle_bool_iff in Hn. congruence. }
    destruct Hs as [Hlo Hhi].
    destruct (Nat.eq_dec i 72) as [|Hne]; [assumption | exfalso].
    assert (Hi72 : (inject_Z (Z.of_nat i) <= 71)%Q).
    { change 71%Q with (inject_Z (Z.of_nat 71)). apply inject_nat_le. lia. }
    pose proof (Hmin 72%nat _ (NC_LAT_nth 72 ltac:(lia))) as H.
    change (inject_Z 72) with 72%Q in H.
    set (m := Qfloor (- 90 - query) + 1).
    pose proof (Qlt_floor (- 90 - query)) as Fhi. fold m in Fhi.
    pose proof (Qfloor_le (- 90 - query)) as Flo.
    assert (Em : (inject_Z (m + 1) == inject_Z (Qfloor (- 90 - query)) + 2)%Q).
    { unfold m. rewrite !inject_Z_plus. change (inject_Z 1) with 1%Q. lra. }
    assert (Em' : (inject_Z m == inject_Z (Qfloor (- 90 - query)) + 1)%Q).
    { unfold m. rewrite inject_Z_plus. reflexivity. }
    assert (Hm : 0 <= Qfloor (- 90 - query) <= 2 ^ 52).
    { split.
      - change 0 with (Qfloor 0). apply Qfloor_resp_le. lra.
      - rewrite <- (Qfloor_Z (2 ^ 52)). apply Qfloor_resp_le. lra. }
    assert (P : 2 ^ 52 + 2 < 2 ^ 53) by (vm_compute; reflexivity).
    assert (K72 : (Qabs (Binary64.sub (90 - (5 # 2) * 72) query) <= inject_Z m)%Q).
    { apply key_le_float.
      - lra.
      - apply Binary64Facts.round_magnitude_int. unfold m. lia.
      - apply Qabs_bounds. lra. }
    assert (Ki : (inject_Z (m + 1)
                  <= Qabs (Binary64.sub (90 - (5 # 2) * inject_Z (Z.of_nat i)) query))%Q).
    { apply key_ge_float.
      - lra.
      - apply Binary64Facts.round_magnitude_int. unfold m. lia.
      - eapply Qle_trans; [|apply Qle_Qabs]. lra. }
    lra.
Qed.

(** X9.  The longitude axis is not treated as a circle: a longitude in
    [-3.5, 0), looked up as the float [360 + lon], resolves to the last
    column (index 143, 357.5), also where column 0 (0.0, the same
    meridian as 360.0) is nearer.  The range does not extend to all of
    (-3.75, 0): for the float next above -3.75 the sum rounds to 356.25,
    half way between two columns, and the first of them (index 142) is
    returned. *)
Theorem longitude_no_wraparound (lon : Q) :
  (- (7 # 2) <= lon < 0)%Q ->
  Binary64.approximate_position NC_LON None (Some lon) = Ok 143%nat
  /\ nth_error NC_LON 143 = Some (0 + (5 # 2) * 143)%Q
  /\ Binary64.approximate_position NC_LON None
       (Some (- (8444249301319679 # 2251799813685248))%Q) = Ok 142%nat.
Proof.
  intros [Hlo Hhi]. split; [|split; [exact (NC_LON_nth 143 ltac:(lia))|]].
  2:{ vm_compute. reflexivity. }
  assert (Hneg : Qle_bool 0 lon = false).
  { destruct (Qle_bool 0 lon) eqn:B; [|reflexivity].
    apply Qle_bool_iff in B. lra. }
  replace (Binary64.approximate_position NC_LON None (Some lon))
    with (Binary64.approximate_position NC_LON (Some (Binary64.add 360 lon)) None)
    by (unfold Binary64.approximate_position; now rewrite Hneg).
  set (c := Binary64.add 360 lon).
  (* the float 360 + lon lies between the floats 356.5 and 360 *)
  assert (Hc : (713 # 2 <= c <= 360)%Q).
  { unfold c, Binary64.add. split.
    - assert (F : (Binary64.round (713 # 2) == 713 # 2)%Q)
        by (vm_compute; reflexivity).
      apply Qle_trans with (Binary64.round (713 # 2)); [rewrite F; apply Qle_refl|].
      apply Binary64Facts.round_nonneg_mono; lra.
    - assert (F : (Binary64.round 360 == 360)%Q) by (vm_compute; reflexivity).
      apply Qle_trans with (Binary64.round 360); [|rewrite F; apply Qle_refl].
      apply Binary64Facts.round_nonneg_mono; lra. }
  destruct (binary64_nearest_index NC_LON c ltac:(discriminate))
    as (j & q & E & Hq & Hmin & _).
  rewrite E. f_equal.
  destruct (NC_LON_item j q Hq) as [Hj ->].
  destruct (Nat.eq_dec j 143) as [|Hne]; [assumption | exfalso].
  assert (Hj142 : (inject_Z (Z.of_nat j) <= 142)%Q).
  { change 142%Q with (inject_Z (Z.of_nat 142)). apply inject_nat_le. lia. }
  pose proof (Hmin 143%nat _ (NC_LON_nth 143 ltac:(lia))) as H.
  change (inject_Z 143) with 143%Q in H.
  assert (F1 : (Binary64.round_magnitude 1 == 1)%Q) by (vm_compute; reflexivity).
  assert (F2 : (Binary64.round_magnitude (3 # 2) == 3 # 2)%Q)
    by (vm_compute; reflexivity).
  assert (F3 : (Binary64.round_magnitude (5 # 4) == 5 # 4)%Q)
    by (vm_compute; reflexivity).
  assert (F4 : (Binary64.round_magnitude (5 # 2) == 5 # 2)%Q)
    by (vm_compute; reflexivity).
  assert (F5 : (Binary64.round_magnitude (15 # 4) == 15 # 4)%Q)
    by (vm_compute; reflexivity).
  set (kj := Qabs (Binary64.sub (0 + (5 # 2) * inject_Z (Z.of_nat j)) c)) in *.
  set (k143 := Qabs (Binary64.sub (0 + (5 # 2) * 143) c)) in *.
  destruct (Qlt_le_dec (1430 # 4) c) as [L|L].
  - destruct (Qlt_le_dec (1435 # 4) c) as [M|M].
    + assert (A : (k143 <= 5 # 2)%Q).
      { apply key_le_float; [lra | exact F4 | apply Qabs_bounds; lra]. }
      assert (B : (15 # 4 <= kj)%Q).
      { apply key_ge_float; [lra | exact F5 |].
        rewrite Qabs_neg by lra. lra. }
      lra.
    + assert (A : (k143 <= 5 # 4)%Q).
      { apply key_le_float; [lra | exact F3 | apply Qabs_bounds; lra]. }
      assert (B : (5 # 2 <= kj)%Q).
      { apply key_ge_float; [lra | exact F4 |].
        rewrite Qabs_neg by lra. lra. }
      lra.
  - assert (A : (k143 <= 1)%Q).
    { apply key_le_float; [lra | exact F1 | apply Qabs_bounds; lra]. }
    assert (B : (3 # 2 <= kj)%Q).
    { apply key_ge_float; [lra | exact F2 |].
      rewrite Qabs_neg by lra. lra. }
    lra.
Qed.

(** ** The run as a whole *)

Lemma io_bind_fst {A B : Type} (m : IO A) (f : A -> IO B) :
  fst (io_bind m f)
  = fst m ++ match snd m with Ok a => fst (f a) | Raise _ => [] end.
Proof.
  destruct m as [log [x|e]]; cbn [io_bind fst snd].
  - now destruct (f x).
  - now rewrite app_nil_r.
Qed.

Lemma sample_date_log (ds : dataset num) (lat_i lon_i : nat) (date : datetime)
      (nc_data : list (list num)) :
  fst (sample_date ds lat_i lon_i date nc_data) = [EvReadSlice (tm_yday date * 4 - 1)].
Proof.
  unfold sample_date. cbv zeta. rewrite io_bind_fst. cbn [io_emit fst snd app].
  f_equal. rewrite io_bind_fst. cbn [io_lift fst snd app].
  destruct (nc_getitem ds (tm_yday date * 4 - 1)) as [air|]; [|reflexivity].
  rewrite io_bind_fst. cbn [io_lift fst snd app].
  now destruct (append_at 0 (lvl_1013 air lat_i lon_i) nc_data).
Qed.

(** Whatever its outcome, the sampler reads one slice per timestamp it
    takes up, at the index [tm_yday * 4 - 1]. *)
Lemma sample_dates_log (ds : dataset num) (lat_i lon_i : nat)
      (dates : list (result datetime)) :
  forall (st : sampler_state) (e : event),
    In e (fst (sample_dates ds lat_i lon_i dates st)) ->
    exists d, In (Ok d) dates /\ e = EvReadSlice (tm_yday d * 4 - 1).
Proof.
  induction dates as [|next rest IH]; intros st e; cbn [sample_dates].
  - intros [].
  - rewrite io_bind_fst. cbn [io_lift fst snd app].
    destruct next as [date|err]; [|intros []].
    destruct st as [nc_data processed_dates].
    destruct (existsb (datetime_eqb date) processed_dates).
    + intros H. destruct (IH _ _ H) as (d & Hd & ->). exists d. split; [now right | reflexivity].
    + rewrite io_bind_fst, sample_date_log. cbn [app].
      intros [<- | H]; [exists date; split; [now left | reflexivity]|].
      destruct (snd (sample_date ds lat_i lon_i date nc_data)); [|destruct H].
      destruct (IH _ _ H) as (d & Hd & ->). exists d. split; [now right | reflexivity].
Qed.

Lemma sample_locations_log (ds : dataset num) (locs : list loc_info) :
  forall (st : sampler_state) (e : event),
    In e (fst (sample_locations ds locs st)) ->
    exists loc d,
      In loc locs
      /\ In (Ok d) (six_hour_aligned_dates (start_date loc) (end_date loc))
      /\ e = EvReadSlice (tm_yday d * 4 - 1).
Proof.
  induction locs as [|loc rest IH]; intros st e; cbn [sample_locations].
  - intros [].
  - rewrite io_bind_fst. intros H. apply in_app_or in H. destruct H as [H|H].
    + destruct (sample_dates_log _ _ _ _ _ _ H) as (d & Hd & ->).
      exists loc, d. split; [now left | now split].
    + destruct (snd (sample_dates _ _ _ _ _)); [|destruct H].
      destruct (IH _ _ H) as (loc' & d & Hl & Hd & ->).
      exists loc', d. split; [now right | now split].
Qed.

Lemma by_date_In_get {V : Type} (d : datetime) (v : V) (tbl : dict datetime V) :
  NoDup (dict_keys tbl) -> In (d, v) tbl -> dict_get datetime_eqb d tbl = Some v.
Proof.
  induction tbl as [|[k w] tbl IH]; cbn; intros Hnd Hin; [destruct Hin|].
  inversion Hnd as [|? ? Hk Hnd']; subst.
  destruct Hin as [[= -> ->] | Hin].
  - now rewrite datetime_eqb_refl.
  - destruct (datetime_eqb k d) eqn:E.
    + apply datetime_eqb_eq in E. subst k. exfalso. apply Hk.
      unfold dict_keys. apply in_map_iff. now exists (d, v).
    + now apply IH.
Qed.

(** Every timestamp of [trip_by_date] refers to a group that exists. *)
Lemma trip_groups_exist (lines : list trip_line) (t : trip)
      (date : datetime) (loc : location) :
  read_trip lines = Ok t -> In (date, loc) (trip_by_date t) ->
  exists g, dict_get location_eqb loc (trip_by_location t) = Some g.
Proof.
  intros Ht Hin.
  destruct (read_trip_inv lines t Ht) as (_ & Hnd & _ & Hget & _ & _ & Hnone & _).
  pose proof (by_date_In_get date loc _ Hnd Hin) as E. rewrite Hget in E.
  apply last_location_In in E.
  destruct (dict_get location_eqb loc (trip_by_location t)) as [g|] eqn:G; [now exists g|].
  apply Hnone in G. exfalso.
  assert (Hd : In date (dates_at loc (trip_samples lines))).
  { unfold dates_at. apply in_map_iff. exists (date, loc). split; [reflexivity|].
    apply filter_In. split; [exact E|]. apply location_eqb_refl. }
  rewrite G in Hd. destruct Hd.
Qed.

Lemma write_rows_total (t : trip) (rows : list ((datetime * location) * list num)) :
  (forall date loc levels, In ((date, loc), levels) rows ->
     (exists g, dict_get location_eqb loc (trip_by_location t) = Some g)
     /\ (18 <= List.length levels)%nat) ->
  exists rows_log, write_rows t rows = (rows_log, Ok tt).
Proof.
  induction rows as [|[[date loc] levels] rows IH]; intros H; cbn [write_rows].
  - now exists [].
  - destruct (H date loc levels (or_introl eq_refl)) as ((g & Hg) & Hlen).
    destruct IH as (rows_log & E); [intros d l v Hin; apply (H d l v); now right|].
    unfold row_fields. rewrite Hg. cbn [io_lift io_bind].
    unfold OUT_FILE_LINE_format.
    match goal with
    | |- context [Nat.ltb ?x ?y] => destruct (Nat.ltb_spec x y) as [Hlt|_]
    end.
    { rewrite length_app, length_map in Hlt. cbn in Hlt. unfold OUT_FILE_FIELDS in Hlt. lia. }
    cbn [io_lift io_bind io_emit app]. rewrite E. eexists. reflexivity.
Qed.

(** The course of a run, stage by stage: where it can stop, with which
    exception, and what it has done by then.  Once the interpolation has
    succeeded nothing can fail any more. *)
Lemma main_stages (a : args) (lines : list trip_line)
      (nc_open : string -> result (dataset num)) :
  main a lines nc_open
  = let nc_file_year := string_filter isdigit (nc_file a) in
    if String.eqb nc_file_year EmptyString
    then ([], Raise (ValueError "NC_FILE's filename should contain a year"))
    else
      match read_trip lines with
      | Raise e => ([], Raise e)
      | Ok t =>
          match trip_end_date t with
          | None => ([], Raise (SystemExit 1))
          | Some trip_end =>
              if negb (year trip_end =? int_of_digits nc_file_year)
              then ([], Raise (ValueError "Trip should be in boundaries of NC_FILE"))
              else
                match nc_open (nc_file a) with
                | Raise e => ([EvOpenDataset (nc_file a)], Raise e)
                | Ok ds =>
                    match sample_locations ds (dict_values (trip_by_location t))
                                           initial_state with
                    | (slog, Raise e) => (EvOpenDataset (nc_file a) :: slog, Raise e)
                    | (slog, Ok (nc_data, processed_dates)) =>
                        if negb (expected_samples (List.length (trip_by_date t))
                                 =? Z.of_nat (List.length processed_dates))
                        then (EvOpenDataset (nc_file a) :: slog, Raise AssertionError)
                        else
                          match calc_hourly nc_data with
                          | Raise e => (EvOpenDataset (nc_file a) :: slog, Raise e)
                          | Ok hourly =>
                              (EvOpenDataset (nc_file a)
                                 :: slog
                                 ++ EvOpenOut (match out_file a with
                                               | Some f => f
                                               | None => default_out_file a
                                               end)
                                 :: EvWrite (String.append
                                               (String.concat OUT_FILE_SEP header_fields)
                                               newline)
                                 :: fst (write_rows t (zip_star (trip_by_date t) hourly)),
                               Ok tt)
                          end
                    end
                end
          end
      end.
Proof.
  cbv zeta. unfold main. cbv zeta.
  destruct (String.eqb (string_filter isdigit (nc_file a)) EmptyString) eqn:Ey;
    [reflexivity|].
  destruct (read_trip lines) as [t|e] eqn:Ht; cbn [io_lift io_bind]; [|reflexivity].
  destruct (trip_end_date t) as [trip_end|] eqn:Eend; [|reflexivity].
  destruct (negb (year trip_end =? int_of_digits (string_filter isdigit (nc_file a))));
    [reflexivity|].
  cbn [io_emit io_bind].
  destruct (nc_open (nc_file a)) as [ds|e] eqn:Hds; cbn [io_lift io_bind app];
    [|reflexivity].
  destruct (sample_locations ds (dict_values (trip_by_location t)) initial_state)
    as [slog [[nc_data processed_dates]|e]] eqn:Hs; cbn [io_bind app]; [|reflexivity].
  destruct (sampler_run ds _ slog nc_data processed_dates Hs)
    as (plan & -> & -> & _).
  unfold nth_or_IndexError at 1. rewrite series_of_nth by lia.
  cbn [io_lift io_bind app]. rewrite !length_map.
  destruct (negb (expected_samples (List.length (trip_by_date t))
                  =? Z.of_nat (List.length plan)));
    [cbn [io_raise]; now rewrite app_nil_r|].
  destruct (calc_hourly (series_of plan)) as [hourly|e] eqn:Hh; cbn [io_lift io_bind app];
    [|now rewrite app_nil_r].
  assert (Hhead : OUT_FILE_LINE_format header_fields
                  = Ok (String.append (String.concat OUT_FILE_SEP header_fields) newline))
    by reflexivity.
  rewrite Hhead. cbn [io_emit io_lift io_bind app].
  destruct (write_rows_total t (zip_star (trip_by_date t) hourly)) as (rows_log & Hw).
  { intros date loc levels Hin.
    destruct (calc_hourly_inv _ _ Hh) as (d0 & _ & _ & _ & Ehourly).
    assert (Hne : hourly <> []).
    { rewrite Ehourly. intros E. apply map_eq_nil in E.
      pose proof (series_of_length plan) as L. rewrite E in L. discriminate. }
    assert (Hser : forall col, In col hourly ->
                     List.length col = Z.to_nat (6 * Z.of_nat (List.length d0) - 5)).
    { intros col Hc. rewrite Ehourly in Hc. apply in_map_iff in Hc.
      destruct Hc as (row & <- & _). now rewrite length_map, range_length. }
    destruct (zip_star_spec (trip_by_date t) hourly _ Hne Hser) as (_ & Znth).
    destruct (In_nth_error _ _ Hin) as (k & Hk).
    destruct (Znth k (date, loc) levels Hk) as (Hitem & Hlev).
    split.
    - apply (trip_groups_exist lines t date loc Ht). eapply nth_error_In; eauto.
    - rewrite <- (Forall2_length Hlev), Ehourly, length_map, series_of_length. lia. }
  rewrite Hw. reflexivity.
Qed.

Lemma write_rows_log (t : trip) (rows : list ((datetime * location) * list num)) :
  forall e, In e (fst (write_rows t rows)) -> exists line, e = EvWrite line.
Proof.
  induction rows as [|[[date loc] levels] rows IH]; intros e; cbn [write_rows].
  - intros [].
  - rewrite io_bind_fst. cbn [io_lift fst snd app].
    destruct (row_fields t date loc levels) as [fields|]; [|intros []].
    rewrite io_bind_fst. cbn [io_lift fst snd app].
    destruct (OUT_FILE_LINE_format fields) as [line|]; [|intros []].
    rewrite io_bind_fst. cbn [io_emit fst snd app].
    intros [<- | H]; [now exists line | now apply IH].
Qed.

(** The two timestamps a group records are valid timestamps. *)
Lemma group_dates_valid (lines : list trip_line) (t : trip) (g : loc_info) :
  read_trip lines = Ok t -> In g (dict_values (trip_by_location t)) ->
  datetime_ok (start_date g) = true /\ datetime_ok (end_date g) = true.
Proof.
  intros Ht Hg. unfold dict_values in Hg. apply in_map_iff in Hg.
  destruct Hg as ([k g'] & E & Hkg). cbn in E. subst g'.
  destruct (read_trip_inv lines t Ht) as (_ & _ & _ & _ & _ & Hnd & _ & G & _).
  pose proof (dict_nodup_In_get location_eqb location_eqb_refl location_eqb_sym
                location_eqb_trans k g _ Hnd Hkg) as Hget.
  destruct (G k g Hget) as (_ & Hfirst & Hlast & _).
  assert (Hok : forall d, In d (dates_at k (trip_samples lines)) -> datetime_ok d = true).
  { intros d Hd. unfold dates_at in Hd. apply in_map_iff in Hd.
    destruct Hd as (s & <- & Hs). apply filter_In in Hs.
    apply (trip_samples_ok lines). apply Hs. }
  destruct (dates_at k (trip_samples lines)) as [|d0 dates] eqn:E; [discriminate|].
  injection Hfirst as ->. split; [apply Hok; now left|].
  rewrite <- Hlast.
  destruct (exists_last (l := start_date g :: dates) ltac:(discriminate))
    as (l' & x & El). rewrite El, last_last. apply Hok. rewrite El.
  apply in_or_app. right. now left.
Qed.

Lemma tm_yday_year (d : datetime) :
  datetime_ok d = true ->
  1 <= tm_yday d <= 365 + (if is_leap (year d) then 1 else 0).
Proof.
  rewrite datetime_ok_iff. intros ((Hy & Hm & Hd) & _).
  pose proof (ymd2ord_bounds _ _ _ Hm Hd) as B.
  rewrite days_before_year_succ in B. unfold ymd2ord in B. unfold tm_yday.
  destruct (is_leap (year d)); lia.
Qed.

(** What a run has read of the dataset, whatever its outcome. *)
Lemma main_reads (a : args) (lines : list trip_line)
      (nc_open : string -> result (dataset num)) (i : Z) :
  In (EvReadSlice i) (fst (main a lines nc_open)) ->
  exists t g d,
    read_trip lines = Ok t
    /\ In g (dict_values (trip_by_location t))
    /\ In (Ok d) (six_hour_aligned_dates (start_date g) (end_date g))
    /\ datetime_ok d = true
    /\ i = tm_yday d * 4 - 1.
Proof.
  rewrite main_stages. cbv zeta.
  destruct (String.eqb _ _); [intros []|].
  destruct (read_trip lines) as [t|] eqn:Ht; [|intros []].
  destruct (trip_end_date t) as [trip_end|]; [|intros []].
  destruct (negb _); [intros []|].
  destruct (nc_open (nc_file a)) as [ds|]; [|intros [H|[]]; discriminate H].
  assert (Hs : In (EvReadSlice i)
                  (fst (sample_locations ds (dict_values (trip_by_location t)) initial_state))
               -> exists t0 g d,
                 Ok t = Ok t0
                 /\ In g (dict_values (trip_by_location t0))
                 /\ In (Ok d) (six_hour_aligned_dates (start_date g) (end_date g))
                 /\ datetime_ok d = true
                 /\ i = tm_yday d * 4 - 1).
  { intros H. destruct (sample_locations_log _ _ _ _ H) as (g & d & Hg & Hd & [= ->]).
    destruct (group_dates_valid lines t g Ht Hg) as [Hs He].
    destruct (aligned_dates_valid _ _ _ Hs He Hd) as (d' & [= <-] & Hok).
    exists t, g, d. auto. }
  destruct (sample_locations ds (dict_values (trip_by_location t)) initial_state)
    as [slog [[nc_data processed_dates]|e]]; cbn [fst] in *.
  2:{ intros [H|H]; [discriminate H | auto]. }
  assert (Hw : forall rows, ~ In (EvReadSlice i) (fst (write_rows t rows))).
  { intros rows H. destruct (write_rows_log t rows _ H) as (line & E). discriminate E. }
  destruct (negb _); [intros [H|H]; [discriminate H | auto]|].
  destruct (calc_hourly nc_data); [|intros [H|H]; [discriminate H | auto]].
  cbn [fst]. intros [H|H]; [discriminate H|].
  apply in_app_or in H. destruct H as [H|[H|[H|H]]]; auto; try discriminate H.
  now apply Hw in H.
Qed.

(** X10.  Whatever the trip and the outcome of the run, every slice index
    read from the dataset is [4 k - 1] for a day of the year [k]: it lies
    between 3 and 1463 and leaves the remainder 3 modulo 4.  So the slices
    0, 1 and 2 are never read, and no index is negative. *)
Theorem slice_indices (a : args) (lines : list trip_line)
        (nc_open : string -> result (dataset num)) (i : Z) :
  In (EvReadSlice i) (fst (main a lines nc_open)) ->
  3 <= i <= 1463 /\ i mod 4 = 3.
Proof.
  intros H. destruct (main_reads a lines nc_open i H) as (t & g & d & _ & _ & _ & Hok & ->).
  pose proof (tm_yday_range d Hok). split; [lia|].
  Z.div_mod_to_equations. lia.
Qed.

(** ** The output file *)

Lemma written_dataset_events (log : list event) :
  (forall ev, In ev log -> is_dataset_event ev = true) -> written log = [].
Proof.
  induction log as [|ev log IH]; intros H; [reflexivity|].
  cbn [written flat_map]. pose proof (H ev (or_introl eq_refl)) as Hev.
  destruct ev; try discriminate Hev; cbn [app]; apply IH; intros ev' H'; apply H; now right.
Qed.

Lemma written_writes (lines : list string) : written (map EvWrite lines) = lines.
Proof.
  induction lines as [|l lines IH]; [reflexivity|].
  cbn [map written flat_map app]. f_equal. exact IH.
Qed.

Lemma write_rows_lines (t : trip) (rows : list ((datetime * location) * list num)) :
  exists lines, fst (write_rows t rows) = map EvWrite lines.
Proof.
  pose proof (write_rows_log t rows) as H.
  induction (fst (write_rows t rows)) as [|e log IH].
  - now exists [].
  - destruct (H e (or_introl eq_refl)) as (line & ->).
    destruct IH as (lines & ->); [intros e He; apply H; now right|].
    now exists (line :: lines).
Qed.

(** After a successful interpolation the rows can all be built. *)
Lemma rows_total (lines : list trip_line) (t : trip) (plan : list sampled_point)
      (hourly : list (list num)) :
  read_trip lines = Ok t ->
  calc_hourly (series_of plan) = Ok hourly ->
  exists rows_log,
    write_rows t (zip_star (trip_by_date t) hourly) = (rows_log, Ok tt).
Proof.
  intros Ht Hh. apply write_rows_total.
  intros date loc levels Hin.
  destruct (calc_hourly_inv _ _ Hh) as (d0 & _ & _ & _ & Ehourly).
  assert (Hne : hourly <> []).
  { rewrite Ehourly. intros E. apply map_eq_nil in E.
    pose proof (series_of_length plan) as L. rewrite E in L. discriminate. }
  assert (Hser : forall col, In col hourly ->
                   List.length col = Z.to_nat (6 * Z.of_nat (List.length d0) - 5)).
  { intros col Hc. rewrite Ehourly in Hc. apply in_map_iff in Hc.
    destruct Hc as (row & <- & _). now rewrite length_map, range_length. }
  destruct (zip_star_spec (trip_by_date t) hourly _ Hne Hser) as (_ & Znth).
  destruct (In_nth_error _ _ Hin) as (k & Hk).
  destruct (Znth k (date, loc) levels Hk) as (Hitem & Hlev).
  split.
  - apply (trip_groups_exist lines t date loc Ht). eapply nth_error_In; eauto.
  - rewrite <- (Forall2_length Hlev), Ehourly, length_map, series_of_length. lia.
Qed.

(** The rows with writes that can fail: all of them are written, or the
    run stops at the first write that fails, with the writes before it
    done. *)
Lemma write_rows_from_cut (out_ok : nat -> bool) (t : trip)
      (rows : list ((datetime * location) * list num)) :
  forall (k : nat) (wlog : list event),
    write_rows t rows = (wlog, Ok tt) ->
    (write_rows_from out_ok k t rows = (wlog, Ok tt)
     /\ forall i, (i < List.length wlog)%nat -> out_ok (k + i)%nat = true)
    \/ exists n,
        (n < List.length wlog)%nat
        /\ write_rows_from out_ok k t rows = (firstn n wlog, Raise OSError)
        /\ out_ok (k + n)%nat = false
        /\ forall i, (i < n)%nat -> out_ok (k + i)%nat = true.
Proof.
  induction rows as [|[[date loc] levels] rows IH]; intros k wlog Hw.
  - cbn [write_rows] in Hw. injection Hw as <-. left. split; [reflexivity|].
    intros i Hi. cbn in Hi. lia.
  - cbn [write_rows write_rows_from] in *.
    destruct (row_fields t date loc levels) as [fields|]; [|discriminate].
    cbn [io_lift io_bind] in *.
    destruct (OUT_FILE_LINE_format fields) as [line|]; [|discriminate].
    cbn [io_lift io_bind io_emit app] in *.
    destruct (write_rows t rows) as [wl [[]|]] eqn:Er; [|discriminate].
    injection Hw as <-.
    unfold io_output. destruct (out_ok k) eqn:Ek.
    + cbn [io_emit io_bind app].
      destruct (IH (S k) wl eq_refl) as [[E Hall] | (n & Hn & E & Hf & Hall)].
      * left. rewrite E. split; [reflexivity|].
        intros [|i] Hi; [now rewrite Nat.add_0_r|].
        cbn [List.length] in Hi. replace (k + S i)%nat with (S k + i)%nat by lia.
        apply Hall. lia.
      * right. exists (S n). rewrite E. cbn [List.length firstn].
        split; [lia|]. split; [reflexivity|].
        split; [now replace (k + S n)%nat with (S k + n)%nat by lia|].
        intros [|i] Hi; [now rewrite Nat.add_0_r|].
        replace (k + S i)%nat with (S k + i)%nat by lia. apply Hall. lia.
    + right. exists 0%nat. cbn [io_raise io_bind firstn List.length].
      split; [lia|]. split; [reflexivity|].
      split; [now rewrite Nat.add_0_r|]. intros i Hi. lia.
Qed.

(** The course of a run whose output file can fail. *)
Lemma main_output_stages (out_ok : nat -> bool) (a : args) (lines : list trip_line)
      (nc_open : string -> result (dataset num)) :
  main_output out_ok a lines nc_open
  = let nc_file_year := string_filter isdigit (nc_file a) in
    if String.eqb nc_file_year EmptyString
    then ([], Raise (ValueError "NC_FILE's filename should contain a year"))
    else
      match read_trip lines with
      | Raise e => ([], Raise e)
      | Ok t =>
          match trip_end_date t with
          | None => ([], Raise (SystemExit 1))
          | Some trip_end =>
              if negb (year trip_end =? int_of_digits nc_file_year)
              then ([], Raise (ValueError "Trip should be in boundaries of NC_FILE"))
              else
                match nc_open (nc_file a) with
                | Raise e => ([EvOpenDataset (nc_file a)], Raise e)
                | Ok ds =>
                    match sample_locations ds (dict_values (trip_by_location t))
                                           initial_state with
                    | (slog, Raise e) => (EvOpenDataset (nc_file a) :: slog, Raise e)
                    | (slog, Ok (nc_data, processed_dates)) =>
                        if negb (expected_samples (List.length (trip_by_date t))
                                 =? Z.of_nat (List.length processed_dates))
                        then (EvOpenDataset (nc_file a) :: slog, Raise AssertionError)
                        else
                          match calc_hourly nc_data with
                          | Raise e => (EvOpenDataset (nc_file a) :: slog, Raise e)
                          | Ok hourly =>
                              let filename := match out_file a with
                                              | Some f => f
                                              | None => default_out_file a
                                              end in
                              let header := String.append
                                              (String.concat OUT_FILE_SEP header_fields)
                                              newline in
                              if negb (out_ok 0%nat)
                              then (EvOpenDataset (nc_file a) :: slog, Raise OSError)
                              else if negb (out_ok 1%nat)
                              then (EvOpenDataset (nc_file a) :: slog
                                      ++ [EvOpenOut filename], Raise OSError)
                              else
                                (EvOpenDataset (nc_file a)
                                   :: slog ++ EvOpenOut filename :: EvWrite header
                                   :: fst (write_rows_from out_ok 2 t
                                             (zip_star (trip_by_date t) hourly)),
                                 snd (write_rows_from out_ok 2 t
                                        (zip_star (trip_by_date t) hourly)))
                          end
                    end
                end
          end
      end.
Proof.
  cbv zeta. unfold main_output. cbv zeta.
  destruct (String.eqb (string_filter isdigit (nc_file a)) EmptyString) eqn:Ey;
    [reflexivity|].
  destruct (read_trip lines) as [t|e] eqn:Ht; cbn [io_lift io_bind]; [|reflexivity].
  destruct (trip_end_date t) as [trip_end|] eqn:Eend; [|reflexivity].
  destruct (negb (year trip_end =? int_of_digits (string_filter isdigit (nc_file a))));
    [reflexivity|].
  cbn [io_emit io_bind].
  destruct (nc_open (nc_file a)) as [ds|e] eqn:Hds; cbn [io_lift io_bind app];
    [|reflexivity].
  destruct (sample_locations ds (dict_values (trip_by_location t)) initial_state)
    as [slog [[nc_data processed_dates]|e]] eqn:Hs; cbn [io_bind app]; [|reflexivity].
  destruct (sampler_run ds _ slog nc_data processed_dates Hs)
    as (plan & -> & -> & _).
  unfold nth_or_IndexError at 1. rewrite series_of_nth by lia.
  cbn [io_lift io_bind app]. rewrite !length_map.
  destruct (negb (expected_samples (List.length (trip_by_date t))
                  =? Z.of_nat (List.length plan)));
    [cbn [io_raise]; now rewrite app_nil_r|].
  destruct (calc_hourly (series_of plan)) as [hourly|e] eqn:Hh; cbn [io_lift io_bind app];
    [|now rewrite app_nil_r].
  assert (Hhead : OUT_FILE_LINE_format header_fields
                  = Ok (String.append (String.concat OUT_FILE_SEP header_fields) newline))
    by reflexivity.
  rewrite Hhead. unfold io_output at 1 2.
  destruct (out_ok 0%nat); cbn [negb io_raise io_emit io_lift io_bind app];
    [|now rewrite app_nil_r].
  destruct (out_ok 1%nat); cbn [negb io_raise io_emit io_lift io_bind app];
    [|reflexivity].
  destruct (write_rows_from out_ok 2 t (zip_star (trip_by_date t) hourly)) as [wl r].
  reflexivity.
Qed.

Lemma write_rows_from_succeeding (t : trip)
      (rows : list ((datetime * location) * list num)) (k : nat) :
  write_rows_from (fun _ => true) k t rows = write_rows t rows.
Proof.
  revert k. induction rows as [|[[date loc] levels] rows IH]; intros k; [reflexivity|].
  cbn [write_rows write_rows_from].
  destruct (row_fields t date loc levels) as [fields|]; [|reflexivity].
  cbn [io_lift io_bind].
  destruct (OUT_FILE_LINE_format fields) as [line|]; [|reflexivity].
  cbn [io_lift io_bind]. unfold io_output. now rewrite IH.
Qed.

(** X11.  The output file is opened only after the trip was read, the
    dataset sampled, the sanity check passed and the interpolation done.
    A run that ends in an exception has either not opened the output file
    and written nothing, or it has failed with the [OSError] of a write
    to the output file, which then holds the lines written before that
    write: fewer lines than the report of the run in which every
    operation on the output file succeeds.  That run is the one of
    [main]. *)
Theorem failed_run_output_file (out_ok : nat -> bool) (a : args)
        (lines : list trip_line) (nc_open : string -> result (dataset num)) (e : exn) :
  main_output (fun _ => true) a lines nc_open = main a lines nc_open
  /\ (snd (main_output out_ok a lines nc_open) = Raise e ->
      ((forall ev, In ev (fst (main_output out_ok a lines nc_open)) ->
                   is_dataset_event ev = true)
       /\ written (fst (main_output out_ok a lines nc_open)) = [])
      \/ (e = OSError
          /\ snd (main a lines nc_open) = Ok tt
          /\ exists n,
              (n < List.length (written (fst (main a lines nc_open))))%nat
              /\ written (fst (main_output out_ok a lines nc_open))
                 = firstn n (written (fst (main a lines nc_open)))
              /\ out_ok (S n) = false
              /\ forall i, (i <= n)%nat -> out_ok i = true)).
Proof.
  rewrite !main_output_stages, main_stages. cbv zeta.
  assert (early : forall log : list event,
             (forall ev, In ev log -> is_dataset_event ev = true) ->
             (forall ev, In ev log -> is_dataset_event ev = true) /\ written log = []).
  { intros log H. split; [exact H | now apply written_dataset_events]. }
  destruct (String.eqb _ _).
  { split; [reflexivity|]. intros _. left. apply early. intros ev []. }
  destruct (read_trip lines) as [t|] eqn:Ht.
  2:{ split; [reflexivity|]. intros _. left. apply early. intros ev []. }
  destruct (trip_end_date t) as [trip_end|].
  2:{ split; [reflexivity|]. intros _. left. apply early. intros ev []. }
  destruct (negb _).
  { split; [reflexivity|]. intros _. left. apply early. intros ev []. }
  destruct (nc_open (nc_file a)) as [ds|].
  2:{ split; [reflexivity|]. intros _. left. apply early.
      intros ev [<-|[]]. reflexivity. }
  pose proof (sample_locations_log ds (dict_values (trip_by_location t)) initial_state)
    as Hlog.
  destruct (sample_locations ds (dict_values (trip_by_location t)) initial_state)
    as [slog [[nc_data processed_dates]|e']] eqn:Hs; cbn [fst] in Hlog.
  2:{ split; [reflexivity|]. intros _. left. apply early.
      intros ev [<-|Hev]; [reflexivity|].
      destruct (Hlog ev Hev) as (g & d & _ & _ & ->). reflexivity. }
  assert (Hds : forall ev, In ev (EvOpenDataset (nc_file a) :: slog) ->
                           is_dataset_event ev = true).
  { intros ev [<-|Hev]; [reflexivity|].
    destruct (Hlog ev Hev) as (g & d & _ & _ & ->). reflexivity. }
  destruct (negb _).
  { split; [reflexivity|]. intros _. left. now apply early. }
  destruct (calc_hourly nc_data) as [hourly|] eqn:Hh.
  2:{ split; [reflexivity|]. intros _. left. now apply early. }
  destruct (sampler_run ds _ slog nc_data processed_dates Hs) as (plan & Enc & _).
  rewrite Enc in Hh.
  destruct (rows_total lines t plan hourly Ht Hh) as (wlog & Hw).
  set (rows := zip_star (trip_by_date t) hourly) in *.
  set (filename := match out_file a with Some f => f | None => default_out_file a end).
  set (header := String.append (String.concat OUT_FILE_SEP header_fields) newline).
  destruct (write_rows_lines t rows) as (rlines & Erl).
  rewrite Hw in Erl. cbn [fst] in Erl. subst wlog.
  assert (Wfull : written (EvOpenDataset (nc_file a)
                             :: slog ++ EvOpenOut filename :: EvWrite header
                             :: map EvWrite rlines)
                  = header :: rlines).
  { change (EvOpenDataset (nc_file a) :: slog ++ ?l)
      with ((EvOpenDataset (nc_file a) :: slog) ++ l).
    rewrite written_app, (written_dataset_events _ Hds).
    cbn [app written flat_map]. f_equal. apply written_writes. }
  split.
  { cbn [negb]. rewrite write_rows_from_succeeding, Hw. reflexivity. }
  rewrite Hw. cbn [fst snd]. rewrite Wfull.
  destruct (out_ok 0%nat) eqn:E0; cbn [negb fst snd].
  2:{ intros _. left. now apply early. }
  destruct (out_ok 1%nat) eqn:E1; cbn [negb fst snd].
  2:{ intros [= <-]. right. split; [reflexivity|]. split; [reflexivity|].
      exists 0%nat. cbn [List.length firstn]. split; [lia|]. split.
      - change (EvOpenDataset (nc_file a) :: slog ++ ?l)
          with ((EvOpenDataset (nc_file a) :: slog) ++ l).
        rewrite written_app, (written_dataset_events _ Hds). reflexivity.
      - split; [exact E1|]. intros i Hi. now replace i with 0%nat by lia. }
  destruct (write_rows_from_cut out_ok t rows 2 _ Hw)
    as [[E _] | (n & Hn & E & Hf & Hall)]; rewrite E; cbn [fst snd].
  { discriminate. }
  intros [= <-]. right. split; [reflexivity|]. split; [reflexivity|].
  rewrite length_map in Hn.
  exists (S n). cbn [List.length firstn]. split; [lia|]. split.
  - change (EvOpenDataset (nc_file a) :: slog ++ ?l)
      with ((EvOpenDataset (nc_file a) :: slog) ++ l).
    rewrite written_app, (written_dataset_events _ Hds).
    cbn [app written flat_map]. f_equal.
    rewrite firstn_map. apply written_writes.
  - split; [exact Hf|]. intros [|[|i]] Hi; [exact E0 | exact E1 |].
    apply (Hall i). lia.
Qed.

Lemma last_matched_end_date (lines : list trip_line) (t : trip) :
  read_trip lines = Ok t ->
  forall y,
    (exists trip_end, trip_end_date t = Some trip_end /\ year trip_end = y)
    <-> (exists text, last_matched lines = Some text /\ txt_year text = y).
Proof.
  intros Ht y. pose proof (read_lines_end_date lines empty_trip t Ht) as H.
  destruct (last_matched lines) as [text|].
  - destruct H as (d & Hd & Hend). destruct (strptime_ok text d Hd) as (_ & Hy & _).
    split.
    + intros (trip_end & E & <-). exists text. split; [reflexivity|]. congruence.
    + intros (text' & [= <-] & <-). exists d. split; [exact Hend | exact Hy].
  - cbn in H. split.
    + intros (trip_end & E & _). congruence.
    + intros (text & E & _). discriminate E.
Qed.

(** X12.  With an ASCII name of the dataset file, the dataset is opened
    exactly when the name holds a digit, every matched line of the trip
    file could be parsed, and the year of the last matched line is the
    number that the digits spell.  The open then comes before every other
    operation on the dataset and on the output file and is not repeated;
    otherwise the run, which has read the trip file, touches neither the
    dataset nor the output file.  The years of the other lines play no
    part. *)
Theorem dataset_opened_once (a : args) (lines : list trip_line)
        (nc_open : string -> result (dataset num)) :
  ascii_text (nc_file a) = true ->
  let nc_file_year := string_filter isdigit (nc_file a) in
  let in_year :=
    nc_file_year <> EmptyString
    /\ is_ok (read_trip lines) = true
    /\ exists text, last_matched lines = Some text
                    /\ txt_year text = int_of_digits nc_file_year in
  (in_year ->
   exists rest,
     fst (main a lines nc_open) = EvOpenDataset (nc_file a) :: rest
     /\ forall path, ~ In (EvOpenDataset path) rest)
  /\ (~ in_year -> fst (main a lines nc_open) = []).
Proof.
  intros _. cbv zeta. rewrite main_stages. cbv zeta.
  destruct (String.eqb _ _) eqn:Ey.
  { apply String.eqb_eq in Ey. split; [intros (H & _); congruence | reflexivity]. }
  apply String.eqb_neq in Ey.
  destruct (read_trip lines) as [t|] eqn:Ht.
  2:{ split; [intros (_ & H & _); discriminate H | reflexivity]. }
  pose proof (last_matched_end_date lines t Ht
                (int_of_digits (string_filter isdigit (nc_file a)))) as Hlast.
  destruct (trip_end_date t) as [trip_end|] eqn:Eend.
  2:{ split; [|reflexivity]. intros (_ & _ & H). apply Hlast in H.
      destruct H as (d & E & _). discriminate E. }
  destruct (Z.eqb_spec (year trip_end) (int_of_digits (string_filter isdigit (nc_file a))))
    as [Eyear|Eyear]; cbn [negb].
  2:{ split; [|reflexivity]. intros (_ & _ & H). apply Hlast in H.
      destruct H as (d & [= <-] & E). contradiction. }
  split.
  2:{ intros H. exfalso. apply H. split; [exact Ey|]. split; [reflexivity|].
      apply Hlast. now exists trip_end. }
  intros _.
  destruct (nc_open (nc_file a)) as [ds|].
  2:{ exists []. split; [reflexivity|]. intros path []. }
  pose proof (sample_locations_log ds (dict_values (trip_by_location t)) initial_state)
    as Hlog.
  assert (Hs : forall path,
             ~ In (EvOpenDataset path)
               (fst (sample_locations ds (dict_values (trip_by_location t)) initial_state))).
  { intros path H. destruct (Hlog _ H) as (g & d & _ & _ & E). discriminate E. }
  destruct (sample_locations ds (dict_values (trip_by_location t)) initial_state)
    as [slog [[nc_data processed_dates]|e]]; cbn [fst] in Hs.
  2:{ exists slog. split; [reflexivity | exact Hs]. }
  destruct (negb _); [exists slog; split; [reflexivity | exact Hs]|].
  destruct (calc_hourly nc_data) as [hourly|]; [|exists slog; split; [reflexivity | exact Hs]].
  eexists. split; [reflexivity|].
  intros path H. apply in_app_or in H. destruct H as [H|[H|[H|H]]];
    try discriminate H; [now apply Hs in H|].
  destruct (write_rows_log t _ _ H) as (line & E). discriminate E.
Qed.

Lemma write_rows_length (t : trip) (rows : list ((datetime * location) * list num))
      (rows_log : list event) (u : unit) :
  write_rows t rows = (rows_log, Ok u) ->
  written rows_log = map (fun e => match e with EvWrite line => line | _ => EmptyString end)
                         rows_log
  /\ List.length rows_log = List.length rows.
Proof.
  intros H. pose proof (write_rows_ok t rows rows_log u H) as F.
  split.
  - clear H. induction F as [|r e rs es (g & _ & _ & ->) F IH]; [reflexivity|].
    cbn [written flat_map map app]. f_equal. exact IH.
  - symmetry. exact (Forall2_length F).
Qed.

(** X13.  A run that ends normally had at least 24 distinct trip
    timestamps, and of its [n] distinct timestamps exactly
    [6 * (n / 6) - 5] got a row in the report: the last 5 to 10 of them, in
    file order, never appear. *)
Theorem report_rows_count (a : args) (lines : list trip_line)
        (nc_open : string -> result (dataset num)) (log : list event) (u : unit) :
  main a lines nc_open = (log, Ok u) ->
  exists t header rows,
    read_trip lines = Ok t
    /\ written log = header :: rows
    /\ let n := Z.of_nat (List.length (trip_by_date t)) in
       24 <= n
       /\ Z.of_nat (List.length rows) = 6 * (n / 6) - 5
       /\ 5 <= n - Z.of_nat (List.length rows) <= 10.
Proof.
  intros H. apply main_ok_inv in H.
  destruct H as (t & trip_end & ds & slog & nc_data & processed_dates & nc_data0 & hourly
                 & header & rows_log & Hy & Ht & Hend & Hyear & Hds & Hs & H0 & Hchk
                 & Hh & Hhead & Hw & ->).
  destruct (calc_hourly_inv _ _ Hh) as (d0 & Hd0 & HL & Hrows & Ehourly).
  assert (d0 = nc_data0) by congruence. subst d0.
  destruct (sampler_run ds _ slog nc_data processed_dates Hs) as (plan & -> & -> & -> & _).
  assert (Hhl : List.length hourly = 18%nat).
  { rewrite Ehourly, length_map. apply series_of_length. }
  assert (Hne : hourly <> []) by (intros E; rewrite E in Hhl; discriminate).
  assert (Hser : forall series, In series hourly ->
                   List.length series = Z.to_nat (6 * Z.of_nat (List.length nc_data0) - 5)).
  { intros series Hin. rewrite Ehourly in Hin. apply in_map_iff in Hin.
    destruct Hin as (row & <- & _). now rewrite length_map, range_length. }
  destruct (zip_star_spec (trip_by_date t) hourly _ Hne Hser) as (Zlen & _).
  destruct (write_rows_length t _ rows_log u Hw) as (Ewr & Elen).
  exists t, header, (written rows_log).
  split; [exact Ht|]. split.
  { change (EvOpenDataset (nc_file a) :: ?x) with ([EvOpenDataset (nc_file a)] ++ x).
    rewrite written_app, written_app, written_reads. reflexivity. }
  cbv zeta. rewrite expected_samples_div in Hchk.
  rewrite Ewr, length_map, Elen, Zlen.
  set (n := Z.of_nat (List.length (trip_by_date t))) in *.
  set (L := Z.of_nat (List.length nc_data0)) in *.
  assert (4 <= L) by (subst L; lia).
  assert (Hmin : Z.of_nat (Nat.min (List.length (trip_by_date t)) (Z.to_nat (6 * L - 5)))
                 = Z.min n (6 * L - 5)) by (subst n; lia).
  rewrite Hmin, Hchk.
  assert (6 * L <= n < 6 * L + 6) by (Z.div_mod_to_equations; lia).
  lia.
Qed.

Lemma read_lines_skip (keep : trip_line -> bool) (lines : list trip_line) :
  (forall line, keep line = false -> line = NoMatch) ->
  forall t, read_lines t (filter keep lines) = read_lines t lines.
Proof.
  intros Hk. induction lines as [|line lines IH]; intros t; cbn [filter]; [reflexivity|].
  destruct (keep line) eqn:E; cbn [read_lines].
  - destruct (read_line t line); cbn [bind]; [apply IH | reflexivity].
  - rewrite (Hk line E). cbn [read_line bind]. apply IH.
Qed.

(** ** Grid Sampler: a trip within one calendar year *)

Lemma toordinal_of_timestamp (d : datetime) :
  datetime_ok d = true -> toordinal d = timestamp_us d / 86400000000.
Proof.
  rewrite datetime_ok_iff. intros (_ & Hh & Hm & Hs & Hu).
  unfold timestamp_us, day_seconds. Z.div_mod_to_equations. lia.
Qed.

Lemma year_of_ordinal (a b d : datetime) (Y : Z) :
  datetime_ok a = true -> datetime_ok b = true -> datetime_ok d = true ->
  year a = Y -> year b = Y ->
  toordinal a <= toordinal d <= toordinal b ->
  year d = Y.
Proof.
  rewrite !datetime_ok_iff.
  intros ((_ & Ma & Da) & _) ((_ & Mb & Db) & _) ((_ & Md & Dd) & _) Ya Yb [H1 H2].
  pose proof (ymd2ord_bounds _ _ _ Ma Da) as Ba.
  pose proof (ymd2ord_bounds _ _ _ Mb Db) as Bb.
  pose proof (ymd2ord_bounds _ _ _ Md Dd) as Bd.
  unfold toordinal in *. subst Y. rewrite Yb in Bb, H2.
  set (Y := year a) in *.
  destruct (Z.lt_trichotomy (year d) Y) as [Hlt|[Heq|Hgt]]; [|exact Heq|].
  - pose proof (days_before_year_mono (year d + 1) (Y - (year d + 1)) ltac:(lia)) as M.
    replace (year d + 1 + (Y - (year d + 1))) with Y in M by lia. lia.
  - pose proof (days_before_year_mono (Y + 1) (year d - (Y + 1)) ltac:(lia)) as M.
    replace (Y + 1 + (year d - (Y + 1))) with (year d) in M by lia. lia.
Qed.

(** Between two timestamps of one year the Date Aligner stays in that
    year. *)
Lemma aligned_dates_in_year (start end_ d : datetime) (Y : Z) :
  datetime_ok start = true -> datetime_ok end_ = true ->
  year start = Y -> year end_ = Y ->
  In (Ok d) (six_hour_aligned_dates start end_) ->
  datetime_ok d = true /\ year d = Y.
Proof.
  intros Hs He Ys Ye Hin.
  destruct (Z.le_gt_cases (timestamp_us start) (timestamp_us end_)) as [Hle|Hgt].
  2:{ rewrite six_hour_aligned_dates_backwards_eq in Hin by assumption. destruct Hin. }
  destruct (aligned_dates_items start end_ Hs He Hle) as (_ & Hel & Hz & Hlen & Hitem).
  apply In_nth_error in Hin. destruct Hin as (n & Hn).
  assert (Hlt : (n < List.length (six_hour_aligned_dates start end_))%nat)
    by (apply nth_error_Some; congruence).
  destruct (Hitem (Z.of_nat n) ltac:(lia)) as (t & Et & Hok & Ht).
  rewrite Nat2Z.id, Hn in Et. injection Et as <-.
  split; [exact Hok|].
  apply (year_of_ordinal start end_ d Y); auto.
  rewrite (toordinal_of_timestamp d Hok), (toordinal_of_timestamp end_ He), Ht.
  assert (E0 : timestamp_us (mk_datetime (year start) (month start) (day start) 0 0 0 0)
               = toordinal start * 86400000000).
  { unfold timestamp_us, day_seconds, toordinal. cbn. lia. }
  assert (Es : toordinal start * 86400000000 <= timestamp_us start
               < toordinal start * 86400000000 + 86400000000).
  { apply datetime_ok_iff in Hs. destruct Hs as (_ & Hh & Hm & Hsec & Hu).
    unfold timestamp_us, day_seconds. lia. }
  rewrite E0. clear E0 Hitem Hn Hz Ht.
  assert (Hb : 0 <= Z.of_nat n
               < ((timestamp_us end_ - timestamp_us start) / 86400000000 + 1) * 4) by lia.
  clear Hlt Hlen.
  generalize dependent (Z.of_nat n). intros m Hb.
  generalize dependent (timestamp_us start). generalize dependent (timestamp_us end_).
  generalize (toordinal start). intros o te ts Hle Hel Es Hb.
  Z.div_mod_to_equations. lia.
Qed.

Lemma group_dates_sampled (lines : list trip_line) (t : trip) (g : loc_info) :
  read_trip lines = Ok t -> In g (dict_values (trip_by_location t)) ->
  In (start_date g) (map fst (trip_samples lines))
  /\ In (end_date g) (map fst (trip_samples lines)).
Proof.
  intros Ht Hg. unfold dict_values in Hg. apply in_map_iff in Hg.
  destruct Hg as ([k g'] & E & Hkg). cbn in E. subst g'.
  destruct (read_trip_inv lines t Ht) as (_ & _ & _ & _ & _ & Hnd & _ & G & _).
  pose proof (dict_nodup_In_get location_eqb location_eqb_refl location_eqb_sym
                location_eqb_trans k g _ Hnd Hkg) as Hget.
  destruct (G k g Hget) as (_ & Hfirst & Hlast & _).
  assert (Hsub : forall d, In d (dates_at k (trip_samples lines)) ->
                           In d (map fst (trip_samples lines))).
  { intros d Hd. unfold dates_at in Hd. apply in_map_iff in Hd.
    destruct Hd as (s & <- & Hs). apply filter_In in Hs. apply in_map. apply Hs. }
  destruct (dates_at k (trip_samples lines)) as [|d0 dates] eqn:E; [discriminate|].
  injection Hfirst as ->. split; [apply Hsub; now left|].
  rewrite <- Hlast.
  destruct (exists_last (l := start_date g :: dates) ltac:(discriminate))
    as (l' & x & El). rewrite El, last_last. apply Hsub. rewrite El.
  apply in_or_app. right. now left.
Qed.

Lemma sample_locations_total (ds : dataset num) (locs : list loc_info) :
  (forall loc r, In loc locs ->
     In r (six_hour_aligned_dates (start_date loc) (end_date loc)) ->
     exists d air, r = Ok d /\ nc_getitem ds (tm_yday d * 4 - 1) = Ok air) ->
  forall plan : list sampled_point,
  exists log st',
    sample_locations ds locs (series_of plan, map sp_date plan) = (log, Ok st').
Proof.
  induction locs as [|loc locs IH]; intros H plan; cbn [sample_locations].
  - eexists. eexists. reflexivity.
  - destruct (sample_dates_total ds (nc_lat_index loc) (nc_lon_index loc)
                (six_hour_aligned_dates (start_date loc) (end_date loc)))
      with (plan := plan) as (log1 & st1 & E1).
    { intros r Hr. apply (H loc r); [now left | exact Hr]. }
    destruct (sample_dates_ok _ _ _ _ _ _ _ E1) as (new & -> & _).
    destruct (IH (fun l r Hl => H l r (or_intror Hl)) (plan ++ new)) as (log2 & st2 & E2).
    rewrite E1. cbn [io_bind]. rewrite E2. eexists. eexists. reflexivity.
Qed.

(** X14.  For a trip whose timestamps all lie in one calendar year and a
    dataset that holds four slices for every day of that year, the Grid
    Sampler goes through: no index is out of range, whatever the order of
    the lines and however the groups overlap. *)
Theorem sampling_within_one_year (lines : list trip_line) (t : trip)
        (ds : dataset num) (Y : Z) :
  read_trip lines = Ok t ->
  (forall s, In s (trip_samples lines) -> year (fst s) = Y) ->
  4 * (365 + (if is_leap Y then 1 else 0)) <= nc_times ds ->
  exists slog nc_data processed_dates,
    sample_locations ds (dict_values (trip_by_location t)) initial_state
    = (slog, Ok (nc_data, processed_dates))
    /\ forall d, In d processed_dates -> year d = Y.
Proof.
  intros Ht HY Hn.
  assert (Hgrp : forall g d, In g (dict_values (trip_by_location t)) ->
                   In (Ok d) (six_hour_aligned_dates (start_date g) (end_date g)) ->
                   datetime_ok d = true /\ year d = Y).
  { intros g d Hg Hd.
    destruct (group_dates_valid lines t g Ht Hg) as [Hs He].
    destruct (group_dates_sampled lines t g Ht Hg) as [Is Ie].
    apply in_map_iff in Is, Ie. destruct Is as (s1 & E1 & I1), Ie as (s2 & E2 & I2).
    apply (aligned_dates_in_year (start_date g) (end_date g)); auto.
    - rewrite <- E1. now apply HY.
    - rewrite <- E2. now apply HY. }
  destruct (sample_locations_total ds (dict_values (trip_by_location t)))
    with (plan := @nil (@sampled_point num)) as (slog & [nc_data processed_dates] & E).
  { intros g r Hg Hr.
    destruct (group_dates_valid lines t g Ht Hg) as [Hs He].
    destruct (aligned_dates_valid _ _ _ Hs He Hr) as (d & -> & Hok).
    destruct (Hgrp g d Hg Hr) as [_ Yd].
    pose proof (tm_yday_year d Hok) as R. rewrite Yd in R.
    exists d. unfold nc_getitem.
    replace ((0 <=? tm_yday d * 4 - 1) && (tm_yday d * 4 - 1 <? nc_times ds)) with true.
    - eexists. split; reflexivity.
    - symmetry. apply andb_true_iff. split; [apply Z.leb_le | apply Z.ltb_lt]; lia. }
  exists slog, nc_data, processed_dates. split; [exact E|].
  destruct (sampler_run ds _ slog nc_data processed_dates E) as (plan & _ & -> & _ & P & _).
  intros d Hd. apply in_map_iff in Hd. destruct Hd as (p & <- & Hp).
  destruct (P p Hp) as (g & Hg & _ & _ & _ & Hin).
  exact (proj2 (Hgrp g _ Hg Hin)).
Qed.

(** ** Grid Sampler: timestamps that several groups cover *)

Lemma sample_locations_first (ds : dataset num) (locs : list loc_info) :
  forall (plan : list sampled_point) (log : list event) (st' : sampler_state),
    sample_locations ds locs (series_of plan, map sp_date plan) = (log, Ok st') ->
    exists new,
      st' = (series_of (plan ++ new), map sp_date (plan ++ new))
      /\ forall p, In p new ->
           ~ In (sp_date p) (map sp_date plan)
           /\ exists before loc after,
               locs = before ++ loc :: after
               /\ point_of ds loc p
               /\ forall loc', In loc' before ->
                    ~ In (Ok (sp_date p))
                         (six_hour_aligned_dates (start_date loc') (end_date loc')).
Proof.
  induction locs as [|loc locs IH]; intros plan log st'; cbn [sample_locations].
  - intros [= <- <-]. exists []. rewrite app_nil_r. split; [reflexivity|]. intros p [].
  - intros H. apply io_bind_ok in H. destruct H as (log1 & st1 & log2 & H1 & H2 & ->).
    destruct (sample_dates_ok _ _ _ _ _ _ _ H1) as (new1 & -> & _ & P1 & _ & A1).
    destruct (IH _ _ _ H2) as (new2 & -> & P2).
    exists (new1 ++ new2). rewrite !app_assoc. split; [reflexivity|].
    intros p Hp. apply in_app_or in Hp. destruct Hp as [Hp|Hp].
    + destruct (P1 p Hp) as (Hair & Hla & Hlo & Hin & Hnew).
      split; [exact Hnew|]. exists [], loc, locs.
      split; [reflexivity|]. split; [repeat split; assumption|]. intros loc' [].
    + destruct (P2 p Hp) as (Hnew & before & loc' & after & -> & Hpt & Hbefore).
      split.
      { intros Hin. apply Hnew. rewrite map_app. apply in_or_app. now left. }
      exists (loc :: before), loc', after.
      split; [reflexivity|]. split; [exact Hpt|].
      intros l [<- | Hl]; [|now apply Hbefore].
      intros Hin. destruct (A1 _ Hin) as (d & [= <-] & Hd). now apply Hnew.
Qed.

(** X15.  A timestamp that the date ranges of several groups cover is
    sampled for the first of them, in the order of the groups (the order
    in which their locations first appear in the trip file): its 18
    values are those of that group's grid cell, whichever location the
    trip file gives for that time. *)
Theorem overlapping_groups_first_wins (ds : dataset num) (locs : list loc_info)
        (log : list event) (nc_data : list (list num)) (processed_dates : list datetime)
        (k : nat) (date : datetime) :
  sample_locations ds locs initial_state = (log, Ok (nc_data, processed_dates)) ->
  nth_error processed_dates k = Some date ->
  exists before loc after air,
    locs = before ++ loc :: after
    /\ In (Ok date) (six_hour_aligned_dates (start_date loc) (end_date loc))
    /\ (forall loc', In loc' before ->
          ~ In (Ok date) (six_hour_aligned_dates (start_date loc') (end_date loc')))
    /\ nc_getitem ds (tm_yday date * 4 - 1) = Ok air
    /\ forall level, (level < 18)%nat ->
         exists series,
           nth_error nc_data level = Some series
           /\ nth_error series k
              = Some (level_value (mk_point date air (nc_lat_index loc) (nc_lon_index loc))
                                  level).
Proof.
  intros Hs Hk.
  change initial_state
    with (series_of (@nil (@sampled_point num)), map sp_date (@nil (@sampled_point num)))
    in Hs.
  destruct (sample_locations_first _ _ _ _ _ Hs) as (plan & [= -> ->] & P).
  cbn [app] in *. rewrite nth_error_map in Hk.
  destruct (nth_error plan k) as [p|] eqn:Ep; [|discriminate]. injection Hk as <-.
  destruct (P p (nth_error_In _ _ Ep))
    as (_ & before & loc & after & -> & (Hair & Hla & Hlo & Hin) & Hbefore).
  exists before, loc, after, (sp_air p).
  split; [reflexivity|]. split; [exact Hin|]. split; [exact Hbefore|].
  split; [exact Hair|].
  intros level Hl. exists (map (fun q => level_value q level) plan).
  split; [now apply series_of_nth|].
  rewrite nth_error_map, Ep. cbn [option_map]. rewrite <- Hla, <- Hlo. now destruct p.
Qed.

(** ** Lines that the pattern does not match *)

Lemma match_line_NoMatch (float_of_string : string -> option Q) (line : string) :
  match_line float_of_string line = NoMatch <-> re_match TRIP_FILE_LINE line = None.
Proof.
  unfold match_line. rewrite TRIP_FILE_LINE_scan. cbv zeta.
  destruct (begins_with DATE_CLASSES line); [|tauto].
  repeat match goal with
         | |- context [if ?b then None else _] => destruct b; [tauto|]
         end.
  split; discriminate.
Qed.

(** X18.  The lines of the trip file that [TRIP_FILE_LINE] does not match
    have no effect: with them deleted, the run has the same outcome,
    performs the same file operations and writes the same report. *)
Theorem unmatched_lines_ignored (float_of_string : string -> option Q) (a : args)
        (content : list string) (nc_open : string -> result (dataset num)) :
  let matched line :=
    match re_match TRIP_FILE_LINE line with Some _ => true | None => false end in
  main a (map (match_line float_of_string) content) nc_open
  = main a (map (match_line float_of_string) (filter matched content)) nc_open.
Proof.
  cbv zeta.
  assert (E : read_trip (map (match_line float_of_string)
                             (filter (fun line => match re_match TRIP_FILE_LINE line with
                                                  | Some _ => true
                                                  | None => false
                                                  end) content))
              = read_trip (map (match_line float_of_string) content)).
  { unfold read_trip. generalize empty_trip.
    induction content as [|line content IH]; intros t; cbn [filter map]; [reflexivity|].
    destruct (re_match TRIP_FILE_LINE line) eqn:Em; cbn [map read_lines].
    - destruct (read_line t (match_line float_of_string line)); cbn [bind];
        [apply IH | reflexivity].
    - rewrite (proj2 (match_line_NoMatch float_of_string line) Em).
      cbn [read_line bind]. apply IH. }
  unfold main. cbv zeta. now rewrite E.
Qed.

(** ** Trip Parser: which files are read *)

Lemma line_sample_raise (line : trip_line) (e : exn) :
  line_sample line = Raise e -> exists msg, e = ValueError msg.
Proof.
  destruct line as [|text la lo]; cbn [line_sample]; [discriminate|].
  unfold strptime.
  destruct (date_ok _ _ _ && time_ok _ _ _ _); cbn [bind].
  2:{ intros [= <-]. eexists. reflexivity. }
  destruct la as [la|]; cbn [py_float bind]; [|intros [= <-]; eexists; reflexivity].
  destruct lo as [lo|]; cbn [py_float bind]; [discriminate|].
  intros [= <-]. eexists. reflexivity.
Qed.

Lemma read_lines_parsable (lines : list trip_line) :
  (forall line, In line lines -> is_ok (line_sample line) = true) ->
  forall t, exists t', read_lines t lines = Ok t'.
Proof.
  induction lines as [|line lines IH]; intros H t; cbn [read_lines].
  - now exists t.
  - pose proof (H line (or_introl eq_refl)) as Hl.
    destruct (line_sample line) as [[[date loc]|]|] eqn:E; [| |discriminate Hl].
    + destruct (read_line_sample t line date loc E) as (g & -> & _). cbn [bind].
      apply IH. intros l Hin. apply H. now right.
    + rewrite (read_line_no_sample t line E). cbn [bind].
      apply IH. intros l Hin. apply H. now right.
Qed.

Lemma read_lines_raise (lines : list trip_line) :
  forall t e, read_lines t lines = Raise e ->
  exists line, In line lines /\ line_sample line = Raise e.
Proof.
  induction lines as [|line lines IH]; intros t e; cbn [read_lines]; [discriminate|].
  destruct (line_sample line) as [[[date loc]|]|e'] eqn:E.
  - destruct (read_line_sample t line date loc E) as (g & -> & _). cbn [bind].
    intros H. destruct (IH _ _ H) as (l & Hin & Hl). exists l. split; [now right | exact Hl].
  - rewrite (read_line_no_sample t line E). cbn [bind].
    intros H. destruct (IH _ _ H) as (l & Hin & Hl). exists l. split; [now right | exact Hl].
  - rewrite (read_line_raise t line e' E). cbn [bind]. intros [= <-].
    exists line. split; [now left | exact E].
Qed.

(** X19.  The trip file is read successfully exactly when every matched
    line has a valid calendar date and time and two texts that [float]
    accepts.  The coordinates are not checked against any range: every
    pair of numbers gets a grid point.  When the reading fails it is with
    the [ValueError] of such a line, wherever in the file it stands. *)
Theorem trip_read_iff (lines : list trip_line) :
  (is_ok (read_trip lines) = true
   <-> forall line, In line lines -> is_ok (line_sample line) = true)
  /\ (forall e, read_trip lines = Raise e ->
        exists line msg,
          In line lines /\ line_sample line = Raise e /\ e = ValueError msg).
Proof.
  split; [split|].
  - destruct (read_trip lines) as [t|] eqn:Ht; [|discriminate].
    intros _. exact (proj1 (read_trip_inv lines t Ht)).
  - intros H. destruct (read_lines_parsable lines H empty_trip) as (t' & E).
    unfold read_trip. now rewrite E.
  - intros e H. destruct (read_lines_raise lines _ _ H) as (line & Hin & Hl).
    destruct (line_sample_raise line e Hl) as (msg & ->). now exists line, msg.
Qed.

End Properties.

(* ================================================================== *)
(** * Part III: the properties at concrete inputs *)
(* ================================================================== *)

(** C1, as stated, fails: from 2018-11-16 23:00 to 2018-11-17 01:00 the
    generator yields 4 timestamps, all of 2018-11-16, where
    [((end.date - start.date).days + 1) * 4] is 8; the last one and its
    six hours end before [end]. *)
Lemma six_hour_aligned_dates_calendar_days_counterexample :
  datetime_ok late_start = true /\ datetime_ok early_end = true
  /\ timestamp_us late_start <= timestamp_us early_end
  /\ six_hour_aligned_dates late_start early_end
     = [Ok (mk_datetime 2018 11 16 0 0 0 0); Ok (mk_datetime 2018 11 16 6 0 0 0);
        Ok (mk_datetime 2018 11 16 12 0 0 0); Ok (mk_datetime 2018 11 16 18 0 0 0)]
  /\ ((toordinal early_end - toordinal late_start) + 1) * 4 = 8
  /\ Z.of_nat (List.length (six_hour_aligned_dates late_start early_end))
     <> ((toordinal early_end - toordinal late_start) + 1) * 4
  /\ timestamp_us (mk_datetime 2018 11 16 18 0 0 0) + 21600000000
     <= timestamp_us early_end.
Proof.
  repeat split; try reflexivity; vm_compute; discriminate.
Qed.

Lemma six_hour_aligned_dates_elapsed_days_witness :
  (datetime_ok late_start = true /\ datetime_ok early_end = true
   /\ timestamp_us late_start <= timestamp_us early_end)
  /\ Z.of_nat (List.length (six_hour_aligned_dates late_start early_end))
     = ((timestamp_us early_end - timestamp_us late_start) / 86400000000 + 1) * 4.
Proof.
  assert (H1 : datetime_ok late_start = true) by reflexivity.
  assert (H2 : datetime_ok early_end = true) by reflexivity.
  assert (H3 : timestamp_us late_start <= timestamp_us early_end)
    by (vm_compute; discriminate).
  split; [auto|].
  exact (proj1 (proj2 (six_hour_aligned_dates_elapsed_days late_start early_end H1 H2 H3))).
Defined.

(** C2, as stated, fails: for 24 hourly samples of one day, 4 timestamps
    are sampled, and 4 * 4 is not 24; the run passes the checkpoint and
    ends normally. *)
Lemma sanity_check_times_four_counterexample :
  List.length (trip_samples example_trip) = 24%nat
  /\ hourly_spaced (map fst (trip_samples example_trip))
  /\ (exists t slog nc_data processed_dates,
        read_trip example_trip = Ok t
        /\ List.length (trip_by_date t) = 24%nat
        /\ sample_locations example_dataset (dict_values (trip_by_location t))
                            initial_state
           = (slog, Ok (nc_data, processed_dates))
        /\ List.length processed_dates = 4%nat
        /\ (List.length processed_dates * 4 <> List.length (trip_by_date t))%nat)
  /\ snd (main example_args example_trip example_nc_open) = Ok tt.
Proof.
  split; [reflexivity|]. split; [vm_compute; repeat split|].
  split; [|vm_compute; reflexivity].
  eexists. eexists. eexists. eexists.
  split; [vm_compute; reflexivity|].
  split; [reflexivity|]. split; [vm_compute; reflexivity|].
  split; [reflexivity|]. vm_compute. discriminate.
Qed.

Lemma example_read : read_trip example_trip = Ok example_t.
Proof. vm_compute. reflexivity. Qed.

Lemma example_sampled :
  sample_locations example_dataset (dict_values (trip_by_location example_t))
                   initial_state
  = (example_slog, Ok (example_nc_data, example_processed_dates)).
Proof. vm_compute. reflexivity. Qed.

Lemma example_run :
  main example_args example_trip example_nc_open = (example_log, Ok tt).
Proof. vm_compute. reflexivity. Qed.

Lemma example_one_location :
  forall s, In s (trip_samples example_trip) ->
            location_eqb (snd s) (4224 # 100, - (873 # 100))%Q = true.
Proof.
  apply forallb_forall. vm_compute. reflexivity.
Qed.

Lemma example_hourly : hourly_spaced (map fst (trip_samples example_trip)).
Proof. vm_compute. repeat split. Qed.

Lemma sanity_check_whole_days_witness :
  (read_trip example_trip = Ok example_t /\ nc_times example_dataset = 1460)
  /\ snd (main example_args example_trip example_nc_open) <> Raise AssertionError
  /\ List.length (trip_by_date example_t) = 24%nat
  /\ List.length example_processed_dates = 4%nat.
Proof.
  split; [split; [exact example_read | reflexivity]|].
  assert (Hy : string_filter isdigit (nc_file example_args) <> EmptyString)
    by (vm_compute; discriminate).
  destruct (sanity_check_whole_days example_args example_trip example_nc_open
              example_t (mk_datetime 2018 11 16 23 0 0 0) example_dataset
              example_slog example_nc_data example_processed_dates
              Hy example_read eq_refl eq_refl eq_refl example_sampled)
    as (_ & _ & Hpass & Hdays).
  destruct (Hdays (4224 # 100, - (873 # 100))%Q 1%nat
              example_one_location example_hourly eq_refl (le_n 1))
    as (Hn & Hsampled & Hcheck).
  split; [exact (Hpass Hcheck)|]. split; [exact Hn | exact Hsampled].
Defined.

Lemma surface_level_formula_witness :
  sample_locations example_dataset (dict_values (trip_by_location example_t))
                   initial_state
  = (example_slog, Ok (example_nc_data, example_processed_dates))
  /\ exists surface,
       nth_error example_nc_data 0 = Some surface
       /\ List.length surface = List.length example_processed_dates.
Proof.
  split; [exact example_sampled|].
  destruct (surface_level_formula example_dataset
              (dict_values (trip_by_location example_t))
              example_slog example_nc_data example_processed_dates example_sampled)
    as (surface & H0 & Hlen & _).
  exists surface. split; [exact H0 | exact Hlen].
Defined.

Lemma midnight_read : read_trip midnight_trip = Ok midnight_t.
Proof. vm_compute. reflexivity. Qed.

(** C4 as stated fails where a group crosses midnight in less than a day.
    The run on [midnight_trip] ends normally; its second group was
    observed hourly from 2018-11-16 23:00 to 2018-11-17 01:00;
    2018-11-17 00:00 is 6-hour aligned and lies between the two; yet the
    timestamps sampled are the four of 2018-11-16 only. *)
Lemma sampled_timestamps_between_counterexample :
  let processed_dates := map (fun h => mk_datetime 2018 11 16 h 0 0 0) [0; 6; 12; 18] in
  let loc : location := (45 # 1, 10 # 1) in
  let earliest := mk_datetime 2018 11 16 23 0 0 0 in
  let latest := mk_datetime 2018 11 17 1 0 0 0 in
  let midnight := mk_datetime 2018 11 17 0 0 0 0 in
  read_trip midnight_trip = Ok midnight_t
  /\ snd (main example_args midnight_trip example_nc_open) = Ok tt
  /\ sample_locations example_dataset (dict_values (trip_by_location midnight_t))
                      initial_state
     = (midnight_slog, Ok (midnight_nc_data, processed_dates))
  /\ hourly_spaced (map fst (trip_samples midnight_trip))
  /\ dates_at loc (trip_samples midnight_trip) = [earliest; midnight; latest]
  /\ (exists g, dict_get location_eqb loc (trip_by_location midnight_t) = Some g
                /\ start_date g = earliest /\ end_date g = latest)
  /\ six_hour_aligned midnight
  /\ timestamp_us earliest <= timestamp_us midnight <= timestamp_us latest
  /\ ~ In midnight processed_dates.
Proof.
  cbv zeta.
  split; [exact midnight_read|].
  split; [vm_compute; reflexivity|].
  split; [vm_compute; reflexivity|].
  split; [vm_compute; repeat split|].
  split; [vm_compute; reflexivity|].
  split; [eexists; split; [vm_compute; reflexivity|split; reflexivity]|].
  split; [unfold six_hour_aligned; cbn; tauto|].
  split; [vm_compute; split; discriminate|].
  cbn. intros [H|[H|[H|[H|[]]]]]; discriminate H.
Qed.

Lemma sampled_timestamps_union_witness :
  (read_trip example_trip = Ok example_t
   /\ sample_locations example_dataset (dict_values (trip_by_location example_t))
                       initial_state
      = (example_slog, Ok (example_nc_data, example_processed_dates)))
  /\ NoDup example_processed_dates
  /\ List.length example_nc_data = 18%nat.
Proof.
  split; [split; [exact example_read | exact example_sampled]|].
  pose proof (sampled_timestamps_union example_trip example_t example_dataset
                example_slog example_nc_data example_processed_dates
                example_read example_sampled) as H.
  split; [exact (proj1 (proj2 H)) | exact (proj1 (proj2 (proj2 H)))].
Defined.

Lemma four_point_rows (row : list Q) :
  In row four_point_series -> List.length row = 4%nat.
Proof.
  intros H. apply repeat_spec in H. now subst.
Qed.

Lemma calc_hourly_shape_witness :
  (List.length four_point_series = 18%nat /\ (4 <= 4)%nat)
  /\ forall hourly, calc_hourly four_point_series = Ok hourly ->
       List.length hourly = 18%nat
       /\ (forall row, In row hourly -> Z.of_nat (List.length row) = 6 * Z.of_nat 4 - 5)
       /\ (4%nat = 4%nat -> forall row, In row hourly -> List.length row = 19%nat).
Proof.
  split; [split; [reflexivity | apply le_n]|].
  exact (proj1 (proj2 (calc_hourly_shape four_point_series 4 eq_refl four_point_rows
                                         (le_n 4)))).
Defined.

Lemma NC_LAT_not_empty : NC_LAT <> [].
Proof. discriminate. Qed.

(** The claim as the specification words it, with exact distances, fails
    for the float -2^55: the differences to -87.5 and to -90.0 round to
    the same float, and the first of the two indices is returned although
    -90.0 is nearer. *)
Lemma approximate_position_nearest_counterexample :
  let query := (- inject_Z (2 ^ 55))%Q in
  (Binary64.round query == query)%Q
  /\ Binary64.approximate_position NC_LAT (Some query) None = Ok 71%nat
  /\ exists p p',
       nth_error NC_LAT 71 = Some p /\ nth_error NC_LAT 72 = Some p'
       /\ (p == - (175 # 2))%Q /\ (p' == - 90)%Q
       /\ (Qabs (p' - query) < Qabs (p - query))%Q
       /\ (Binary64.sub p query == Binary64.sub p' query)%Q.
Proof.
  cbv zeta. split; [vm_compute; reflexivity|].
  split; [vm_compute; reflexivity|].
  eexists _, _. split; [exact (NC_LAT_nth 71 ltac:(lia))|].
  split; [exact (NC_LAT_nth 72 ltac:(lia))|].
  split; [vm_compute; reflexivity|]. split; [vm_compute; reflexivity|].
  split; vm_compute; reflexivity.
Qed.

Lemma approximate_position_first_minimum_witness :
  NC_LAT <> []
  /\ exists i p,
       Binary64.approximate_position NC_LAT (Some (Binary64.round (4224 # 100))) None
       = Ok i
       /\ nth_error NC_LAT i = Some p
       /\ (forall j p', nth_error NC_LAT j = Some p' ->
             (Qabs (Binary64.sub p (Binary64.round (4224 # 100)))
              <= Qabs (Binary64.sub p' (Binary64.round (4224 # 100))))%Q).
Proof.
  split; [exact NC_LAT_not_empty|].
  destruct (proj1 (approximate_position_first_minimum
                     NC_LAT (Binary64.round (4224 # 100)) NC_LAT_not_empty) None)
    as (i & p & E & Hp & Hmin & _).
  exists i, p. auto.
Defined.

Lemma year_mismatch_aborts_witness :
  (last_matched example_trip = Some (mk_date_text 2018 11 16 23 0 0)
   /\ txt_year (mk_date_text 2018 11 16 23 0 0)
      <> int_of_digits (string_filter isdigit (nc_file other_year_args)))
  /\ exit_status (snd (main other_year_args example_trip example_nc_open)) = 1.
Proof.
  assert (H1 : last_matched example_trip = Some (mk_date_text 2018 11 16 23 0 0))
    by (vm_compute; reflexivity).
  assert (H2 : txt_year (mk_date_text 2018 11 16 23 0 0)
               <> int_of_digits (string_filter isdigit (nc_file other_year_args)))
    by (vm_compute; discriminate).
  split; [auto|].
  exact (proj1 (proj2 (proj2 (year_mismatch_aborts other_year_args example_trip
                                example_nc_open _ H1 H2)))).
Defined.

Lemma no_matching_line_exits_1_witness :
  (forall line, In line [NoMatch; NoMatch] -> line = NoMatch)
  /\ exit_status (snd (main example_args [NoMatch; NoMatch] example_nc_open)) = 1.
Proof.
  assert (H : forall line, In line [NoMatch; NoMatch] -> line = NoMatch).
  { intros line [<- | [<- | []]]; reflexivity. }
  split; [exact H|].
  exact (proj1 (no_matching_line_exits_1 example_args [NoMatch; NoMatch]
                                         example_nc_open H)).
Defined.

(** C9 as stated fails on every data row: split at whitespace, the first
    data row of the example run has 24 fields where the header has 23,
    because its timestamp field is [2018-11-16 00:00:00]. *)
Lemma report_whitespace_fields_counterexample :
  main example_args example_trip example_nc_open = (example_log, Ok tt)
  /\ (exists header row rows,
        written example_log = header :: row :: rows
        /\ List.length (whitespace_split header) = 23%nat
        /\ List.length (whitespace_split row) = 24%nat
        /\ firstn 2 (whitespace_split row) = ["2018-11-16"%string; "00:00:00"%string]).
Proof.
  split; [exact example_run|].
  do 3 eexists. split; [vm_compute; reflexivity|].
  split; [vm_compute; reflexivity|]. split; vm_compute; reflexivity.
Qed.

(** A file out of time order: the group's start date is the later of its
    two timestamps, and the Date Aligner yields nothing for it. *)
Example out_of_order_span :
  exists t g,
    read_trip out_of_order_trip = Ok t
    /\ dict_values (trip_by_location t) = [g]
    /\ start_date g = mk_datetime 2018 11 17 0 0 0 0
    /\ end_date g = mk_datetime 2018 11 16 0 0 0 0
    /\ six_hour_aligned_dates (start_date g) (end_date g) = [].
Proof.
  do 2 eexists. split; [vm_compute; reflexivity|].
  split; [vm_compute; reflexivity|]. split; [reflexivity|].
  split; vm_compute; reflexivity.
Qed.

Lemma report_layout_witness :
  main example_args example_trip example_nc_open = (example_log, Ok tt)
  /\ exists header rows, written example_log = header :: rows.
Proof.
  split; [exact example_run|].
  destruct (report_layout example_args example_trip example_nc_open example_log tt
                          example_run)
    as (t & ds & slog & nc_data & processed_dates & hourly & header & rows
        & _ & _ & _ & _ & _ & _ & Hw & _).
  exists header, rows. exact Hw.
Defined.

Lemma duplicate_read : read_trip duplicate_trip = Ok duplicate_t.
Proof. vm_compute. reflexivity. Qed.

Lemma duplicate_timestamps_keep_last_witness :
  read_trip duplicate_trip = Ok duplicate_t
  /\ List.length (trip_by_date duplicate_t)
     = List.length (nodup datetime_eq_dec (map fst (trip_samples duplicate_trip))).
Proof.
  split; [exact duplicate_read|].
  exact (proj1 (proj2 (proj2 (duplicate_timestamps_keep_last example_args duplicate_trip
                                example_nc_open duplicate_t duplicate_read)))).
Defined.

(** The trip with a repeated timestamp: 49 matched lines, 48 entries in
    [trip_by_date]; the repeated timestamp maps to the later location. *)
Example duplicate_trip_entries :
  List.length (trip_samples duplicate_trip) = 49%nat
  /\ List.length (trip_by_date duplicate_t) = 48%nat
  /\ dict_get datetime_eqb (mk_datetime 2018 11 16 23 0 0 0) (trip_by_date duplicate_t)
     = Some (45 # 1, 10 # 1)%Q.
Proof. repeat split; vm_compute; reflexivity. Qed.

Lemma same_day_same_time_index_witness :
  (datetime_ok (mk_datetime 2018 11 16 0 0 0 0) = true
   /\ timestamp_us (mk_datetime 2018 11 16 0 0 0 0)
      <= timestamp_us (mk_datetime 2018 11 16 0 0 0 0)
   /\ (0 / 4 = 3 / 4)%nat)
  /\ tm_yday (mk_datetime 2018 11 16 0 0 0 0) * 4 - 1
     = tm_yday (mk_datetime 2018 11 16 18 0 0 0) * 4 - 1.
Proof.
  assert (H1 : datetime_ok (mk_datetime 2018 11 16 0 0 0 0) = true) by reflexivity.
  assert (H2 : timestamp_us (mk_datetime 2018 11 16 0 0 0 0)
               <= timestamp_us (mk_datetime 2018 11 16 0 0 0 0)) by apply Z.le_refl.
  split; [repeat split; auto|].
  exact (same_day_same_time_index (mk_datetime 2018 11 16 0 0 0 0)
           (mk_datetime 2018 11 16 0 0 0 0) 0 3
           (mk_datetime 2018 11 16 0 0 0 0) (mk_datetime 2018 11 16 18 0 0 0)
           H1 H1 H2 eq_refl eq_refl eq_refl).
Defined.

Lemma three_point_rows (row : list Q) :
  In row three_point_series -> List.length row = 3%nat.
Proof.
  intros H. apply repeat_spec in H. now subst.
Qed.

Lemma three_point_series_not_empty : three_point_series <> [].
Proof. discriminate. Qed.

Lemma calc_hourly_too_short_witness :
  (three_point_series <> [] /\ (3 < 4)%nat)
  /\ calc_hourly three_point_series
     = Raise (ValueError "x and y arrays must have at least 4 entries").
Proof.
  split; [split; [exact three_point_series_not_empty | apply le_n]|].
  exact (calc_hourly_too_short three_point_series 3 three_point_series_not_empty
                               three_point_rows (le_n 4)).
Defined.


(** The example line of the source: its three groups. *)
Example example_line_groups :
  re_match TRIP_FILE_LINE example_line
  = Some ["2018-11-16 00:00:00"; "42.24"; "-8.73"]%string
  /\ re_match TRIP_FILE_LINE (String.append "# " example_line) = None
  /\ re_match TRIP_FILE_LINE "2018-11-16 00:00:00+00    42.24" = None.
Proof. repeat split; vm_compute; reflexivity. Qed.

Lemma timestamp_text_round_trip_witness :
  (ascii_text example_line = true
   /\ re_match TRIP_FILE_LINE example_line
   = Some ["2018-11-16 00:00:00"; "42.24"; "-8.73"]%string
   /\ strptime (date_text_of_string "2018-11-16 00:00:00")
      = Ok (mk_datetime 2018 11 16 0 0 0 0))
  /\ datetime_str (mk_datetime 2018 11 16 0 0 0 0) = "2018-11-16 00:00:00"%string.
Proof.
  assert (H0 : ascii_text example_line = true) by reflexivity.
  assert (H1 : re_match TRIP_FILE_LINE example_line
               = Some ["2018-11-16 00:00:00"; "42.24"; "-8.73"]%string)
    by (vm_compute; reflexivity).
  assert (H2 : strptime (date_text_of_string "2018-11-16 00:00:00")
               = Ok (mk_datetime 2018 11 16 0 0 0 0)) by (vm_compute; reflexivity).
  split; [split; [exact H0 | split; [exact H1 | exact H2]]|].
  exact (proj1 (timestamp_text_round_trip example_line "2018-11-16 00:00:00" "42.24" "-8.73"
                  (mk_datetime 2018 11 16 0 0 0 0) H0 H1 H2)).
Defined.

Lemma TRIP_FILE_LINE_columns_witness :
  ascii_text example_line = true
  /\ exists suffix ws1 ws2 rest,
       example_line
       = String.append "2018-11-16 00:00:00"
           (String.append suffix
              (String.append ws1
                 (String.append "42.24"
                    (String.append ws2 (String.append "-8.73" rest)))))
       /\ string_forall (class_mem NonSpace) suffix = true
       /\ ws1 <> EmptyString /\ ws2 <> EmptyString
       /\ stops NonSpace rest.
Proof.
  assert (H0 : ascii_text example_line = true) by reflexivity.
  assert (H1 : re_match TRIP_FILE_LINE example_line
               = Some ["2018-11-16 00:00:00"; "42.24"; "-8.73"]%string)
    by (vm_compute; reflexivity).
  split; [exact H0|].
  destruct (proj1 (proj1 (TRIP_FILE_LINE_columns example_line H0) _ _ _) H1)
    as (suffix & ws1 & ws2 & rest & E & _ & _ & Hs & Hw1 & _ & _ & _ & Hw2 & _ & _ & _ & Hr).
  exists suffix, ws1, ws2, rest. auto.
Defined.

Lemma six_hour_aligned_dates_backwards_witness :
  (datetime_ok early_end = true /\ datetime_ok late_start = true
   /\ timestamp_us late_start < timestamp_us early_end)
  /\ six_hour_aligned_dates early_end late_start = [].
Proof.
  assert (H1 : datetime_ok early_end = true) by reflexivity.
  assert (H2 : datetime_ok late_start = true) by reflexivity.
  assert (H3 : timestamp_us late_start < timestamp_us early_end) by (vm_compute; reflexivity).
  split; [auto|].
  exact (proj1 (six_hour_aligned_dates_backwards early_end late_start H1 H2 H3)).
Defined.


Lemma latitude_out_of_range_clamped_witness :
  (- inject_Z (2 ^ 52) <= - 100 <= -90 \/ 90 <= - 100)%Q
  /\ Binary64.approximate_position NC_LAT (Some (- 100)%Q) None = Ok 72%nat.
Proof.
  assert (H : (- inject_Z (2 ^ 52) <= - 100 <= -90 \/ 90 <= - 100)%Q)
    by (left; split; vm_compute; discriminate).
  split; [exact H|]. exact (latitude_out_of_range_clamped (- 100) H).
Defined.

Lemma longitude_no_wraparound_witness :
  (- (7 # 2) <= - (1 # 2) < 0)%Q
  /\ Binary64.approximate_position NC_LON None (Some (- (1 # 2))%Q) = Ok 143%nat.
Proof.
  assert (H : (- (7 # 2) <= - (1 # 2) < 0)%Q)
    by (split; [discriminate | reflexivity]).
  split; [exact H|]. exact (proj1 (longitude_no_wraparound (- (1 # 2)) H)).
Defined.

Lemma example_reads_1279 :
  In (EvReadSlice 1279) (fst (main example_args example_trip example_nc_open)).
Proof. rewrite example_run. vm_compute. auto. Qed.

Lemma slice_indices_witness :
  In (EvReadSlice 1279) (fst (main example_args example_trip example_nc_open))
  /\ 3 <= 1279 <= 1463 /\ 1279 mod 4 = 3.
Proof.
  split; [exact example_reads_1279|].
  exact (slice_indices example_args example_trip example_nc_open 1279 example_reads_1279).
Defined.

Lemma other_year_run :
  snd (main other_year_args example_trip example_nc_open)
  = Raise (ValueError "Trip should be in boundaries of NC_FILE").
Proof. vm_compute. reflexivity. Qed.

(** The second row cannot be written. *)
Lemma failing_write_run :
  snd (main_output (fun k => negb (k =? 3)%nat) example_args example_trip example_nc_open)
  = Raise OSError.
Proof. vm_compute. reflexivity. Qed.

Lemma failed_run_output_file_witness :
  snd (main_output (fun k => negb (k =? 3)%nat) example_args example_trip example_nc_open)
  = Raise OSError
  /\ exists n,
       (n < List.length (written example_log))%nat
       /\ written (fst (main_output (fun k => negb (k =? 3)%nat)
                                    example_args example_trip example_nc_open))
          = firstn n (written example_log)
       /\ negb (S n =? 3)%nat = false.
Proof.
  split; [exact failing_write_run|].
  destruct (proj2 (failed_run_output_file (fun k => negb (k =? 3)%nat) example_args
                     example_trip example_nc_open OSError) failing_write_run)
    as [[_ Hw] | (_ & _ & n & Hn & Hw & Hf & _)].
  - vm_compute in Hw. discriminate Hw.
  - rewrite example_run in Hn, Hw. cbn [fst] in Hn, Hw.
    exists n. split; [exact Hn|]. split; [exact Hw | exact Hf].
Defined.

Lemma example_in_year :
  string_filter isdigit (nc_file example_args) <> EmptyString
  /\ is_ok (read_trip example_trip) = true
  /\ exists text, last_matched example_trip = Some text
                  /\ txt_year text = int_of_digits (string_filter isdigit (nc_file example_args)).
Proof.
  split; [discriminate|]. split; [now rewrite example_read|].
  eexists. split; vm_compute; reflexivity.
Qed.

Lemma dataset_opened_once_witness :
  ascii_text (nc_file example_args) = true
  /\ exists rest,
       fst (main example_args example_trip example_nc_open)
       = EvOpenDataset (nc_file example_args) :: rest
       /\ forall path, ~ In (EvOpenDataset path) rest.
Proof.
  assert (H : ascii_text (nc_file example_args) = true) by reflexivity.
  split; [exact H|].
  exact (proj1 (dataset_opened_once example_args example_trip example_nc_open H)
               example_in_year).
Defined.

Lemma report_rows_count_witness :
  main example_args example_trip example_nc_open = (example_log, Ok tt)
  /\ exists t header rows,
       read_trip example_trip = Ok t
       /\ written example_log = header :: rows
       /\ 24 <= Z.of_nat (List.length (trip_by_date t))
       /\ Z.of_nat (List.length rows)
          = 6 * (Z.of_nat (List.length (trip_by_date t)) / 6) - 5.
Proof.
  split; [exact example_run|].
  destruct (report_rows_count example_args example_trip example_nc_open example_log tt
                              example_run)
    as (t & header & rows & Ht & Hw & Hn & Hr & _).
  exists t, header, rows. auto.
Defined.

Lemma example_trip_year :
  forall s, In s (trip_samples example_trip) -> year (fst s) = 2018.
Proof.
  assert (H : forallb (fun s => year (fst s) =? 2018) (trip_samples example_trip) = true)
    by (vm_compute; reflexivity).
  intros s Hs. rewrite forallb_forall in H. apply Z.eqb_eq. now apply H.
Qed.

Lemma sampling_within_one_year_witness :
  (read_trip example_trip = Ok example_t
   /\ 4 * (365 + (if is_leap 2018 then 1 else 0)) <= nc_times example_dataset)
  /\ exists slog nc_data processed_dates,
       sample_locations example_dataset (dict_values (trip_by_location example_t))
                        initial_state
       = (slog, Ok (nc_data, processed_dates))
       /\ forall d, In d processed_dates -> year d = 2018.
Proof.
  assert (H : 4 * (365 + (if is_leap 2018 then 1 else 0)) <= nc_times example_dataset)
    by (vm_compute; discriminate).
  split; [split; [exact example_read | exact H]|].
  exact (sampling_within_one_year example_trip example_t example_dataset 2018
                                  example_read example_trip_year H).
Defined.

Lemma example_first_date :
  nth_error example_processed_dates 0 = Some (mk_datetime 2018 11 16 0 0 0 0).
Proof. reflexivity. Qed.

Lemma overlapping_groups_first_wins_witness :
  (sample_locations example_dataset (dict_values (trip_by_location example_t))
                    initial_state
   = (example_slog, Ok (example_nc_data, example_processed_dates))
   /\ nth_error example_processed_dates 0 = Some (mk_datetime 2018 11 16 0 0 0 0))
  /\ exists before loc after,
       dict_values (trip_by_location example_t) = before ++ loc :: after
       /\ In (Ok (mk_datetime 2018 11 16 0 0 0 0))
             (six_hour_aligned_dates (start_date loc) (end_date loc)).
Proof.
  split; [split; [exact example_sampled | exact example_first_date]|].
  destruct (overlapping_groups_first_wins example_dataset _ _ _ _ 0
              (mk_datetime 2018 11 16 0 0 0 0) example_sampled example_first_date)
    as (before & loc & after & air & E & Hin & _).
  exists before, loc, after. split; [exact E | exact Hin].
Defined.

Lemma output_name_stem_witness :
  (("data/"%string = EmptyString \/ exists d, "data/"%string = String.append d "/")
   /\ lacks "/" "air.2018.nc" = true)
  /\ drop_extension (basename (String.append "data/" "air.2018.nc")) = "air.2018"%string.
Proof.
  assert (H1 : "data/"%string = EmptyString \/ exists d, "data/"%string = String.append d "/")
    by (right; exists "data"%string; reflexivity).
  assert (H2 : lacks "/" "air.2018.nc" = true) by reflexivity.
  split; [auto|].
  exact (proj1 (output_name_stem "data/" "air.2018.nc" H1 H2) "air.2018"%string "nc"%string
               eq_refl eq_refl).
Defined.

Lemma relative_nc_file_year_witness :
  isabs "air.2018.nc" = false
  /\ string_filter isdigit
       (nc_file (parse_args example_SELF_PATH "air.2018.nc" None None))
     = String.append (string_filter isdigit example_SELF_PATH)
                     (string_filter isdigit "air.2018.nc").
Proof.
  assert (H : isabs "air.2018.nc" = false) by reflexivity.
  split; [exact H|].
  exact (proj1 (relative_nc_file_year example_SELF_PATH "air.2018.nc" None None H)).
Defined.

(** With the script in [/opt/trip2], the trip of 2018 is compared with the
    year 22018 and refused. *)
Example script_directory_digit :
  nc_file (parse_args example_SELF_PATH "air.2018.nc" None None)
  = "/opt/trip2/air.2018.nc"%string
  /\ int_of_digits (string_filter isdigit
                      (nc_file (parse_args example_SELF_PATH "air.2018.nc" None None)))
     = 22018
  /\ snd (main (parse_args example_SELF_PATH "air.2018.nc" None None) example_trip
               example_nc_open)
     = Raise (ValueError "Trip should be in boundaries of NC_FILE")
  /\ default_out_file (parse_args example_SELF_PATH "air.2018.nc" (Some "trip.txt"%string) None)
     = "out_for_trip_with_air.2018.txt"%string.
Proof. repeat split; vm_compute; reflexivity. Qed.

(** The trip that returns to its first location: the group of that
    location spans all three days, so the day spent at the second
    location is sampled at the grid cell of the first. *)
Example revisited_location :
  read_trip revisit_trip = Ok revisit_t
  /\ map (fun g => (nc_lat_index g, nc_lon_index g, start_date g, end_date g))
         (dict_values (trip_by_location revisit_t))
     = [(19%nat, 141%nat, mk_datetime 2018 11 16 0 0 0 0, mk_datetime 2018 11 18 23 0 0 0);
        (18%nat, 4%nat, mk_datetime 2018 11 17 0 0 0 0, mk_datetime 2018 11 17 23 0 0 0)]
  /\ dict_get datetime_eqb (mk_datetime 2018 11 17 12 0 0 0) (trip_by_date revisit_t)
     = Some (45 # 1, 10 # 1)%Q
  /\ exists slog nc_data processed_dates,
       sample_locations example_dataset (dict_values (trip_by_location revisit_t))
                        initial_state
       = (slog, Ok (nc_data, processed_dates))
       /\ nth_error processed_dates 6 = Some (mk_datetime 2018 11 17 12 0 0 0)
       /\ option_map (fun series => nth_error series 6) (nth_error nc_data 1)
          = Some (Some (num_sub (nc_air example_dataset 1283 0%nat 19%nat 141%nat)
                                (27315 # 100))).
Proof.
  split; [vm_compute; reflexivity|]. split; [vm_compute; reflexivity|].
  split; [vm_compute; reflexivity|].
  do 3 eexists. split; [vm_compute; reflexivity|].
  split; vm_compute; reflexivity.
Qed.

(** A date that does not exist is refused, coordinates off the globe are
    not. *)
Example trip_read_examples :
  is_ok (read_trip [Matched (mk_date_text 2018 2 30 0 0 0) (Some 0%Q) (Some 0%Q)]) = false
  /\ is_ok (read_trip [Matched (mk_date_text 2018 2 28 0 0 0) (Some 1000%Q) (Some 1000%Q)])
     = true.
Proof. split; vm_compute; reflexivity. Qed.
